(** * Smart Task Planner: the rule-based planner of [app.py], verified

    A shallow embedding of [LLMTaskPlanner] (the start of the planner,
    timeframe extraction, template selection, task and milestone synthesis,
    the Ollama adapter with its fallback, the table of plans) and of the
    [create_plan] and [get_plan] endpoints, followed by the properties the
    specification states about them and by further properties of the
    code.

    Conventions of the embedding:
    - a Python [str] is a [string]; every character is a code point below
      256, so [ascii] is read as Latin-1;
    - a Python [int] is a [Z];
    - a Python [float] is a binary64 number, the kernel's [float];
    - a [datetime] is kept by its proleptic Gregorian ordinal (what
      [toordinal()] returns: 1 is 0001-01-01, [MAXORDINAL] is 9999-12-31).
      The text [strftime("%Y-%m-%d")] stores in the JSON is a one-to-one
      rendering of that ordinal, so equalities and orderings between
      rendered dates are those of the ordinals;
    - code that can raise returns a [result]; [datetime.now()] and the
      answer of the Ollama server are inputs of the functions that read
      them. *)

From Stdlib Require Import ZArith NArith List Bool Lia String Ascii.
From Stdlib Require Import Floats Uint63.
From Stdlib Require DecimalString.
Import ListNotations.

Open Scope string_scope.
Open Scope Z_scope.

(** ** Exceptions *)

Inductive exn : Type :=
| OverflowError
| ValueError
| ZeroDivisionError
| AttributeError
| BadRequest
| JSONDecodeError
| RecursionError
| OperationalError
| UnicodeEncodeError.

Inductive result (A : Type) : Type :=
| Ok (a : A)
| Raise (e : exn).

Arguments Ok {A} a.
Arguments Raise {A} e.

Definition bind {A B} (r : result A) (f : A -> result B) : result B :=
  match r with
  | Ok a => f a
  | Raise e => Raise e
  end.

Notation "x <- c1 ;; c2" := (bind c1 (fun x => c2))
  (at level 61, c1 at next level, right associativity).

(** ** Text *)

Module Text.

Definition code (c : ascii) : nat := nat_of_ascii c.

Definition between (lo hi n : nat) : bool :=
  (Nat.leb lo n && Nat.leb n hi)%bool.

(** [\d] of [re] on a [str]: the decimal digits; below 256 these are
    '0'..'9' only. *)
Definition is_digit (c : ascii) : bool := between 48 57 (code c).

(** [\s] of [re] and [str.isspace]: TAB..CR, FS..US, SPACE, NEL, NBSP. *)
Definition is_space (c : ascii) : bool :=
  let n := code c in
  (between 9 13 n || between 28 32 n || Nat.eqb n 133 || Nat.eqb n 160)%bool.

(** Upper-case letters below 256: A..Z, and the accented capitals 192..222
    without the multiplication sign 215; [lower] moves each 32 up. *)
Definition is_upper (c : ascii) : bool :=
  let n := code c in
  (between 65 90 n || (between 192 222 n && negb (Nat.eqb n 215)))%bool.

Definition is_lower (c : ascii) : bool := between 97 122 (code c).

Definition lower_char (c : ascii) : ascii :=
  if is_upper c then ascii_of_nat (code c + 32) else c.

Definition upper_char (c : ascii) : ascii :=
  if is_lower c then ascii_of_nat (code c - 32) else c.

(** [s.lower()] *)
Fixpoint lower (s : string) : string :=
  match s with
  | EmptyString => EmptyString
  | String c s' => String (lower_char c) (lower s')
  end.

(** [s.capitalize()], for a word of ASCII letters (the planner capitalizes
    only words whose lower-case form is in an ASCII vocabulary). *)
Definition capitalize (s : string) : string :=
  match s with
  | EmptyString => EmptyString
  | String c s' => String (upper_char c) (lower s')
  end.

Fixpoint all_chars (p : ascii -> bool) (s : string) : bool :=
  match s with
  | EmptyString => true
  | String c s' => (p c && all_chars p s')%bool
  end.

Fixpoint any_char (p : ascii -> bool) (s : string) : bool :=
  match s with
  | EmptyString => false
  | String c s' => (p c || any_char p s')%bool
  end.

(** [needle in hay] *)
Fixpoint contains (needle hay : string) : bool :=
  if prefix needle hay then true
  else match hay with
       | EmptyString => false
       | String _ hay' => contains needle hay'
       end.

Fixpoint lstrip (s : string) : string :=
  match s with
  | EmptyString => EmptyString
  | String c s' => if is_space c then lstrip s' else s
  end.

Fixpoint rstrip (s : string) : string :=
  match s with
  | EmptyString => EmptyString
  | String c s' =>
      match rstrip s' with
      | EmptyString => if is_space c then EmptyString else String c EmptyString
      | r => String c r
      end
  end.

(** [s.strip()] *)
Definition strip (s : string) : string := rstrip (lstrip s).

(** [s.split()]: the maximal runs of non-blank characters. [w] is the
    word being read, in reverse. *)
Fixpoint split_from (w : list ascii) (s : string) : list string :=
  let flush := match w with
               | [] => []
               | _ => [string_of_list_ascii (rev w)]
               end in
  match s with
  | EmptyString => flush
  | String c s' =>
      if is_space c then flush ++ split_from [] s'
      else split_from (c :: w) s'
  end.

Definition split (s : string) : list string := split_from [] s.

(** [s.find(c)]: the least index of [c], or -1. *)
Fixpoint find (c : ascii) (s : string) : Z :=
  match s with
  | EmptyString => -1
  | String c' s' =>
      if Ascii.eqb c c' then 0
      else let i := find c s' in if i <? 0 then -1 else i + 1
  end.

(** [s.rfind(c)]: the greatest index of [c], or -1. *)
Fixpoint rfind (c : ascii) (s : string) : Z :=
  match s with
  | EmptyString => -1
  | String c' s' =>
      let i := rfind c s' in
      if 0 <=? i then i + 1
      else if Ascii.eqb c c' then 0 else -1
  end.

(** [s[i:j]] for [0 <= i] and [0 <= j]. *)
Definition slice (i j : Z) (s : string) : string :=
  substring (Z.to_nat i) (Z.to_nat (j - i)) s.

Definition digit_value (c : ascii) : Z := Z.of_nat (code c) - 48.

(** The number a decimal numeral denotes, most significant digit first. *)
Fixpoint decimal_from (acc : Z) (s : string) : Z :=
  match s with
  | EmptyString => acc
  | String c s' => decimal_from (10 * acc + digit_value c) s'
  end.

Definition decimal (s : string) : Z := decimal_from 0 s.

(** [sys.get_int_max_str_digits()], as the interpreter starts. *)
Definition int_max_str_digits : nat := 4300.

(** [int(x)] for the strings the planner passes to it: a run of decimal
    digits. The empty string and anything that is not a digit raise
    [ValueError], and so does a numeral of more digits than
    [int_max_str_digits], leading zeros counted. Below that limit Python
    integers are unbounded, and so is the result. *)
Definition py_int (x : string) : result Z :=
  match x with
  | EmptyString => Raise ValueError
  | _ =>
      if (all_chars is_digit x
          && Nat.leb (String.length x) int_max_str_digits)%bool
      then Ok (decimal x)
      else Raise ValueError
  end.

End Text.

(** ** Regular expressions

    The fragment of [re] that [time_patterns] uses: character classes,
    greedy repetition of a class, an optional part, concatenation and one
    capturing group. [rmatch] is the backtracking matcher: [k] is what
    remains to be matched, tried on the longest alternative first. *)

Module Re.

Inductive regex : Type :=
| Chr (p : ascii -> bool)
| Star (p : ascii -> bool)
| Opt (r : regex)
| Cat (r1 r2 : regex)
| Grp (r : regex).

(** What [r] consumed when it started on [s] and left [rest]. *)
Definition consumed (s rest : string) : string :=
  substring 0 (String.length s - String.length rest) s.

Definition or_else {A} (a b : option A) : option A :=
  match a with
  | Some _ => a
  | None => b
  end.

Fixpoint star {A} (p : ascii -> bool) (s : string)
  (k : string -> option A) : option A :=
  match s with
  | String c s' => if p c then or_else (star p s' k) (k s) else k s
  | EmptyString => k s
  end.

(** [g] is the text of group 1 so far. *)
Fixpoint rmatch {A} (r : regex) (s : string) (g : string)
  (k : string -> string -> option A) : option A :=
  match r with
  | Chr p =>
      match s with
      | String c s' => if p c then k s' g else None
      | EmptyString => None
      end
  | Star p => star p s (fun s' => k s' g)
  | Opt r1 => or_else (rmatch r1 s g k) (k s g)
  | Cat r1 r2 => rmatch r1 s g (fun s' g' => rmatch r2 s' g' k)
  | Grp r1 => rmatch r1 s g (fun s' _ => k s' (consumed s s'))
  end.

(** [re.search(r, s)]: the match at the least start position; the value
    is the match object's [group(1)]. *)
Fixpoint search (r : regex) (s : string) : option string :=
  match rmatch r s EmptyString (fun _ g => Some g) with
  | Some g => Some g
  | None =>
      match s with
      | String _ s' => search r s'
      | EmptyString => None
      end
  end.

Definition plus (p : ascii -> bool) : regex := Cat (Chr p) (Star p).

Fixpoint lit (w : string) : regex :=
  match w with
  | EmptyString => Opt (Chr (fun _ => false))
  | String c EmptyString => Chr (Ascii.eqb c)
  | String c w' => Cat (Chr (Ascii.eqb c)) (lit w')
  end.

(** [(\d+)\s*<unit>s?] *)
Definition number_of (unit : string) : regex :=
  Cat (Grp (plus Text.is_digit))
    (Cat (Star Text.is_space)
       (Cat (lit unit) (Opt (Chr (Ascii.eqb "s"%char))))).

End Re.

(** ** The planner: timeframe *)

(** The three entries of [time_patterns], in the order of the source. *)
Definition time_patterns : list (Re.regex * (string -> result Z)) :=
  [ (Re.number_of "week",  fun x => n <- Text.py_int x ;; Ok (n * 7));
    (Re.number_of "day",   fun x => n <- Text.py_int x ;; Ok n);
    (Re.number_of "month", fun x => n <- Text.py_int x ;; Ok (n * 30)) ].

(** The [for pattern, converter in ...] loop, with the [return 14] after it. *)
Fixpoint first_timeframe (patterns : list (Re.regex * (string -> result Z)))
  (goal : string) : result Z :=
  match patterns with
  | [] => Ok 14
  | (pattern, converter) :: rest =>
      match Re.search pattern (Text.lower goal) with
      | Some group1 => converter group1
      | None => first_timeframe rest goal
      end
  end.

Definition extract_timeframe (goal : string) : result Z :=
  first_timeframe time_patterns goal.

(** ** Dates *)

Module Date.

(** [date.max.toordinal()]: 9999-12-31. *)
Definition MAXORDINAL : Z := 3652059.

(** [timedelta(days=n)]; the value is the number of days. *)
Definition timedelta (days : Z) : result Z :=
  if Z.abs days <=? 999999999 then Ok days else Raise OverflowError.

(** [d + delta] for a [delta] of whole days. *)
Definition add (d delta : Z) : result Z :=
  let r := d + delta in
  if ((1 <=? r) && (r <=? MAXORDINAL))%bool then Ok r
  else Raise OverflowError.

(** [d + timedelta(days=n)] *)
Definition after (d n : Z) : result Z :=
  delta <- timedelta n ;; add d delta.

End Date.

(** ** Floating point *)

Module PyFloat.

(** [float(z)], as [int * float] and [int / int] convert their integer
    operands: to the nearest binary64 number, ties to even, and
    [OverflowError] beyond the largest one. *)
Definition of_int (z : Z) : result float :=
  match binary_normalize prec emax z 0 false with
  | S754_infinity _ => Raise OverflowError
  | x => Ok (SF2Prim x)
  end.

(** [n * x] for an [int] and a [float]. *)
Definition int_mul (n : Z) (x : float) : result float :=
  f <- of_int n ;; Ok (f * x)%float.

(** [a / b] for two [int]s below [2^53] in magnitude, which CPython
    divides as binary64 numbers. The planner's operands are at most
    999999999: [timedelta(days=total_days)] has accepted the dividend. *)
Definition truediv (a b : Z) : result float :=
  if b =? 0 then Raise ZeroDivisionError
  else fa <- of_int a ;; fb <- of_int b ;; Ok (fa / fb)%float.

(** The integer part of [m * 2^e]. *)
Definition truncate (m : positive) (e : Z) : Z :=
  if 0 <=? e then Z.pos m * 2 ^ e else Z.pos m / 2 ^ (- e).

(** [int(x)]: truncation towards zero. *)
Definition to_int (x : float) : result Z :=
  match Prim2SF x with
  | S754_zero _ => Ok 0
  | S754_finite s m e => Ok (if s then - truncate m e else truncate m e)
  | S754_infinity _ => Raise OverflowError
  | S754_nan => Raise ValueError
  end.

(** [int(n * x)] *)
Definition int_of_mul (n : Z) (x : float) : result Z :=
  f <- int_mul n x ;; to_int f.

End PyFloat.

(** ** The plan *)

Record Task : Type := {
  id : Z;
  title : string;
  description : string;
  estimated_hours : Z;
  dependencies : list Z;
  deadline : Z;
  priority : string;
  category : string
}.

Record Milestone : Type := {
  name : string;
  date : Z;
  tasks_completed : list Z
}.

Record Timeline : Type := {
  start_date : Z;
  end_date : Z;
  milestones : list Milestone
}.

Record Plan : Type := {
  goal : string;
  estimated_duration : string;
  tasks : list Task;
  timeline : Timeline
}.

(** [any(word in goal_lower for word in words)] *)
Definition any_in (words : list string) (goal_lower : string) : bool :=
  existsb (fun word => Text.contains word goal_lower) words.

Definition product_words : list string :=
  ["product"; "launch"; "app"; "software"; "platform"; "mobile"].
Definition event_words : list string :=
  ["event"; "meeting"; "conference"; "workshop"; "party"; "gathering"].
Definition learning_words : list string :=
  ["learn"; "study"; "course"; "training"; "skill"; "master"].
Definition research_words : list string :=
  ["research"; "paper"; "thesis"; "study"; "analysis"; "report"].

Local Set Warnings "-inexact-float".

(** *** Product/App launch *)

Definition product_tasks (start_date end_date total_days : Z)
  : result (list Task) :=
  d1 <- Date.after start_date (Z.max 1 (total_days / 7)) ;;
  d2 <- Date.after start_date (Z.max 2 (total_days / 5)) ;;
  d3 <- Date.after start_date (Z.max 4 (total_days / 3)) ;;
  n4 <- PyFloat.int_of_mul total_days 0.6 ;;
  d4 <- Date.after start_date (Z.max 7 n4) ;;
  n5 <- PyFloat.int_of_mul total_days 0.7 ;;
  d5 <- Date.after start_date (Z.max 10 n5) ;;
  n6 <- PyFloat.int_of_mul total_days 0.85 ;;
  d6 <- Date.after start_date (Z.max 13 n6) ;;
  n7 <- PyFloat.int_of_mul total_days 0.9 ;;
  d7 <- Date.after start_date (Z.max 15 n7) ;;
  let d8 := end_date in
    Ok [
        {| id := 1;
           title := "Market Research & User Analysis";
           description :=
             "Conduct comprehensive market research to identify target audience, analyze competitors, and validate product-market fit. Gather user requirements and pain points.";
           estimated_hours := 16;
           dependencies := [];
           deadline := d1;
           priority := "High";
           category := "Research" |};
        {| id := 2;
           title := "Product Requirements Documentation";
           description :=
             "Create detailed product requirements document (PRD) including features, user stories, acceptance criteria, and technical specifications. Define MVP scope.";
           estimated_hours := 20;
           dependencies := [1];
           deadline := d2;
           priority := "High";
           category := "Planning" |};
        {| id := 3;
           title := "UI/UX Design & Prototyping";
           description :=
             "Design user interface mockups, create wireframes, develop interactive prototypes, and establish design system. Include user flow diagrams and navigation structure.";
           estimated_hours := 32;
           dependencies := [2];
           deadline := d3;
           priority := "High";
           category := "Design" |};
        {| id := 4;
           title := "Backend Development & API Implementation";
           description :=
             "Develop server-side logic, create RESTful APIs, implement database schema, set up authentication, and configure cloud infrastructure. Include error handling and logging.";
           estimated_hours := 40;
           dependencies := [2];
           deadline := d4;
           priority := "High";
           category := "Development" |};
        {| id := 5;
           title := "Frontend Development & Integration";
           description :=
             "Build mobile app interface, implement screens from designs, integrate with backend APIs, handle state management, and optimize performance.";
           estimated_hours := 48;
           dependencies := [3; 4];
           deadline := d5;
           priority := "High";
           category := "Development" |};
        {| id := 6;
           title := "Testing & Quality Assurance";
           description :=
             "Execute comprehensive testing including unit tests, integration tests, UI tests, performance testing, and security audits. Fix identified bugs and optimize code.";
           estimated_hours := 24;
           dependencies := [5];
           deadline := d6;
           priority := "High";
           category := "Testing" |};
        {| id := 7;
           title := "App Store Preparation & Submission";
           description :=
             "Prepare app store listings, create screenshots and promotional materials, write descriptions, configure store settings, and submit for review.";
           estimated_hours := 12;
           dependencies := [6];
           deadline := d7;
           priority := "Medium";
           category := "Publishing" |};
        {| id := 8;
           title := "Marketing Campaign & Launch";
           description :=
             "Execute marketing strategy, coordinate social media campaigns, send press releases, engage with early users, and monitor initial user feedback and analytics.";
           estimated_hours := 16;
           dependencies := [7];
           deadline := d8;
           priority := "High";
           category := "Marketing" |} ].

(** *** Event organization *)

Definition event_tasks (start_date end_date total_days : Z)
  : result (list Task) :=
  d1 <- Date.after start_date (Z.max 1 (total_days / 6)) ;;
  d2 <- Date.after start_date (Z.max 2 (total_days / 4)) ;;
  d3 <- Date.after start_date (Z.max 4 (total_days / 2)) ;;
  n4 <- PyFloat.int_of_mul total_days 0.4 ;;
  d4 <- Date.after start_date (Z.max 3 n4) ;;
  n5 <- PyFloat.int_of_mul total_days 0.75 ;;
  d5 <- Date.after start_date (Z.max 6 n5) ;;
  let d6 := end_date in
    Ok [
        {| id := 1;
           title := "Event Concept & Planning";
           description :=
             "Define event objectives, determine target audience, establish theme and format, create preliminary budget, and develop overall event strategy.";
           estimated_hours := 8;
           dependencies := [];
           deadline := d1;
           priority := "High";
           category := "Planning" |};
        {| id := 2;
           title := "Venue Selection & Booking";
           description :=
             "Research suitable venues, conduct site visits, evaluate capacity and amenities, negotiate contracts, and secure venue booking with required deposits.";
           estimated_hours := 12;
           dependencies := [1];
           deadline := d2;
           priority := "High";
           category := "Logistics" |};
        {| id := 3;
           title := "Vendor Coordination & Services";
           description :=
             "Source and book catering services, arrange AV equipment, hire photographers, coordinate with decorators, and confirm all service provider contracts.";
           estimated_hours := 16;
           dependencies := [2];
           deadline := d3;
           priority := "High";
           category := "Logistics" |};
        {| id := 4;
           title := "Guest Management & Invitations";
           description :=
             "Compile guest list, design and send invitations (digital/physical), track RSVPs, manage dietary requirements, and arrange seating plan.";
           estimated_hours := 10;
           dependencies := [1];
           deadline := d4;
           priority := "Medium";
           category := "Communications" |};
        {| id := 5;
           title := "Event Program & Schedule";
           description :=
             "Create detailed event timeline, coordinate speakers or performers, prepare scripts or run sheets, and conduct final walkthroughs with all stakeholders.";
           estimated_hours := 8;
           dependencies := [2; 3];
           deadline := d5;
           priority := "High";
           category := "Planning" |};
        {| id := 6;
           title := "Event Execution & Management";
           description :=
             "Oversee event setup, coordinate all vendors and staff, manage timeline execution, handle real-time issues, and ensure smooth event flow from start to finish.";
           estimated_hours := 12;
           dependencies := [3; 4; 5];
           deadline := d6;
           priority := "High";
           category := "Execution" |} ].

(** *** Learning/Education *)

Definition subject_words : list string :=
  ["python"; "java"; "javascript"; "programming"; "coding"; "data";
   "science"; "machine"; "learning"].

(** The [for word in goal.split()] loop with its [break]. *)
Fixpoint first_subject (words : list string) : string :=
  match words with
  | [] => "the subject"
  | word :: rest =>
      if existsb (String.eqb (Text.lower word)) subject_words
      then Text.capitalize word
      else first_subject rest
  end.

Definition learning_tasks (goal : string) (start_date end_date total_days : Z)
  : result (list Task) :=
  let subject := first_subject (Text.split goal) in
  d1 <- Date.after start_date (Z.max 2 (total_days / 5)) ;;
  n2 <- PyFloat.int_of_mul total_days 0.6 ;;
  d2 <- Date.after start_date (Z.max 6 n2) ;;
  n3 <- PyFloat.int_of_mul total_days 0.8 ;;
  d3 <- Date.after start_date (Z.max 10 n3) ;;
  let d4 := end_date in
    Ok [
        {| id := 1;
           title := "Foundation & Environment Setup for " ++ subject;
           description :=
             "Install necessary software and tools, set up development environment, learn basic syntax and core concepts of " ++ subject ++ ", and complete beginner tutorials.";
           estimated_hours := 12;
           dependencies := [];
           deadline := d1;
           priority := "High";
           category := "Learning" |};
        {| id := 2;
           title := "Intermediate Concepts & Hands-on Practice";
           description :=
             "Study intermediate " ++ subject ++ " concepts through structured courses, complete coding exercises and challenges, build small practice projects, and participate in coding communities.";
           estimated_hours := 24;
           dependencies := [1];
           deadline := d2;
           priority := "High";
           category := "Learning" |};
        {| id := 3;
           title := "Advanced Topics & Real-world Applications";
           description :=
             "Explore advanced " ++ subject ++ " topics including best practices, design patterns, optimization techniques. Work on complex problems and study real-world code examples.";
           estimated_hours := 20;
           dependencies := [2];
           deadline := d3;
           priority := "Medium";
           category := "Practice" |};
        {| id := 4;
           title := "Capstone Project & Portfolio Development";
           description :=
             "Design and build a comprehensive " ++ subject ++ " project demonstrating learned skills. Document code, create README, deploy project, and add to professional portfolio.";
           estimated_hours := 16;
           dependencies := [3];
           deadline := d4;
           priority := "High";
           category := "Portfolio" |} ].

(** *** Research/Academic *)

Definition research_tasks (start_date end_date total_days : Z)
  : result (list Task) :=
  d1 <- Date.after start_date (Z.max 2 (total_days / 4)) ;;
  d2 <- Date.after start_date (Z.max 4 (total_days / 3)) ;;
  n3 <- PyFloat.int_of_mul total_days 0.65 ;;
  d3 <- Date.after start_date (Z.max 8 n3) ;;
  n4 <- PyFloat.int_of_mul total_days 0.85 ;;
  d4 <- Date.after start_date (Z.max 11 n4) ;;
  let d5 := end_date in
    Ok [
        {| id := 1;
           title := "Topic Selection & Literature Review";
           description :=
             "Define research question, conduct comprehensive literature review, identify gaps in existing research, and develop theoretical framework. Compile annotated bibliography.";
           estimated_hours := 20;
           dependencies := [];
           deadline := d1;
           priority := "High";
           category := "Research" |};
        {| id := 2;
           title := "Research Methodology Design";
           description :=
             "Develop research methodology, design data collection instruments, establish sampling strategy, and prepare ethics approval documentation if required.";
           estimated_hours := 12;
           dependencies := [1];
           deadline := d2;
           priority := "High";
           category := "Planning" |};
        {| id := 3;
           title := "Data Collection & Analysis";
           description :=
             "Execute data collection according to methodology, organize and clean data, perform statistical analysis, generate visualizations, and interpret results.";
           estimated_hours := 24;
           dependencies := [2];
           deadline := d3;
           priority := "High";
           category := "Research" |};
        {| id := 4;
           title := "Writing & Documentation";
           description :=
             "Write research paper sections (introduction, methodology, results, discussion, conclusion), create tables and figures, ensure proper citations, and format according to requirements.";
           estimated_hours := 20;
           dependencies := [3];
           deadline := d4;
           priority := "High";
           category := "Writing" |};
        {| id := 5;
           title := "Review, Revision & Submission";
           description :=
             "Proofread paper, incorporate peer feedback, verify citations and references, check formatting compliance, and submit final version before deadline.";
           estimated_hours := 12;
           dependencies := [4];
           deadline := d5;
           priority := "High";
           category := "Finalization" |} ].

(** *** Generic *)

(** An entry of [phase_templates]. [phase_description] is the text before
    the [{goal}] field, which ends every description. *)
Record Phase : Type := {
  phase_name : string;
  phase_description : string;
  phase_category : string
}.

Definition phase_templates : list Phase :=
    [
      {| phase_name := "Planning & Requirements";
         phase_description := "Define objectives, gather requirements, identify stakeholders, create project plan, and establish success criteria for: ";
         phase_category := "Planning" |};
      {| phase_name := "Research & Preparation";
         phase_description := "Conduct necessary research, gather resources, identify potential challenges, and prepare detailed approach for executing: ";
         phase_category := "Research" |};
      {| phase_name := "Implementation Phase 1";
         phase_description := "Begin core execution activities, establish foundations, implement initial components, and validate approach for: ";
         phase_category := "Development" |};
      {| phase_name := "Implementation Phase 2";
         phase_description := "Continue development work, integrate components, address identified issues, and complete majority of work for: ";
         phase_category := "Development" |};
      {| phase_name := "Testing & Quality Assurance";
         phase_description := "Conduct thorough testing, verify all requirements are met, identify and fix issues, and ensure quality standards for: ";
         phase_category := "Testing" |};
      {| phase_name := "Finalization & Documentation";
         phase_description := "Complete remaining tasks, create necessary documentation, prepare deliverables, and finalize all aspects of: ";
         phase_category := "Finalization" |};
      {| phase_name := "Delivery & Completion";
         phase_description := "Deliver final output, gather feedback, ensure stakeholder satisfaction, and officially close project for: ";
         phase_category := "Completion" |} ].

Definition no_phase : Phase :=
  {| phase_name := ""; phase_description := ""; phase_category := "" |}.

Definition priorities : list string :=
  ["High"; "High"; "Medium"; "High"; "High"; "Medium"; "High"].

(** The body of [for i in range(num_tasks)]: the task appended at [i]. *)
Definition generic_task (goal : string) (start_date : Z)
  (task_duration : float) (i : Z) : result Task :=
  let template :=
    nth (Z.to_nat (Z.min i (Z.of_nat (List.length phase_templates) - 1)))
      phase_templates no_phase in
  days <- PyFloat.int_of_mul i task_duration ;;
  task_date <- Date.after start_date days ;;
  Ok {| id := i + 1;
        title := phase_name template;
        description := phase_description template ++ goal;
        estimated_hours := 10 + (i mod 3) * 6;
        dependencies := if 0 <? i then [i] else [];
        deadline := task_date;
        priority := nth (Z.to_nat (Z.min i 6)) priorities "";
        category := phase_category template |}.

(** [range(n)] *)
Definition range (n : Z) : list Z := map Z.of_nat (seq 0 (Z.to_nat n)).

Fixpoint for_each {A B} (f : A -> result B) (l : list A) : result (list B) :=
  match l with
  | [] => Ok []
  | a :: l' => b <- f a ;; bs <- for_each f l' ;; Ok (b :: bs)
  end.

Definition generic_tasks (goal : string) (start_date total_days : Z)
  : result (list Task) :=
  let num_tasks := Z.max 4 (Z.min 7 (total_days / 3)) in
  task_duration <- PyFloat.truediv total_days num_tasks ;;
  for_each (generic_task goal start_date task_duration) (range num_tasks).

(** *** Milestones *)

Definition make_milestones (tasks : list Task)
  (start_date end_date total_days : Z) : result (list Milestone) :=
  let kickoff :=
    {| name := "Project Kickoff & Planning Complete";
       date := start_date;
       tasks_completed := [] |} in
  let completion :=
    {| name := "Project Completion & Delivery";
       date := end_date;
       tasks_completed := map id tasks |} in
  if 3 <? Z.of_nat (List.length tasks) then
    let third_point := Z.of_nat (List.length tasks) / 3 in
    let two_third_point := (Z.of_nat (List.length tasks) * 2) / 3 in
    date1 <- Date.after start_date (total_days / 3) ;;
    date2 <- Date.after start_date ((total_days * 2) / 3) ;;
    Ok [ kickoff;
         {| name := "Initial Phase Complete";
            date := date1;
            tasks_completed :=
              map id (firstn (Z.to_nat third_point) tasks) |};
         {| name := "Development Phase Complete";
            date := date2;
            tasks_completed :=
              map id (firstn (Z.to_nat two_third_point) tasks) |};
         completion ]
  else Ok [ kickoff; completion ].

(** *** The rule-based generator *)

(** [str(n)] for an [int]. *)
Definition str (n : Z) : string :=
  DecimalString.NilZero.string_of_int (Z.to_int n).

(** The [if]/[elif] chain that fills [tasks]. *)
Definition template_tasks (goal : string)
  (start_date end_date total_days : Z) : result (list Task) :=
  let goal_lower := Text.lower goal in
  if any_in product_words goal_lower then
    product_tasks start_date end_date total_days
  else if any_in event_words goal_lower then
    event_tasks start_date end_date total_days
  else if any_in learning_words goal_lower then
    learning_tasks goal start_date end_date total_days
  else if any_in research_words goal_lower then
    research_tasks start_date end_date total_days
  else
    generic_tasks goal start_date total_days.

(** The template families, and the branch of the chain a goal takes. *)
Inductive TemplateFamily : Type :=
| Product
| Event
| Learning
| Research
| Generic.

Definition classify (goal : string) : TemplateFamily :=
  let goal_lower := Text.lower goal in
  if any_in product_words goal_lower then Product
  else if any_in event_words goal_lower then Event
  else if any_in learning_words goal_lower then Learning
  else if any_in research_words goal_lower then Research
  else Generic.

Definition family_tasks (family : TemplateFamily) (goal : string)
  (start_date end_date total_days : Z) : result (list Task) :=
  match family with
  | Product => product_tasks start_date end_date total_days
  | Event => event_tasks start_date end_date total_days
  | Learning => learning_tasks goal start_date end_date total_days
  | Research => research_tasks start_date end_date total_days
  | Generic => generic_tasks goal start_date total_days
  end.

(** The largest minimum of days, [max(floor, ...)], in a family's deadlines. *)
Definition floor_days (family : TemplateFamily) : Z :=
  match family with
  | Product => 15
  | Event => 6
  | Learning => 10
  | Research => 11
  | Generic => 0
  end.

(** [now] is what [datetime.now()] returns. *)
Definition fallback_plan_generation (now : Z) (goal : string) : result Plan :=
  total_days <- extract_timeframe goal ;;
  let start_date := now in
  end_date <- Date.after start_date total_days ;;
  tasks <- template_tasks goal start_date end_date total_days ;;
  milestones <- make_milestones tasks start_date end_date total_days ;;
  Ok {| goal := goal;
        estimated_duration := str total_days ++ " days";
        tasks := tasks;
        timeline := {| start_date := start_date;
                       end_date := end_date;
                       milestones := milestones |} |}.

(** ** The Ollama adapter and the plan endpoint *)

Local Set Warnings "-register-all".

Inductive json : Type :=
| JNull
| JBool (b : bool)
| JNumber (n : Z)
| JString (s : string)
| JArray (items : list json)
| JObject (fields : list (string * json)).

(** [d.get(key)] on the entries of a [dict]. *)
Fixpoint lookup (key : string) (fields : list (string * json)) : option json :=
  match fields with
  | [] => None
  | (k, v) :: rest => if String.eqb k key then Some v else lookup key rest
  end.

(** What a request to the Ollama server comes back with: [requests] raises
    on a refused connection and on a timeout, and returns a response with
    its status and text otherwise. *)
Inductive Reply : Type :=
| ConnectionRefused
| ReadTimeout
| Response (status_code : Z) (text : string).

(** The lines the planner prints. *)
Inductive Line : Type :=
| InfoGenerating (method : string)
| WarnNoJson
| WarnJsonParse
| WarnApi (status_code : Z)
| WarnConnection.

(** A generated plan: the object parsed out of the model's answer, or the
    dictionary the rule-based generator builds. *)
Inductive Generated : Type :=
| FromLLM (plan : json)
| FromRules (plan : Plan).

(** A row of [task_plans]. *)
Record Row : Type := {
  row_id : Z;
  row_goal : string;
  row_plan : Generated;
  row_llm_method : string
}.

(** The planner with what it acts on: [ollama] holds the replies the server
    will give to the coming requests, [posts] counts the generation requests
    sent, [stdout] the lines printed, [task_plans] the table.
    [sqlite_sequence] is the largest id the table ever gave a row, which
    SQLite keeps for an [AUTOINCREMENT] key, also after the row is deleted.
    [inserts] holds what the coming calls of [save_plan] run into:
    nothing, or the exception raised (a goal that cannot be encoded as
    UTF-8, a disk that is full). *)
Record World : Type := {
  llm_method : string;
  ollama : list Reply;
  posts : nat;
  stdout : list Line;
  task_plans : list Row;
  sqlite_sequence : Z;
  inserts : list (option exn)
}.

Definition print (e : Line) (w : World) : World :=
  {| llm_method := llm_method w;
     ollama := ollama w;
     posts := posts w;
     stdout := stdout w ++ [e];
     task_plans := task_plans w;
     sqlite_sequence := sqlite_sequence w;
     inserts := inserts w |}.

(** [ollama_requests.post(...)]: one request, one reply. A server with no
    reply left refuses the connection. *)
Definition post (w : World) : Reply * World :=
  let sent (rest : list Reply) :=
    {| llm_method := llm_method w;
       ollama := rest;
       posts := S (posts w);
       stdout := stdout w;
       task_plans := task_plans w;
       sqlite_sequence := sqlite_sequence w;
       inserts := inserts w |} in
  match ollama w with
  | [] => (ConnectionRefused, sent [])
  | r :: rest => (r, sent rest)
  end.

Definition from_rules (r : result Plan) : result Generated :=
  match r with
  | Ok p => Ok (FromRules p)
  | Raise e => Raise e
  end.

Section Adapter.

(** [json.loads]: the value a text denotes, or the exception it raises:
    [JSONDecodeError] for a text that is not JSON, and others besides (a
    [ValueError] for a numeral of more than 4300 digits, a
    [RecursionError] for brackets nested too deep). *)
Variable loads : string -> result json.

(** [response.json().get('response', '')], when that is a string; [None]
    when one of the steps raises (the body is not JSON, it is not an
    object, or the entry is not a string and has no [find]). *)
Definition response_text (body : string) : option string :=
  match loads body with
  | Ok (JObject fields) =>
      match lookup "response" fields with
      | None => Some ""
      | Some (JString s) => Some s
      | Some _ => None
      end
  | _ => None
  end.

(** The handler [except Exception as e] of [generate_with_ollama]. *)
Definition on_exception (now : Z) (goal : string) (w : World)
  : result Generated * World :=
  (from_rules (fallback_plan_generation now goal), print WarnConnection w).

(** [return self.fallback_plan_generation(goal)] inside the [try]: what the
    generator raises reaches the handler above. *)
Definition fallback_in_try (now : Z) (goal : string) (w : World)
  : result Generated * World :=
  match fallback_plan_generation now goal with
  | Ok p => (Ok (FromRules p), w)
  | Raise _ => on_exception now goal w
  end.

Definition generate_with_ollama (now : Z) (goal : string) (w : World)
  : result Generated * World :=
  let (reply, w) := post w in
  match reply with
  | ConnectionRefused | ReadTimeout => on_exception now goal w
  | Response status_code body =>
      if status_code =? 200 then
        match response_text body with
        | None => on_exception now goal w
        | Some llm_response =>
            let json_start := Text.find "{" llm_response in
            let json_end := Text.rfind "}" llm_response + 1 in
            if ((0 <=? json_start) && (json_start <? json_end))%bool then
              let json_str := Text.slice json_start json_end llm_response in
              match loads json_str with
              | Ok plan => (Ok (FromLLM plan), w)
              | Raise JSONDecodeError =>
                  fallback_in_try now goal (print WarnJsonParse w)
              | Raise _ => on_exception now goal w
              end
            else fallback_in_try now goal (print WarnNoJson w)
        end
      else fallback_in_try now goal (print (WarnApi status_code) w)
  end.

Definition generate_task_plan (now : Z) (goal : string) (w : World)
  : result Generated * World :=
  let w := print (InfoGenerating (llm_method w)) w in
  if String.eqb (llm_method w) "ollama" then generate_with_ollama now goal w
  else (from_rules (fallback_plan_generation now goal), w).

(** The largest id of the rows of a table, 0 for an empty one. *)
Definition largest_id (rows : list Row) : Z :=
  fold_right Z.max 0 (map row_id rows).

(** The largest id a row can have, [2^63 - 1]. *)
Definition MAX_ROWID : Z := 9223372036854775807.

(** [save_plan]. The row gets the id [cursor.lastrowid] reports, the one
    SQLite gives an [AUTOINCREMENT] key: one more than the largest id the
    table ever held, whether that row is still there or not; when that id
    would pass [MAX_ROWID] the [INSERT] fails. An exception leaves the
    table as it was and reaches the caller. *)
Definition save_plan (goal : string) (plan : Generated) (w : World)
  : result Z * World :=
  let fault := match inserts w with
               | [] => None
               | f :: _ => f
               end in
  let largest := Z.max (sqlite_sequence w) (largest_id (task_plans w)) in
  let tried (table : list Row) (sequence : Z) :=
    {| llm_method := llm_method w;
       ollama := ollama w;
       posts := posts w;
       stdout := stdout w;
       task_plans := table;
       sqlite_sequence := sequence;
       inserts := tl (inserts w) |} in
  match fault with
  | Some e => (Raise e, tried (task_plans w) (sqlite_sequence w))
  | None =>
      if MAX_ROWID <=? largest
      then (Raise OperationalError,
            tried (task_plans w) (sqlite_sequence w))
      else
        let plan_id := largest + 1 in
        (Ok plan_id,
         tried (task_plans w ++
                  [ {| row_id := plan_id;
                       row_goal := goal;
                       row_plan := plan;
                       row_llm_method := llm_method w |} ])%list
               plan_id)
  end.

(** What [create_plan] answers. *)
Inductive HttpResponse : Type :=
| Status400 (error : string)
| Status200 (plan : Generated) (plan_id : Z) (method : string)
| Status500 (error : exn).

(** [POST /api/plan]. [data] is what [request.get_json()] returns, [None]
    when it raises. *)
Definition create_plan (now : Z) (data : option json) (w : World)
  : HttpResponse * World :=
  match data with
  | None => (Status500 BadRequest, w)
  | Some (JObject fields) =>
      let goal_entry :=
        match lookup "goal" fields with
        | Some v => v
        | None => JString ""
        end in
      match goal_entry with
      | JString s =>
          let goal := Text.strip s in
          if String.eqb goal "" then (Status400 "Goal is required", w)
          else
            let (r, w) := generate_task_plan now goal w in
            match r with
            | Raise e => (Status500 e, w)
            | Ok plan =>
                let (saved, w) := save_plan goal plan w in
                match saved with
                | Raise e => (Status500 e, w)
                | Ok plan_id => (Status200 plan plan_id (llm_method w), w)
                end
            end
      | _ => (Status500 AttributeError, w)
      end
  | Some _ => (Status500 AttributeError, w)
  end.

End Adapter.

(** ** The adapter, as the specification words it *)

Section AdapterSpec.

Variable loads : string -> result json.

(** The text between the first opening and the last closing brace. *)
Definition located_json (text : string) : option string :=
  let first_open := Text.find "{" text in
  let last_close := Text.rfind "}" text in
  if ((0 <=? first_open) && (first_open <=? last_close))%bool
  then Some (Text.slice first_open (last_close + 1) text)
  else None.

(** The object the model answered with: the call came back with status
    200, its text holds a brace-delimited part, and that part parses. *)
Definition parsed_answer (reply : Reply) : option json :=
  match reply with
  | Response status_code body =>
      if status_code =? 200 then
        match response_text loads body with
        | Some text =>
            match located_json text with
            | Some json_str =>
                match loads json_str with
                | Ok plan => Some plan
                | Raise _ => None
                end
            | None => None
            end
        | None => None
        end
      else None
  | ConnectionRefused | ReadTimeout => None
  end.

(** The parsed object when there is one, the rule-based plan otherwise. *)
Definition answer_or_fallback (now : Z) (goal : string) (reply : Reply)
  : result Generated :=
  match parsed_answer reply with
  | Some plan => Ok (FromLLM plan)
  | None => from_rules (fallback_plan_generation now goal)
  end.

End AdapterSpec.

(** ** Starting the planner, and reading a plan back *)

(** [check_ollama_server]: [probe] is what the request for [/api/tags]
    comes back with; the bare [except] turns a request that raises into
    [False]. *)
Definition check_ollama_server (probe : Reply) : bool :=
  match probe with
  | Response status_code _ => status_code =? 200
  | ConnectionRefused | ReadTimeout => false
  end.

(** The line [initialize_llm] prints before it returns. *)
Inductive StartLine : Type :=
| InfoUsingOllama
| InfoUsingRules.

(** [initialize_llm]: the method, with the line printed. The Hugging Face
    branch is commented out in the source. *)
Definition initialize_llm (probe : Reply) : string * StartLine :=
  if check_ollama_server probe then ("ollama", InfoUsingOllama)
  else ("fallback", InfoUsingRules).

(** [init_database]: [CREATE TABLE IF NOT EXISTS]. [db] is the table
    [tasks.db] holds with its [sqlite_sequence], [None] when it holds
    none. *)
Definition init_database (db : option (list Row * Z)) : list Row * Z :=
  match db with
  | Some table => table
  | None => ([], 0)
  end.

(** [LLMTaskPlanner()]: the table is made ready, then the method is chosen.
    [server] holds the replies to the generation requests to come and
    [disk] what the [INSERT]s to come run into. The line printed at start
    is returned beside the planner, whose [stdout] keeps the lines of the
    requests it serves. *)
Definition LLMTaskPlanner (db : option (list Row * Z)) (probe : Reply)
  (server : list Reply) (disk : list (option exn)) : StartLine * World :=
  let table := init_database db in
  let (method, line) := initialize_llm probe in
  (line,
   {| llm_method := method;
      ollama := server;
      posts := 0;
      stdout := [];
      task_plans := fst table;
      sqlite_sequence := snd table;
      inserts := disk |}).

(** [LLMTaskPlanner.get_plan]: [SELECT * ... WHERE id = ?] and [fetchone].
    [sqlite3] binds an [int] of 64 bits and raises [OverflowError] on any
    other. Beyond that the table is taken to be readable, and its rows to
    be those [save_plan] wrote: the plan was stored by [json.dumps] and is
    read by [json.loads], which gives the stored object back.
    [created_at], the time the table stamps on a row, is not kept in
    [Row]. *)
Definition get_plan (plan_id : Z) (w : World) : result (option Row) :=
  if ((- MAX_ROWID - 1 <=? plan_id) && (plan_id <=? MAX_ROWID))%bool
  then Ok (List.find (fun row => row_id row =? plan_id) (task_plans w))
  else Raise OverflowError.

(** What the route [get_plan] answers. *)
Inductive PlanResponse : Type :=
| Found200 (plan : Row)
| NotFound404 (error : string)
| Error500 (error : exn).

(** [GET /api/plan/<int:plan_id>], the route function [get_plan]. *)
Definition get_plan_endpoint (plan_id : Z) (w : World) : PlanResponse :=
  match get_plan plan_id w with
  | Raise e => Error500 e
  | Ok (Some plan) => Found200 plan
  | Ok None => NotFound404 "Plan not found"
  end.

(** ** Printing a plan ([demo.py]) *)

(** [priority_marker.get(task['priority'], "[NORMAL]")] in
    [print_plan_detailed]. *)
Definition priority_marker (priority : string) : string :=
  if String.eqb priority "High" then "[HIGH]"
  else if String.eqb priority "Medium" then "[MED]"
  else if String.eqb priority "Low" then "[LOW]"
  else "[NORMAL]".

(** ** Checking the float arithmetic of a day count

    [PyFloat] computes through the specification of binary64 numbers. The
    functions below compute with machine integers and floats only, so that
    a property can be checked for every day count a date can hold. *)

(** [int(f)] for a normal float from 0 to below [2^53]: [frshiftexp] and
    [normfr_mantissa] give [f = m * 2^(se - 2154)] with [2^52 <= m < 2^53],
    and the integer part is [m] shifted right. [None] for any other float. *)
Definition fast_to_int (f : float) : option int :=
  if PrimFloat.is_nan f then None
  else if PrimFloat.is_zero f then Some 0%uint63
  else if PrimFloat.is_infinity f then None
  else if (f <? zero)%float then None
  else
    let (r, se) := frshiftexp f in
    let m := normfr_mantissa r in
    if ((m >> 52 =? 1) && (1080 <=? se) && (se <=? 2154))%uint63
    then Some (m >> (2154 - se))%uint63
    else None.

(** The factors of [total_days] in the four keyword templates. *)
Definition factors : list float :=
  [0.6; 0.7; 0.85; 0.9; 0.4; 0.75; 0.8; 0.65]%float.

(** [max(4, min(7, i // 3))] *)
Definition num_tasks_of (i : int) : int :=
  if (i <? 15)%uint63 then 4%uint63
  else if (i <? 18)%uint63 then 5%uint63
  else if (i <? 21)%uint63 then 6%uint63
  else 7%uint63.

(** [0 <= x <= f] *)
Definition within (f x : float) : bool :=
  ((zero <=? x)%float && (x <=? f)%float)%bool.

(** For the day count [i]: [float(i)] is [i]; every [i * c] lies between
    0 and [i]; and so does every [j * (i / n)] for the number [n] of generic
    tasks and [j < n]. *)
Definition check_day (i : int) : bool :=
  let f := of_uint63 i in
  (negb (PrimFloat.is_infinity f)
   && match fast_to_int f with
      | Some v => (v =? i)%uint63
      | None => false
      end
   && forallb (fun c => within f (f * c)%float) factors
   && let n := num_tasks_of i in
      let dur := (f / of_uint63 n)%float in
      forallb (fun j => if (j <? n)%uint63
                        then within f (of_uint63 j * dur)%float
                        else true)
        [0; 1; 2; 3; 4; 5; 6]%uint63)%bool.

(** One step of the check of all day counts: the next day count, and
    whether every day count so far passed. *)
Definition step (st : int * bool) : int * bool :=
  let (i, ok) := st in ((i + 1)%uint63, (ok && check_day i)%bool).

(** ** Growing sets of completed tasks *)

(** Each list of ids is included in the one after it. *)
Fixpoint increasing (sets : list (list Z)) : Prop :=
  match sets with
  | a :: (b :: _) as rest => incl a b /\ increasing rest
  | _ => True
  end.

(** ** Notions the properties are stated with *)

(** A regex without a group leaves group 1 as it found it. *)
Fixpoint groupless (r : Re.regex) : bool :=
  match r with
  | Re.Chr _ | Re.Star _ => true
  | Re.Opt r1 => groupless r1
  | Re.Cat r1 r2 => groupless r1 && groupless r2
  | Re.Grp _ => false
  end.

(** The end of a match: its value is group 1. *)
Definition final_group : string -> string -> option string :=
  fun _ g => Some g.

(** A unit of time starts with a character that is neither a digit nor
    blank. *)
Definition unit_word (unit : string) : bool :=
  match unit with
  | String c _ => (negb (Text.is_digit c) && negb (Text.is_space c))%bool
  | EmptyString => false
  end.

(** [ds] is a number that [unit] follows, at the start of [s]: a run of
    digits, blanks if any, and the unit. *)
Definition number_here (unit s ds : string) : Prop :=
  exists ws rest,
    s = ds ++ ws ++ unit ++ rest /\ ds <> ""
    /\ Text.all_chars Text.is_digit ds = true
    /\ Text.all_chars Text.is_space ws = true.

(** [ds] is the first number of [s] that [unit] follows: it stands after
    [pre], and no such number starts inside [pre]. *)
Definition first_number (unit s ds : string) : Prop :=
  exists pre s',
    s = pre ++ s' /\ number_here unit s' ds
    /\ forall a b ds',
         pre = a ++ b -> b <> "" -> ~ number_here unit (b ++ s') ds'.

(** No number of [s] is followed by [unit]. *)
Definition no_number (unit s : string) : Prop :=
  forall pre s' ds, s = pre ++ s' -> ~ number_here unit s' ds.

(** [int(ds) * k]: the value of the numeral times [k], [ValueError] for a
    numeral of more than 4300 digits. *)
Definition days_of (ds : string) (k : Z) : result Z :=
  if Nat.leb (String.length ds) 4300 then Ok (Text.decimal ds * k)
  else Raise ValueError.

(** The number [extract_timeframe] reads in a goal and what a unit of it
    counts in days: the first number of weeks; when there is none, the
    first number of days; when there is none either, the first number of
    months. *)
Definition timeframe_number (goal ds : string) (k : Z) : Prop :=
  let s := Text.lower goal in
  (first_number "week" s ds /\ k = 7)
  \/ (no_number "week" s /\ first_number "day" s ds /\ k = 1)
  \/ (no_number "week" s /\ no_number "day" s
      /\ first_number "month" s ds /\ k = 30).

(** A goal without a number that a unit follows. *)
Definition no_timeframe (goal : string) : Prop :=
  let s := Text.lower goal in
  no_number "week" s /\ no_number "day" s /\ no_number "month" s.

(** A computation that raises nothing but [OverflowError]. *)
Definition only_overflow {A} (r : result A) : Prop :=
  match r with
  | Ok _ => True
  | Raise e => e = OverflowError
  end.

(** A computation that returns. *)
Definition succeeds {A} (r : result A) : Prop := exists a, r = Ok a.

(** The number of tasks of a template, 0 when it raises. *)
Definition task_count (r : result (list Task)) : nat :=
  match r with
  | Ok ts => List.length ts
  | Raise _ => 0
  end.

(** What stays as it was when lines are printed. *)
Definition same_server (w w' : World) : Prop :=
  llm_method w' = llm_method w /\ ollama w' = ollama w
  /\ posts w' = posts w /\ task_plans w' = task_plans w
  /\ sqlite_sequence w' = sqlite_sequence w /\ inserts w' = inserts w.

(** Dates that never go back. *)
Fixpoint nondecreasing (dates : list Z) : Prop :=
  match dates with
  | a :: (b :: _) as rest => a <= b /\ nondecreasing rest
  | _ => True
  end.

(** One of [words] occurs in [s], at any place. *)
Definition occurs (words : list string) (s : string) : Prop :=
  exists word pre post, In word words /\ s = pre ++ word ++ post.

(** No two rows of a table share an id: [id] is its primary key. *)
Definition unique_ids (rows : list Row) : Prop := NoDup (map row_id rows).

(** An id that [sqlite3] can bind: an integer of 64 bits. *)
Definition bindable (plan_id : Z) : Prop :=
  - MAX_ROWID - 1 <= plan_id <= MAX_ROWID.

(** The next [INSERT] runs into nothing, and an id is left for its row. *)
Definition insert_succeeds (w : World) : Prop :=
  hd None (inserts w) = None
  /\ sqlite_sequence w < MAX_ROWID
  /\ forall row, In row (task_plans w) -> row_id row < MAX_ROWID.

(** The text of a 200 reply's body: the body is read as an object, and the
    text is its "response", the empty text when it has none. *)
Definition response_of (loads : string -> result json) (body text : string)
  : Prop :=
  exists fields,
    loads body = Ok (JObject fields)
    /\ (lookup "response" fields = Some (JString text)
        \/ (lookup "response" fields = None /\ text = "")).

(** [json_str] is the part of [text] from its first opening brace to its
    last closing brace. *)
Definition braced_part (text json_str : string) : Prop :=
  exists before mid after,
    text = before ++ "{" ++ mid ++ "}" ++ after
    /\ json_str = "{" ++ mid ++ "}"
    /\ Text.any_char (Ascii.eqb "{") before = false
    /\ Text.any_char (Ascii.eqb "}") after = false.

(** [text] holds no opening brace with a closing brace after it. *)
Definition no_braced_part (text : string) : Prop :=
  forall before mid after, text <> before ++ "{" ++ mid ++ "}" ++ after.

(** A line that reports a failure of the model. *)
Definition is_warning (line : Line) : bool :=
  match line with
  | InfoGenerating _ => false
  | _ => true
  end.

(** The number of lines "[INFO] Generating plan using: ..." printed. *)
Definition announcements (lines : list Line) : nat :=
  List.length (filter (fun line => negb (is_warning line)) lines).

Section Service.

Variable loads : string -> result json.

(** The states of the service: a planner is made over the table [db], and
    then serves [POST /api/plan] requests ([GET /api/plan/<id>] changes
    nothing). *)
Inductive reachable (db : option (list Row * Z)) : World -> Prop :=
| reachable_start probe server disk :
    reachable db (snd (LLMTaskPlanner db probe server disk))
| reachable_create now data w :
    reachable db w -> reachable db (snd (create_plan loads now data w)).

End Service.

(** ** Sample runs *)

Definition no_plan : Plan :=
  {| goal := ""; estimated_duration := ""; tasks := [];
     timeline := {| start_date := 0; end_date := 0; milestones := [] |} |}.

Definition no_milestone : Milestone :=
  {| name := ""; date := 0; tasks_completed := [] |}.

Definition no_task : Task :=
  {| id := 0; title := ""; description := ""; estimated_hours := 0;
     dependencies := []; deadline := 0; priority := ""; category := "" |}.

Definition plan_of (r : result Plan) : Plan :=
  match r with
  | Ok p => p
  | Raise _ => no_plan
  end.

(** The ordinal of 2026-11-04. *)
Definition a_day : Z := 739924.

Definition launch_plan : Plan :=
  plan_of (fallback_plan_generation a_day "Launch a mobile app in 3 weeks").

Definition rush_plan : Plan :=
  plan_of (fallback_plan_generation a_day "Launch an app in 1 day").

Definition far_goal : string := "Learn the piano in 400000 months".

(** A planner that found no Ollama server when it started. *)
Definition rule_based : World :=
  {| llm_method := "fallback"; ollama := []; posts := 0;
     stdout := []; task_plans := []; sqlite_sequence := 0; inserts := [] |}.

(** A request whose goal is blank. *)
Definition blank_request : list (string * json) :=
  [("goal", JString "   ")].

(** A [json.loads] that accepts nothing. *)
Definition no_json : string -> result json :=
  fun _ => Raise JSONDecodeError.

Definition novel_plan : Plan :=
  plan_of (fallback_plan_generation a_day "Write a novel").

(** A [json.loads] that reads the server's body as an object whose
    "response" is a sentence around a pair of braces, and the braces as the
    empty object. *)
Definition chatty_loads (s : string) : result json :=
  if String.eqb s "body"
  then Ok (JObject [("response", JString "Here is the plan: {} Enjoy!")])
  else if String.eqb s "{}" then Ok (JObject [])
  else Raise JSONDecodeError.

(** A planner on Ollama, whose server answers once. *)
Definition chatty : World :=
  {| llm_method := "ollama"; ollama := [Response 200 "body"]; posts := 0;
     stdout := []; task_plans := []; sqlite_sequence := 0; inserts := [] |}.

(** A [json.loads] that reads the server's body as an object whose
    "response" is the number 5. *)
Definition numeric_loads (s : string) : result json :=
  if String.eqb s "body" then Ok (JObject [("response", JNumber 5)])
  else Raise JSONDecodeError.

(** A table that holds the rows 1 and 2 after its row 3 was deleted. *)
Definition after_delete : World :=
  {| llm_method := "fallback"; ollama := []; posts := 0; stdout := [];
     task_plans :=
       [ {| row_id := 1; row_goal := "Write a novel";
            row_plan := FromLLM (JObject []); row_llm_method := "ollama" |};
         {| row_id := 2; row_goal := "Plan a party";
            row_plan := FromLLM (JObject []); row_llm_method := "ollama" |} ];
     sqlite_sequence := 3; inserts := [] |}.

(** A request for a plan of a novel. *)
Definition novel_request : list (string * json) :=
  [("goal", JString "  Write a novel ")].

(** A service started on an empty [tasks.db] with no Ollama server, after
    it served the request for a novel. *)
Definition served_novel : World :=
  snd (create_plan no_json a_day (Some (JObject novel_request))
         (snd (LLMTaskPlanner None ConnectionRefused [] []))).

(** A request whose goal is a number. *)
Definition number_request : list (string * json) := [("goal", JNumber 5)].

(** * Properties *)

(** ** Floating point: the machine computation agrees with the model *)

Lemma digits2_pos_size p : digits2_pos p = Pos.size p.
Proof. induction p; simpl; congruence. Qed.

Lemma size_bounds p :
  Z.pos p < 2 ^ Z.pos (Pos.size p) /\ 2 ^ Z.pos (Pos.size p) <= 2 * Z.pos p.
Proof.
  split.
  - rewrite <- Pos2Z.inj_pow. exact (Pos.size_gt p).
  - rewrite <- Pos2Z.inj_pow. exact (Pos.size_le p).
Qed.

Lemma valid_bounds m e :
  bounded prec emax m e = true ->
  -1074 <= e /\ Z.pos m < 2 ^ 53 /\ (-1074 < e -> 2 ^ 52 <= Z.pos m).
Proof.
  unfold bounded, canonical_mantissa, fexp, SpecFloat.emin, prec, emax.
  intros H. apply andb_prop in H as [H _]. apply Z.eqb_eq in H.
  rewrite digits2_pos_size in H.
  destruct (size_bounds m) as [Hgt Hle].
  set (d := Z.pos (Pos.size m)) in *.
  assert (Hd : 0 < d) by (unfold d; lia).
  split; [lia|]. split.
  - assert (2 ^ d <= 2 ^ 53) by (apply Z.pow_le_mono_r; lia). lia.
  - intros He. assert (d = 53) as Hd53 by lia. rewrite Hd53 in Hle.
    change (2 ^ 53) with (2 * 2 ^ 52) in Hle. lia.
Qed.

Lemma truncate_nonneg m e : 0 <= PyFloat.truncate m e.
Proof.
  unfold PyFloat.truncate. destruct (0 <=? e) eqn:E.
  - apply Z.leb_le in E. apply Z.mul_nonneg_nonneg; [lia|]. now apply Z.pow_nonneg.
  - apply Z.div_pos; [lia|]. apply Z.pow_pos_nonneg; lia.
Qed.

Lemma trunc_le_same mx my e :
  Z.pos mx <= Z.pos my -> PyFloat.truncate mx e <= PyFloat.truncate my e.
Proof.
  intros H. unfold PyFloat.truncate. destruct (0 <=? e) eqn:E.
  - apply Z.leb_le in E. apply Z.mul_le_mono_nonneg_r; [now apply Z.pow_nonneg|exact H].
  - apply Z.leb_gt in E. apply Z.div_le_mono; [apply Z.pow_pos_nonneg; lia|exact H].
Qed.

Lemma half_le mx my b :
  Z.pos mx < 2 ^ 53 -> 2 ^ 52 <= Z.pos my -> 2 <= b ->
  Z.pos mx / b <= Z.pos my.
Proof.
  intros Hx Hy Hb. change (2 ^ 53) with (2 * 2 ^ 52) in Hx.
  apply Z.lt_le_incl. apply Z.div_lt_upper_bound; [lia|]. nia.
Qed.

Lemma trunc_le_normal mx ex my ey :
  Z.pos mx < 2 ^ 53 -> 2 ^ 52 <= Z.pos my -> ex < ey ->
  PyFloat.truncate mx ex <= PyFloat.truncate my ey.
Proof.
  intros Hx Hy He. unfold PyFloat.truncate.
  assert (Hb : 2 <= 2 ^ (ey - ex)).
  { change 2 with (2 ^ 1) at 1. apply Z.pow_le_mono_r; lia. }
  destruct (0 <=? ex) eqn:Ex; destruct (0 <=? ey) eqn:Ey;
    try apply Z.leb_le in Ex; try apply Z.leb_le in Ey;
    try apply Z.leb_gt in Ex; try apply Z.leb_gt in Ey; try lia.
  - replace ey with ((ey - ex) + ex) at 1 by lia.
    rewrite Z.pow_add_r by lia.
    assert (0 < 2 ^ ex) by (apply Z.pow_pos_nonneg; lia).
    change (2 ^ 53) with (2 * 2 ^ 52) in Hx.
    rewrite Z.mul_assoc. apply Z.mul_le_mono_nonneg_r; [lia|nia].
  - assert (H1 : 0 < 2 ^ ey) by (apply Z.pow_pos_nonneg; lia).
    assert (H2 : 2 <= 2 ^ (- ex)).
    { change 2 with (2 ^ 1) at 1. apply Z.pow_le_mono_r; lia. }
    pose proof (half_le mx my _ Hx Hy H2). nia.
  - replace (- ex) with ((ey - ex) + (- ey)) by lia.
    rewrite Z.pow_add_r by lia.
    assert (0 < 2 ^ (- ey)) by (apply Z.pow_pos_nonneg; lia).
    rewrite <- Z.div_div by lia.
    apply Z.div_le_mono; [lia|]. now apply half_le.
Qed.

Lemma to_int_le x y vy :
  (zero <=? x)%float = true -> (x <=? y)%float = true ->
  PyFloat.to_int y = Ok vy ->
  exists vx, PyFloat.to_int x = Ok vx /\ 0 <= vx <= vy.
Proof.
  rewrite !FloatAxioms.leb_spec. unfold PyFloat.to_int.
  change (Prim2SF zero) with (S754_zero false).
  pose proof (Prim2SF_valid x) as Vx. pose proof (Prim2SF_valid y) as Vy.
  destruct (Prim2SF x) as [sx|sx| |sx mx ex];
    destruct (Prim2SF y) as [sy|sy| |sy my ey];
    try destruct sx; try destruct sy;
    cbn [SFleb SFcompare valid_binary] in *;
    intros H0 Hle Hy; try discriminate;
    injection Hy as <-; (eexists; split; [reflexivity|]).
  all: try lia.
  all: try match goal with
           | |- 0 <= 0 <= PyFloat.truncate ?m ?e =>
               pose proof (truncate_nonneg m e); lia
           end.
  destruct (valid_bounds _ _ Vx) as (Hex & Hmx & _).
  destruct (valid_bounds _ _ Vy) as (Hey & _ & Hmy).
  split; [apply truncate_nonneg|].
  destruct (Z.compare_spec ex ey) as [->|Hlt|Hgt]; try discriminate.
  - apply trunc_le_same.
    change (Pos.compare_cont Eq mx my) with (Pos.compare mx my) in Hle.
    destruct (Pos.compare_spec mx my); try discriminate; lia.
  - apply trunc_le_normal; [exact Hmx|apply Hmy; lia|exact Hlt].
Qed.
Lemma Zdigits2_53 m : 2 ^ 52 <= m < 2 ^ 53 -> Zdigits2 m = 53.
Proof.
  intros H. destruct m as [|p|p]; try lia.
  simpl. rewrite digits2_pos_size.
  assert (Hgt : Z.pos p < 2 ^ Z.pos (Pos.size p)).
  { rewrite <- Pos2Z.inj_pow. exact (Pos.size_gt p). }
  assert (Hle : 2 ^ Z.pos (Pos.size p) <= 2 * Z.pos p).
  { rewrite <- Pos2Z.inj_pow. exact (Pos.size_le p). }
  set (k := Z.pos (Pos.size p)) in *.
  destruct (Z.lt_trichotomy k 53) as [L|[E|G]]; [|exact E|].
  - assert (2 ^ k <= 2 ^ 52) by (apply Z.pow_le_mono_r; lia).
    change (2 ^ 52) with 4503599627370496 in *. lia.
  - assert (2 ^ 54 <= 2 ^ k) by (apply Z.pow_le_mono_r; lia).
    change (2 ^ 54) with 18014398509481984 in *.
    change (2 ^ 53) with 9007199254740992 in *. lia.
Qed.

Lemma Prim2SF_infinity f s :
  Prim2SF f = S754_infinity s -> PrimFloat.is_infinity f = true.
Proof.
  unfold Prim2SF.
  destruct (PrimFloat.is_nan f); [discriminate|].
  destruct (PrimFloat.is_zero f); [discriminate|].
  destruct (PrimFloat.is_infinity f); [reflexivity|].
  destruct (Z.frexp f) as [r e].
  destruct (shr_fexp _ _ _ _ _) as [shr e'].
  destruct (shr_m shr); discriminate.
Qed.

Lemma of_int_fast i :
  PrimFloat.is_infinity (of_uint63 i) = false ->
  PyFloat.of_int (to_Z i) = Ok (of_uint63 i).
Proof.
  intros Hinf. unfold PyFloat.of_int. rewrite <- of_uint63_spec.
  destruct (Prim2SF (of_uint63 i)) eqn:E;
    try (rewrite <- E, SF2Prim_Prim2SF; reflexivity).
  apply Prim2SF_infinity in E. congruence.
Qed.

Lemma fast_to_int_sound f v :
  fast_to_int f = Some v -> PyFloat.to_int f = Ok (to_Z v).
Proof.
  unfold fast_to_int, PyFloat.to_int, Prim2SF.
  destruct (PrimFloat.is_nan f); [discriminate|].
  destruct (PrimFloat.is_zero f) eqn:Hz; [intros [= <-]; reflexivity|].
  destruct (PrimFloat.is_infinity f); [discriminate|].
  destruct (f <? zero)%float eqn:Hneg; [discriminate|].
  unfold Z.frexp. destruct (frshiftexp f) as [r se].
  destruct (_ && _)%bool eqn:Hc; [|discriminate].
  intros [= <-].
  apply andb_prop in Hc as [Hc Hhi]. apply andb_prop in Hc as [Hm Hlo].
  apply Uint63.eqb_spec in Hm. apply Uint63.leb_spec in Hlo, Hhi.
  apply (f_equal to_Z) in Hm. rewrite lsr_spec in Hm.
  change (to_Z 52) with 52 in Hm. change (to_Z 1) with 1 in Hm.
  change (to_Z 1080) with 1080 in Hlo. change (to_Z 2154) with 2154 in Hhi.
  set (M := to_Z (normfr_mantissa r)) in *.
  assert (HM : 2 ^ 52 <= M < 2 ^ 53).
  { pose proof (Z.div_mod M (2 ^ 52) ltac:(lia)) as D.
    pose proof (Z.mod_pos_bound M (2 ^ 52) ltac:(lia)) as B.
    change (2 ^ 53) with (2 * 2 ^ 52). lia. }
  unfold shr_fexp. rewrite (Zdigits2_53 M HM).
  unfold fexp, SpecFloat.emin, prec, emax, shift.
  replace (Z.max _ _ - _) with 0 by lia.
  simpl shr. cbv beta iota. simpl shr_m.
  destruct M as [|p|p] eqn:EM; try lia.
  unfold get_sign. rewrite Hz, Hneg.
  f_equal.
  rewrite lsr_spec, Uint63.sub_spec.
  change (to_Z 2154) with 2154.
  pose proof (to_Z_bounded se) as Bse.
  rewrite Z.mod_small by (change wB with (2 ^ 63); lia).
  fold M. rewrite EM.
  unfold PyFloat.truncate.
  destruct (0 <=? to_Z se - 2101 - 53) eqn:E0.
  - apply Z.leb_le in E0. replace (to_Z se - 2101 - 53) with 0 by lia.
    replace (2154 - to_Z se) with 0 by lia. simpl. rewrite Z.div_1_r. lia.
  - f_equal. f_equal. lia.
Qed.

(** A float between 0 and one whose integer part is [T] has an integer
    part between 0 and [T]. *)
Lemma within_sound f x T :
  PyFloat.to_int f = Ok T -> within f x = true ->
  exists v, PyFloat.to_int x = Ok v /\ 0 <= v <= T.
Proof.
  unfold within. intros Hf H. apply andb_prop in H as [H0 Hle].
  exact (to_int_le x f T H0 Hle Hf).
Qed.

Lemma small_int j :
  In j [0; 1; 2; 3; 4; 5; 6; 7]%uint63 ->
  PyFloat.of_int (to_Z j) = Ok (of_uint63 j).
Proof.
  cbn [In]. intros H.
  repeat (destruct H as [<-|H]; [now apply of_int_fast|]).
  contradiction.
Qed.

Lemma num_tasks_of_spec i :
  to_Z (num_tasks_of i) = Z.max 4 (Z.min 7 (to_Z i / 3))
  /\ In (num_tasks_of i) [0; 1; 2; 3; 4; 5; 6; 7]%uint63.
Proof.
  unfold num_tasks_of.
  destruct (i <? 15)%uint63 eqn:E1;
    [apply Uint63.ltb_spec in E1
    |rewrite <- Bool.not_true_iff_false, Uint63.ltb_spec in E1].
  { change (to_Z 15) with 15 in E1. pose proof (to_Z_bounded i).
    split; [change (to_Z 4) with 4; Z.div_mod_to_equations; lia|].
    cbn [In]. auto 10. }
  destruct (i <? 18)%uint63 eqn:E2;
    [apply Uint63.ltb_spec in E2
    |rewrite <- Bool.not_true_iff_false, Uint63.ltb_spec in E2].
  { change (to_Z 15) with 15 in E1. change (to_Z 18) with 18 in E2.
    split; [change (to_Z 5) with 5; Z.div_mod_to_equations; lia|].
    cbn [In]. auto 10. }
  destruct (i <? 21)%uint63 eqn:E3;
    [apply Uint63.ltb_spec in E3
    |rewrite <- Bool.not_true_iff_false, Uint63.ltb_spec in E3].
  { change (to_Z 18) with 18 in E2. change (to_Z 21) with 21 in E3.
    split; [change (to_Z 6) with 6; Z.div_mod_to_equations; lia|].
    cbn [In]. auto 10. }
  change (to_Z 21) with 21 in E3.
  split; [change (to_Z 7) with 7; Z.div_mod_to_equations; lia|].
  cbn [In]. auto 10.
Qed.

(** What a successful check of a day count says about the model. *)
Lemma check_day_sound i :
  check_day i = true ->
  let f := of_uint63 i in
  PyFloat.of_int (to_Z i) = Ok f
  /\ PyFloat.to_int f = Ok (to_Z i)
  /\ (forall c, In c factors -> within f (f * c)%float = true)
  /\ (forall j, In j [0; 1; 2; 3; 4; 5; 6]%uint63 ->
        to_Z j < to_Z (num_tasks_of i) ->
        within f (of_uint63 j * (f / of_uint63 (num_tasks_of i)))%float
        = true).
Proof.
  unfold check_day. cbv zeta. intros H.
  apply andb_prop in H as [H Hg]. apply andb_prop in H as [H Hc].
  apply andb_prop in H as [Hinf Hi]. apply negb_true_iff in Hinf.
  destruct (fast_to_int (of_uint63 i)) as [v|] eqn:Ev; [|discriminate].
  apply Uint63.eqb_spec in Hi. subst v.
  split; [now apply of_int_fast|]. split; [now apply fast_to_int_sound|].
  rewrite forallb_forall in Hc, Hg. split; [exact Hc|].
  intros j Hj Hlt. specialize (Hg j Hj).
  apply Uint63.ltb_spec in Hlt. now rewrite Hlt in Hg.
Qed.

Lemma iter_step n :
  Z.of_N n < wB ->
  to_Z (fst (N.iter n step (0%uint63, true))) = Z.of_N n /\
  (snd (N.iter n step (0%uint63, true)) = true ->
   forall z, 0 <= z < Z.of_N n -> check_day (of_Z z) = true).
Proof.
  induction n as [|n IH] using N.peano_ind; intros Hn.
  - split; [reflexivity|]. intros _ z Hz. simpl in Hz. lia.
  - rewrite N.iter_succ. rewrite N2Z.inj_succ in *.
    destruct IH as [IHi IHok]; [lia|].
    destruct (N.iter n step (0%uint63, true)) as [i ok]. simpl in *.
    split.
    + rewrite Uint63.add_spec, IHi. change (to_Z 1) with 1.
      apply Z.mod_small. lia.
    + intros Hok z Hz. apply andb_prop in Hok as [Hok Hi].
      destruct (Z.eq_dec z (Z.of_N n)) as [-> | Hne].
      * rewrite <- IHi, of_to_Z. exact Hi.
      * apply IHok; [exact Hok|lia].
Qed.

(** The check succeeds on every day count from 0 to 3652058, the days from
    0001-01-01 to 9999-12-31. *)
Lemma checked_all : snd (N.iter 3652059 step (0%uint63, true)) = true.
Proof. vm_compute. reflexivity. Qed.

Lemma check_day_range T : 0 <= T <= 3652058 -> check_day (of_Z T) = true.
Proof.
  intros HT. refine (proj2 (iter_step 3652059 _) checked_all T _).
  - reflexivity.
  - change (Z.of_N 3652059) with 3652059. lia.
Qed.

Lemma to_Z_of_day T : 0 <= T <= 3652058 -> to_Z (of_Z T) = T.
Proof.
  intros HT. rewrite of_Z_spec. apply Z.mod_small.
  change wB with 9223372036854775808. lia.
Qed.

(** [int(total_days * c)] lies between 0 and [total_days], for every factor
    of the templates and every day count a date can hold. *)
Lemma int_of_mul_bounds T c :
  0 <= T <= 3652058 -> In c factors ->
  exists v, PyFloat.int_of_mul T c = Ok v /\ 0 <= v <= T.
Proof.
  intros HT Hc.
  destruct (check_day_sound _ (check_day_range T HT)) as (Hf & Hi & Hw & _).
  rewrite to_Z_of_day in Hf, Hi by exact HT.
  unfold PyFloat.int_of_mul, PyFloat.int_mul. rewrite Hf. cbn [bind].
  exact (within_sound _ _ _ Hi (Hw c Hc)).
Qed.

(** [int(i * (total_days / n))] lies between 0 and [total_days] for the
    number [n] of tasks of the generic template and [i < n]. *)
Lemma int_of_mul_truediv_bounds T :
  0 <= T <= 3652058 ->
  exists dur,
    PyFloat.truediv T (Z.max 4 (Z.min 7 (T / 3))) = Ok dur /\
    forall i, 0 <= i < Z.max 4 (Z.min 7 (T / 3)) ->
      exists v, PyFloat.int_of_mul i dur = Ok v /\ 0 <= v <= T.
Proof.
  intros HT.
  destruct (check_day_sound _ (check_day_range T HT)) as (Hf & Hi & _ & Hw).
  destruct (num_tasks_of_spec (of_Z T)) as (Hn & Hnin).
  rewrite to_Z_of_day in Hf, Hi, Hn by exact HT.
  set (n := num_tasks_of (of_Z T)) in *. rewrite <- Hn.
  exists (of_uint63 (of_Z T) / of_uint63 n)%float. split.
  - unfold PyFloat.truediv.
    destruct (to_Z n =? 0) eqn:E; [apply Z.eqb_eq in E; lia|].
    now rewrite Hf, (small_int n Hnin).
  - intros i Hi'.
    assert (Hcase : exists j : int,
               In j [0; 1; 2; 3; 4; 5; 6]%uint63 /\ to_Z j = i).
    { assert (i = 0 \/ i = 1 \/ i = 2 \/ i = 3 \/ i = 4 \/ i = 5 \/ i = 6)
        as [-> | [-> | [-> | [-> | [-> | [-> | ->]]]]]] by lia;
        [exists 0%uint63|exists 1%uint63|exists 2%uint63|exists 3%uint63
        |exists 4%uint63|exists 5%uint63|exists 6%uint63];
        (split; [simpl; tauto|reflexivity]). }
    destruct Hcase as (j & Hj & <-).
    unfold PyFloat.int_of_mul, PyFloat.int_mul.
    rewrite (small_int j) by (cbn [In] in *; tauto). cbn [bind].
    apply (within_sound _ _ _ Hi). apply Hw; [exact Hj|lia].
Qed.

(** ** Text and regular expressions *)

Lemma append_assoc (a b c : string) : (a ++ b) ++ c = a ++ b ++ c.
Proof. induction a as [|x a IH]; simpl; [reflexivity|now rewrite IH]. Qed.

Lemma length_append (a b : string) :
  String.length (a ++ b) = (String.length a + String.length b)%nat.
Proof. induction a as [|x a IH]; simpl; [reflexivity|now rewrite IH]. Qed.

Lemma substring_prefix (pre rest : string) :
  substring 0 (String.length pre) (pre ++ rest) = pre.
Proof.
  induction pre as [|x pre IH]; simpl.
  - now destruct rest.
  - now rewrite IH.
Qed.

Lemma consumed_app (pre rest : string) : Re.consumed (pre ++ rest) rest = pre.
Proof.
  unfold Re.consumed. rewrite length_append.
  replace (String.length pre + String.length rest - String.length rest)%nat
    with (String.length pre) by lia.
  apply substring_prefix.
Qed.

Lemma all_chars_app p (a b : string) :
  Text.all_chars p (a ++ b) = (Text.all_chars p a && Text.all_chars p b)%bool.
Proof.
  induction a as [|x a IH]; simpl; [reflexivity|].
  now rewrite IH, andb_assoc.
Qed.

Lemma lower_app (a b : string) :
  Text.lower (a ++ b) = Text.lower a ++ Text.lower b.
Proof. induction a as [|x a IH]; simpl; [reflexivity|now rewrite IH]. Qed.

(** Lower-casing neither makes nor removes a digit. *)
Lemma is_digit_lower_char c :
  Text.is_digit (Text.lower_char c) = Text.is_digit c.
Proof.
  destruct c as [[] [] [] [] [] [] [] []]; reflexivity.
Qed.

Lemma any_digit_lower s :
  Text.any_char Text.is_digit (Text.lower s) = Text.any_char Text.is_digit s.
Proof.
  induction s as [|c s IH]; simpl; [reflexivity|].
  now rewrite is_digit_lower_char, IH.
Qed.

Lemma decimal_from_nonneg s : forall acc,
  0 <= acc -> Text.all_chars Text.is_digit s = true ->
  0 <= Text.decimal_from acc s.
Proof.
  induction s as [|c s IH]; cbn [Text.decimal_from Text.all_chars];
    intros acc Hacc Hd; [exact Hacc|].
  apply andb_prop in Hd as [Hc Hs]. apply IH; [|exact Hs].
  unfold Text.is_digit, Text.between in Hc. unfold Text.digit_value.
  apply andb_prop in Hc as [Hlo _]. apply Nat.leb_le in Hlo. lia.
Qed.

(** [int(x)] on a non-empty run of digits. *)
Lemma py_int_digits x :
  x <> "" -> Text.all_chars Text.is_digit x = true ->
  Text.py_int x
  = (if Nat.leb (String.length x) 4300 then Ok (Text.decimal x)
     else Raise ValueError)
  /\ 0 <= Text.decimal x.
Proof.
  intros Hne Hd. split.
  - unfold Text.py_int, Text.int_max_str_digits.
    destruct x; [congruence|]. now rewrite Hd.
  - apply decimal_from_nonneg; [lia|exact Hd].
Qed.

(** What the repetition of a class consumes is a run of that class. *)
Lemma star_inv {A} p (k : string -> option A) s x :
  Re.star p s k = Some x ->
  exists pre rest,
    s = pre ++ rest /\ Text.all_chars p pre = true /\ k rest = Some x.
Proof.
  induction s as [|c s IH]; simpl; intros H.
  - exists "", "". auto.
  - destruct (p c) eqn:Hc.
    + destruct (Re.star p s k) as [y|] eqn:Hs; simpl in H.
      * injection H as <-. destruct (IH eq_refl) as (pre & rest & -> & Hp & Hk).
        exists (String c pre), rest. simpl. rewrite Hc, Hp. auto.
      * exists "", (String c s). auto.
    + exists "", (String c s). auto.
Qed.

(** The repetition takes the whole run when what follows cannot extend it. *)
Lemma star_greedy {A} p (k : string -> option A) pre rest x :
  Text.all_chars p pre = true ->
  k rest = Some x ->
  match rest with String c _ => p c = false | EmptyString => True end ->
  Re.star p (pre ++ rest) k = Some x.
Proof.
  intros Hp Hk Hrest. induction pre as [|c pre IH]; simpl.
  - destruct rest as [|c rest]; simpl; [exact Hk|]. now rewrite Hrest.
  - simpl in Hp. apply andb_prop in Hp as [Hc Hp].
    rewrite Hc, (IH Hp). reflexivity.
Qed.

Lemma rmatch_groupless {A} r : forall s g (k : string -> string -> option A) x,
  groupless r = true ->
  Re.rmatch r s g k = Some x -> exists rest, k rest g = Some x.
Proof.
  induction r as [p|p|r IH|r1 IH1 r2 IH2|r IH]; simpl; intros s g k x Hg H.
  - destruct s as [|c s]; [discriminate|].
    destruct (p c); [eauto|discriminate].
  - apply star_inv in H as (pre & rest & _ & _ & Hk). eauto.
  - destruct (Re.rmatch r s g k) as [y|] eqn:E; simpl in H.
    + injection H as <-. eapply IH; eauto.
    + eauto.
  - apply andb_prop in Hg as [Hg1 Hg2].
    destruct (IH1 _ _ _ _ Hg1 H) as (rest & Hr). eapply IH2; eauto.
  - discriminate.
Qed.

Lemma lit_groupless w : groupless (Re.lit w) = true.
Proof.
  induction w as [|c w IH]; [reflexivity|].
  destruct w; [reflexivity|]. simpl in *. exact IH.
Qed.

(** Group 1 of a match of [(\d+)\s*<unit>s?] is a non-empty run of digits. *)
Lemma number_of_group unit s g :
  Re.rmatch (Re.number_of unit) s "" final_group = Some g ->
  g <> "" /\ Text.all_chars Text.is_digit g = true.
Proof.
  unfold Re.number_of, Re.plus. simpl. intros H.
  destruct s as [|c s]; [discriminate|].
  destruct (Text.is_digit c) eqn:Hc; [|discriminate].
  apply star_inv in H as (pre & rest & -> & Hp & Hk).
  apply star_inv in Hk as (ws & rest' & -> & _ & Hk).
  apply rmatch_groupless in Hk as (r0 & Hk); [|apply lit_groupless].
  assert (Hg : Re.consumed (String c (pre ++ ws ++ rest')) (ws ++ rest')
               = String c pre) by apply (consumed_app (String c pre)).
  rewrite Hg in Hk.
  assert (g = String c pre) as ->.
  { destruct (match r0 with
              | String c0 s' => if (c0 =? "s")%char then _ else _
              | EmptyString => _ end) eqn:E in Hk; simpl in Hk.
    - destruct r0 as [|c0 r0]; [discriminate|].
      destruct (c0 =? "s")%char; [|discriminate].
      unfold final_group in *. congruence.
    - unfold final_group in Hk. congruence. }
  split; [discriminate|]. simpl. now rewrite Hc, Hp.
Qed.

Lemma search_inv r s g :
  Re.search r s = Some g ->
  exists s', Re.rmatch r s' "" final_group = Some g.
Proof.
  induction s as [|c s IH]; simpl; intros H.
  - destruct (Re.rmatch r "" "" _) as [y|] eqn:E; [|discriminate].
    injection H as <-. eauto.
  - destruct (Re.rmatch r (String c s) "" _) as [y|] eqn:E.
    + injection H as <-. eauto.
    + auto.
Qed.

Lemma space_not_digit c : Text.is_space c = true -> Text.is_digit c = false.
Proof.
  destruct c as [[] [] [] [] [] [] [] []]; (reflexivity || discriminate).
Qed.

Lemma lit_match {A} w : forall rest g (k : string -> string -> option A),
  w <> "" -> Re.rmatch (Re.lit w) (w ++ rest) g k = k rest g.
Proof.
  induction w as [|c w IH]; intros rest g k Hw; [congruence|].
  destruct w as [|c' w].
  - simpl. now rewrite Ascii.eqb_refl.
  - change (Re.lit (String c (String c' w)))
      with (Re.Cat (Re.Chr (Ascii.eqb c)) (Re.lit (String c' w))).
    cbn [Re.rmatch append]. rewrite Ascii.eqb_refl.
    apply (IH rest g k). discriminate.
Qed.

(** A number, blanks, the unit: the pattern matches there, and group 1 is
    the number. *)
Lemma number_of_match unit ds ws rest :
  unit_word unit = true ->
  ds <> "" -> Text.all_chars Text.is_digit ds = true ->
  Text.all_chars Text.is_space ws = true ->
  Re.rmatch (Re.number_of unit) (ds ++ ws ++ unit ++ rest) "" final_group
  = Some ds.
Proof.
  intros Hu Hne Hd Hw. destruct ds as [|c ds]; [congruence|].
  cbn [Text.all_chars] in Hd. apply andb_prop in Hd as [Hc Hd].
  destruct unit as [|u unit]; [discriminate|].
  cbn [unit_word] in Hu. apply andb_prop in Hu as [Hu1 Hu2].
  apply negb_true_iff in Hu1, Hu2.
  unfold Re.number_of, Re.plus. cbn [Re.rmatch append]. rewrite Hc.
  apply star_greedy; [exact Hd| |].
  - apply star_greedy; [exact Hw| |cbn [append]; exact Hu2].
    change (String u (unit ++ rest)) with (String u unit ++ rest).
    rewrite lit_match by discriminate.
    pose proof (consumed_app (String c ds) (ws ++ String u unit ++ rest)) as Hg.
    change (String c ds ++ ws ++ String u unit ++ rest)
      with (String c (ds ++ ws ++ String u unit ++ rest)) in Hg.
    rewrite Hg. cbn [Re.rmatch]. unfold final_group.
    destruct rest as [|r rest]; [reflexivity|].
    now destruct (_ =? _)%char.
  - destruct ws as [|w ws]; cbn [append]; [exact Hu1|].
    cbn [Text.all_chars] in Hw. apply andb_prop in Hw as [Hw _].
    now apply space_not_digit.
Qed.

Lemma search_here r s g :
  Re.rmatch r s "" final_group = Some g -> Re.search r s = Some g.
Proof.
  intros H. destruct s; simpl; unfold final_group in H; now rewrite H.
Qed.

(** No match starts on a character that is not a digit. *)
Lemma search_skip unit pre s :
  Text.any_char Text.is_digit pre = false ->
  Re.search (Re.number_of unit) (pre ++ s) = Re.search (Re.number_of unit) s.
Proof.
  induction pre as [|c pre IH]; intros H; [reflexivity|].
  cbn [Text.any_char] in H. apply orb_false_iff in H as [Hc Hp].
  cbn [append Re.search]. unfold Re.number_of at 1, Re.plus.
  cbn [Re.rmatch]. rewrite Hc. now apply IH.
Qed.

(** [re.search] finds the first number that the unit follows. *)
Lemma search_number_of unit pre ds ws rest :
  unit_word unit = true ->
  Text.any_char Text.is_digit pre = false ->
  ds <> "" -> Text.all_chars Text.is_digit ds = true ->
  Text.all_chars Text.is_space ws = true ->
  Re.search (Re.number_of unit) (pre ++ ds ++ ws ++ unit ++ rest) = Some ds.
Proof.
  intros Hu Hp Hne Hd Hw. rewrite search_skip by exact Hp.
  apply search_here. now apply number_of_match.
Qed.

(** ** The timeframe *)

(** The literal matches its own text and nothing else. *)
Lemma lit_inv {A} w : forall s g (k : string -> string -> option A) x,
  w <> "" -> Re.rmatch (Re.lit w) s g k = Some x ->
  exists rest, s = w ++ rest /\ k rest g = Some x.
Proof.
  induction w as [|c w IH]; intros s g k x Hw H; [congruence|].
  destruct w as [|c' w].
  - cbn [Re.lit Re.rmatch] in H. destruct s as [|c0 s]; [discriminate|].
    destruct (Ascii.eqb c c0) eqn:E; [|discriminate].
    apply Ascii.eqb_eq in E as <-. now exists s.
  - change (Re.lit (String c (String c' w)))
      with (Re.Cat (Re.Chr (Ascii.eqb c)) (Re.lit (String c' w))) in H.
    cbn [Re.rmatch] in H. destruct s as [|c0 s]; [discriminate|].
    destruct (Ascii.eqb c c0) eqn:E; [|discriminate].
    apply Ascii.eqb_eq in E as <-.
    apply IH in H as (rest & -> & Hk); [|discriminate]. now exists rest.
Qed.

(** A match of [(\d+)\s*<unit>s?] is a number that the unit follows. *)
Lemma number_of_inv unit s g :
  unit_word unit = true ->
  Re.rmatch (Re.number_of unit) s "" final_group = Some g ->
  number_here unit s g.
Proof.
  intros Hu H. assert (Hne : unit <> "") by (destruct unit; [discriminate|congruence]).
  unfold Re.number_of, Re.plus in H. cbn [Re.rmatch] in H.
  destruct s as [|c s]; [discriminate|].
  destruct (Text.is_digit c) eqn:Hc; [|discriminate].
  apply star_inv in H as (pre & rest & -> & Hp & Hk).
  apply star_inv in Hk as (ws & rest' & -> & Hws & Hk).
  apply lit_inv in Hk as (rest0 & -> & Hk); [|exact Hne].
  assert (Hg : Re.consumed (String c (pre ++ ws ++ unit ++ rest0))
                 (ws ++ unit ++ rest0) = String c pre)
    by apply (consumed_app (String c pre)).
  rewrite Hg in Hk.
  assert (g = String c pre) as ->.
  { unfold Re.or_else, final_group in Hk.
    destruct rest0 as [|c0 r0]; [congruence|].
    destruct (Ascii.eqb "s" c0); congruence. }
  exists ws, rest0. repeat split; try assumption; try discriminate.
  cbn [Text.all_chars]. now rewrite Hc, Hp.
Qed.

Lemma number_of_iff unit s g :
  unit_word unit = true ->
  Re.rmatch (Re.number_of unit) s "" final_group = Some g
  <-> number_here unit s g.
Proof.
  intros Hu. split; [now apply number_of_inv|].
  intros (ws & rest & -> & Hne & Hd & Hw). now apply number_of_match.
Qed.

Lemma number_of_none unit s :
  unit_word unit = true ->
  Re.rmatch (Re.number_of unit) s "" final_group = None
  <-> forall ds, ~ number_here unit s ds.
Proof.
  intros Hu. split.
  - intros H ds Hn. apply (number_of_iff _ _ _ Hu) in Hn. congruence.
  - intros H. destruct (Re.rmatch _ s "" final_group) as [g|] eqn:E;
      [|reflexivity].
    apply (number_of_iff _ _ _ Hu) in E. now apply H in E.
Qed.

Lemma search_step r c s :
  Re.search r (String c s)
  = match Re.rmatch r (String c s) "" final_group with
    | Some g => Some g
    | None => Re.search r s
    end.
Proof. reflexivity. Qed.

(** [re.search] finds nothing exactly when no number is followed by the
    unit. *)
Lemma search_none unit s :
  unit_word unit = true ->
  Re.search (Re.number_of unit) s = None <-> no_number unit s.
Proof.
  intros Hu. unfold no_number. split.
  - induction s as [|c s IH]; intros H pre s' ds Hs.
    + destruct pre; [|discriminate]. cbn [append] in Hs. subst s'.
      apply (number_of_none unit "" Hu).
      cbn [Re.search] in H. fold final_group in H.
      now destruct (Re.rmatch _ "" "" final_group).
    + rewrite search_step in H.
      destruct (Re.rmatch _ (String c s) "" final_group) eqn:E;
        [discriminate|].
      destruct pre as [|c' pre]; cbn [append] in Hs.
      * subst s'. now apply (number_of_none unit _ Hu).
      * injection Hs as _ Hs. now apply (IH H pre s' ds).
  - induction s as [|c s IH]; intros H.
    + cbn [Re.search]. fold final_group.
      rewrite (proj2 (number_of_none unit "" Hu)); [reflexivity|].
      intros ds. now apply (H "" "").
    + rewrite search_step.
      rewrite (proj2 (number_of_none unit (String c s) Hu));
        [|intros ds; now apply (H "" (String c s))].
      apply IH. intros pre s' ds Hs. apply (H (String c pre) s' ds).
      cbn [append]. now rewrite Hs.
Qed.

(** [re.search] finds the first number that the unit follows. *)
Lemma search_first unit s g :
  unit_word unit = true ->
  Re.search (Re.number_of unit) s = Some g <-> first_number unit s g.
Proof.
  intros Hu. unfold first_number. split.
  - revert g. induction s as [|c s IH]; intros g H.
    + cbn [Re.search] in H. fold final_group in H.
      destruct (Re.rmatch _ "" "" final_group) as [g'|] eqn:E;
        [|discriminate].
      injection H as <-. apply (number_of_iff _ _ _ Hu) in E.
      exists "", "". repeat split; [exact E|].
      intros a b ds' Hab Hb. destruct a, b; try discriminate. congruence.
    + rewrite search_step in H.
      destruct (Re.rmatch _ (String c s) "" final_group) as [g'|] eqn:E.
      * injection H as <-. apply (number_of_iff _ _ _ Hu) in E.
        exists "", (String c s). repeat split; [exact E|].
        intros a b ds' Hab Hb. destruct a, b; try discriminate. congruence.
      * destruct (IH g H) as (pre & s' & -> & Hn & Hfirst).
        exists (String c pre), s'. repeat split; [exact Hn|].
        intros a b ds' Hab Hb. destruct a as [|c' a]; cbn [append] in Hab.
        -- subst b. cbn [append].
           now apply (number_of_none unit _ Hu).
        -- injection Hab as _ Hab. now apply (Hfirst a b ds').
  - intros (pre & s' & -> & Hn & Hfirst). induction pre as [|c pre IH].
    + cbn [append]. apply search_here. now apply number_of_iff.
    + cbn [append]. rewrite search_step.
      rewrite (proj2 (number_of_none unit (String c (pre ++ s')) Hu)).
      * apply IH. intros a b ds' Hab Hb.
        apply (Hfirst (String c a) b ds'); [|exact Hb].
        cbn [append]. now rewrite Hab.
      * intros ds. apply (Hfirst "" (String c pre) ds); [reflexivity|].
        discriminate.
Qed.

(** Each unit has a first number or none. *)
Lemma first_number_or_none unit s :
  unit_word unit = true ->
  no_number unit s \/ exists ds, first_number unit s ds.
Proof.
  intros Hu. destruct (Re.search (Re.number_of unit) s) as [g|] eqn:E.
  - right. exists g. now apply search_first.
  - left. now apply search_none.
Qed.

(** The group a pattern finds is a numeral. *)
Lemma search_group unit s g :
  Re.search (Re.number_of unit) s = Some g ->
  g <> "" /\ Text.all_chars Text.is_digit g = true.
Proof.
  intros H. apply search_inv in H as (s' & H).
  now apply number_of_group in H.
Qed.

Lemma convert_group unit s g k :
  Re.search (Re.number_of unit) s = Some g ->
  (n <- Text.py_int g ;; Ok (n * k)) = days_of g k
  /\ (n <- Text.py_int g ;; Ok n) = days_of g 1
  /\ 0 <= Text.decimal g.
Proof.
  intros H. apply search_group in H as [Hne Hd].
  destruct (py_int_digits g Hne Hd) as [Hi Hpos].
  unfold days_of. rewrite Hi.
  destruct (Nat.leb _ 4300); cbn [bind]; rewrite ?Z.mul_1_r; auto.
Qed.

(** The loop over [time_patterns], unrolled. *)
Lemma extract_timeframe_cascade goal :
  extract_timeframe goal =
  match Re.search (Re.number_of "week") (Text.lower goal) with
  | Some n => days_of n 7
  | None =>
      match Re.search (Re.number_of "day") (Text.lower goal) with
      | Some n => days_of n 1
      | None =>
          match Re.search (Re.number_of "month") (Text.lower goal) with
          | Some n => days_of n 30
          | None => Ok 14
          end
      end
  end.
Proof.
  unfold extract_timeframe, time_patterns. cbn [first_timeframe].
  destruct (Re.search (Re.number_of "week") _) as [g|] eqn:Ew.
  { exact (proj1 (convert_group _ _ _ 7 Ew)). }
  destruct (Re.search (Re.number_of "day") _) as [g|] eqn:Ed.
  { exact (proj1 (proj2 (convert_group _ _ _ 1 Ed))). }
  destruct (Re.search (Re.number_of "month") _) as [g|] eqn:Em.
  { exact (proj1 (convert_group _ _ _ 30 Em)). }
  reflexivity.
Qed.

(** What [extract_timeframe] returns, by the number the goal holds. *)
Lemma extract_timeframe_cases goal :
  (forall ds k, timeframe_number goal ds k ->
     extract_timeframe goal = days_of ds k
     /\ ds <> "" /\ Text.all_chars Text.is_digit ds = true)
  /\ (no_timeframe goal -> extract_timeframe goal = Ok 14)
  /\ (no_timeframe goal \/ exists ds k, timeframe_number goal ds k).
Proof.
  unfold timeframe_number, no_timeframe. cbv zeta.
  rewrite extract_timeframe_cascade. set (s := Text.lower goal).
  assert (Hw : unit_word "week" = true) by reflexivity.
  assert (Hd : unit_word "day" = true) by reflexivity.
  assert (Hm : unit_word "month" = true) by reflexivity.
  split; [|split].
  - intros ds k [(H1 & ->)|[(N1 & H2 & ->)|(N1 & N2 & H3 & ->)]].
    + apply (search_first _ _ _ Hw) in H1. rewrite H1.
      split; [reflexivity|now apply search_group in H1].
    + apply (search_none _ _ Hw) in N1. apply (search_first _ _ _ Hd) in H2.
      rewrite N1, H2. split; [reflexivity|now apply search_group in H2].
    + apply (search_none _ _ Hw) in N1. apply (search_none _ _ Hd) in N2.
      apply (search_first _ _ _ Hm) in H3. rewrite N1, N2, H3.
      split; [reflexivity|now apply search_group in H3].
  - intros (N1 & N2 & N3). apply (search_none _ _ Hw) in N1.
    apply (search_none _ _ Hd) in N2. apply (search_none _ _ Hm) in N3.
    now rewrite N1, N2, N3.
  - destruct (first_number_or_none "week" s Hw) as [N1|(ds & H1)];
      [|right; exists ds, 7; now left].
    destruct (first_number_or_none "day" s Hd) as [N2|(ds & H2)];
      [|right; exists ds, 1; right; left; now auto].
    destruct (first_number_or_none "month" s Hm) as [N3|(ds & H3)];
      [now left|right; exists ds, 30; right; right; now auto].
Qed.

(** A timeframe is not negative, and [extract_timeframe] raises nothing
    but the [ValueError] of [int()]. *)
Lemma extract_timeframe_result goal :
  match extract_timeframe goal with
  | Ok total_days => 0 <= total_days
  | Raise e => e = ValueError
  end.
Proof.
  rewrite extract_timeframe_cascade. unfold days_of.
  destruct (Re.search (Re.number_of "week") _) as [g|] eqn:Ew.
  { pose proof (proj2 (proj2 (convert_group _ _ _ 1 Ew))).
    destruct (Nat.leb _ 4300); [lia|reflexivity]. }
  destruct (Re.search (Re.number_of "day") _) as [g|] eqn:Ed.
  { pose proof (proj2 (proj2 (convert_group _ _ _ 1 Ed))).
    destruct (Nat.leb _ 4300); [lia|reflexivity]. }
  destruct (Re.search (Re.number_of "month") _) as [g|] eqn:Em.
  { pose proof (proj2 (proj2 (convert_group _ _ _ 1 Em))).
    destruct (Nat.leb _ 4300); [lia|reflexivity]. }
  lia.
Qed.

Lemma extract_timeframe_nonneg goal total_days :
  extract_timeframe goal = Ok total_days -> 0 <= total_days.
Proof.
  intros H. pose proof (extract_timeframe_result goal) as Hr.
  now rewrite H in Hr.
Qed.

(** C4, as the code has it. [extract_timeframe] reads the lower-cased goal
    for a number that a unit follows: a run of digits, blanks if any, and
    "week", "day" or "month". The first number of weeks gives N*7, wherever
    numbers of days or months stand; when no number is followed by "week",
    the first number of days gives N; when none is followed by "day"
    either, the first number of months gives N*30; and a goal in which no
    number is followed by a unit gets 14. One of these cases holds of every
    goal. N is read by [int()], which raises [ValueError] on a numeral of
    more than 4300 digits. The goal "2 weeks 3 days" yields 14, also after
    any text without a digit and before any text; after an earlier number
    of weeks it does not. "10 days" are 10 days and "2 Months" 60. *)
Theorem extract_timeframe_priority (goal : string) :
  let s := Text.lower goal in
  let value ds k r :=
    ((String.length ds <= 4300)%nat -> r = Ok (Text.decimal ds * k))
    /\ ((4300 < String.length ds)%nat -> r = Raise ValueError) in
  (forall ds, first_number "week" s ds ->
     value ds 7 (extract_timeframe goal))
  /\ (forall ds, no_number "week" s -> first_number "day" s ds ->
        value ds 1 (extract_timeframe goal))
  /\ (forall ds, no_number "week" s -> no_number "day" s ->
        first_number "month" s ds -> value ds 30 (extract_timeframe goal))
  /\ (no_number "week" s -> no_number "day" s -> no_number "month" s ->
      extract_timeframe goal = Ok 14)
  /\ ((exists ds, first_number "week" s ds)
      \/ (no_number "week" s /\ exists ds, first_number "day" s ds)
      \/ (no_number "week" s /\ no_number "day" s
          /\ exists ds, first_number "month" s ds)
      \/ (no_number "week" s /\ no_number "day" s /\ no_number "month" s))
  /\ extract_timeframe "2 weeks 3 days" = Ok 14
  /\ (forall pre post, Text.any_char Text.is_digit pre = false ->
        extract_timeframe (pre ++ "2 weeks 3 days" ++ post) = Ok 14)
  /\ extract_timeframe "Finish the report in 10 days" = Ok 10
  /\ extract_timeframe "Learn Python programming in 2 Months" = Ok 60.
Proof.
  intros s value.
  destruct (extract_timeframe_cases goal) as (Hnum & Hnone & Hall).
  assert (Hvalue : forall ds k, timeframe_number goal ds k ->
                                value ds k (extract_timeframe goal)).
  { intros ds k H. destruct (Hnum ds k H) as (-> & _). unfold value, days_of.
    destruct (Nat.leb_spec (String.length ds) 4300); split; intros;
      (reflexivity || lia). }
  split; [|split; [|split; [|split; [|split; [|split; [|split; [|split]]]]]]];
    try reflexivity.
  - intros ds H. apply Hvalue. now left.
  - intros ds N1 H. apply Hvalue. right. left. now auto.
  - intros ds N1 N2 H. apply Hvalue. right. right. now auto.
  - intros N1 N2 N3. apply Hnone. now repeat split.
  - destruct Hall as [(N1 & N2 & N3)|(ds & k & [(H & _)|[(N1 & H & _)|(N1 & N2 & H & _)]])];
      eauto 10.
  - intros pre post Hp. rewrite extract_timeframe_cascade.
    rewrite !lower_app.
    change (Text.lower "2 weeks 3 days")
      with ("2" ++ " " ++ "week" ++ "s 3 days").
    rewrite !append_assoc.
    rewrite (search_number_of "week" (Text.lower pre) "2" " "
               ("s 3 days" ++ Text.lower post)); try reflexivity.
    + now rewrite any_digit_lower.
    + discriminate.
Qed.

(** A goal that contains "2 weeks 3 days" after an earlier number of weeks
    yields the days of that number, not 14. *)
Lemma earlier_week_wins :
  (exists pre post,
      "1 week of prep, then 2 weeks 3 days of work"
      = pre ++ "2 weeks 3 days" ++ post)
  /\ extract_timeframe "1 week of prep, then 2 weeks 3 days of work" = Ok 7.
Proof.
  split; [|vm_compute; reflexivity].
  exists "1 week of prep, then ", " of work". reflexivity.
Qed.

(** ** The result monad and dates *)

Lemma bind_ok {A B} (c : result A) (f : A -> result B) b :
  bind c f = Ok b -> exists a, c = Ok a /\ f a = Ok b.
Proof. destruct c as [a|e]; simpl; [eauto|discriminate]. Qed.

(** Takes [H : x <- c ;; ... = Ok b] apart, one bind after the other. *)
Ltac bind_inv H :=
  repeat (let a := fresh "v" in
          let E := fresh "E" in
          apply bind_ok in H; destruct H as (a & E & H); cbv beta in H).

Lemma after_ok d n r :
  Date.after d n = Ok r ->
  r = d + n /\ 1 <= d + n <= Date.MAXORDINAL /\ Z.abs n <= 999999999.
Proof.
  unfold Date.after, Date.timedelta, Date.add, bind.
  destruct (Z.abs n <=? 999999999) eqn:Ha; [|discriminate].
  destruct (_ && _)%bool eqn:Hr; [|discriminate].
  intros [= <-]. apply andb_prop in Hr as [H1 H2]. lia.
Qed.

Lemma after_intro d n :
  0 <= n -> 1 <= d -> d + n <= Date.MAXORDINAL ->
  Date.after d n = Ok (d + n).
Proof.
  intros Hn Hd Hmax. unfold Date.after, Date.timedelta, Date.add, bind.
  unfold Date.MAXORDINAL in *.
  destruct (Z.abs n <=? 999999999) eqn:Ha; [|lia].
  destruct (_ && _)%bool eqn:Hr; [reflexivity|].
  apply andb_false_iff in Hr as [Hr|Hr]; lia.
Qed.

Lemma template_tasks_classify goal start_date end_date total_days :
  template_tasks goal start_date end_date total_days
  = family_tasks (classify goal) goal start_date end_date total_days.
Proof.
  unfold template_tasks, classify.
  destruct (any_in product_words _); [reflexivity|].
  destruct (any_in event_words _); [reflexivity|].
  destruct (any_in learning_words _); [reflexivity|].
  destruct (any_in research_words _); reflexivity.
Qed.

(** What a returned plan was built from. *)
Lemma fallback_plan_inv now goal p :
  fallback_plan_generation now goal = Ok p ->
  exists total_days,
    extract_timeframe goal = Ok total_days /\ 0 <= total_days /\
    Date.after now total_days = Ok (now + total_days) /\
    now + total_days <= Date.MAXORDINAL /\
    family_tasks (classify goal) goal now (now + total_days) total_days
      = Ok (tasks p) /\
    make_milestones (tasks p) now (now + total_days) total_days
      = Ok (milestones (timeline p)) /\
    start_date (timeline p) = now /\
    end_date (timeline p) = now + total_days.
Proof.
  unfold fallback_plan_generation. intros H. bind_inv H.
  injection H as <-. cbn [tasks timeline milestones start_date end_date].
  rename v into total_days.
  pose proof (extract_timeframe_nonneg _ _ E) as Hpos.
  pose proof (after_ok _ _ _ E0) as (-> & Hr & _).
  rewrite template_tasks_classify in E1.
  exists total_days. repeat split; auto; lia.
Qed.

(** ** The templates *)

(** Replaces every date [Date.after] has returned by its value. *)
Ltac dates_inv :=
  repeat match goal with
         | E : Date.after _ _ = Ok _ |- _ =>
             apply after_ok in E; destruct E as (-> & ? & ?)
         end.

Local Set Warnings "-inexact-float".

Lemma product_tasks_inv s e T ts :
  product_tasks s e T = Ok ts ->
  exists n4 n5 n6 n7,
    PyFloat.int_of_mul T 0.6 = Ok n4 /\
    PyFloat.int_of_mul T 0.7 = Ok n5 /\
    PyFloat.int_of_mul T 0.85 = Ok n6 /\
    PyFloat.int_of_mul T 0.9 = Ok n7 /\
    map id ts = [1; 2; 3; 4; 5; 6; 7; 8] /\
    map dependencies ts = [[]; [1]; [2]; [2]; [3; 4]; [5]; [6]; [7]] /\
    map deadline ts =
      [s + Z.max 1 (T / 7); s + Z.max 2 (T / 5); s + Z.max 4 (T / 3);
       s + Z.max 7 n4; s + Z.max 10 n5; s + Z.max 13 n6; s + Z.max 15 n7;
       e] /\
    s + Z.max 15 n7 <= Date.MAXORDINAL.
Proof.
  unfold product_tasks. intros H. bind_inv H. dates_inv.
  injection H as <-. exists v2, v4, v6, v8.
  repeat (split; [first [assumption|reflexivity]|]). lia.
Qed.

Lemma event_tasks_inv s e T ts :
  event_tasks s e T = Ok ts ->
  exists n4 n5,
    PyFloat.int_of_mul T 0.4 = Ok n4 /\
    PyFloat.int_of_mul T 0.75 = Ok n5 /\
    map id ts = [1; 2; 3; 4; 5; 6] /\
    map dependencies ts = [[]; [1]; [2]; [1]; [2; 3]; [3; 4; 5]] /\
    map deadline ts =
      [s + Z.max 1 (T / 6); s + Z.max 2 (T / 4); s + Z.max 4 (T / 2);
       s + Z.max 3 n4; s + Z.max 6 n5; e] /\
    s + Z.max 6 n5 <= Date.MAXORDINAL.
Proof.
  unfold event_tasks. intros H. bind_inv H. dates_inv.
  injection H as <-. exists v2, v4.
  repeat (split; [first [assumption|reflexivity]|]). lia.
Qed.

Lemma learning_tasks_inv goal s e T ts :
  learning_tasks goal s e T = Ok ts ->
  exists n2 n3,
    PyFloat.int_of_mul T 0.6 = Ok n2 /\
    PyFloat.int_of_mul T 0.8 = Ok n3 /\
    map id ts = [1; 2; 3; 4] /\
    map dependencies ts = [[]; [1]; [2]; [3]] /\
    map deadline ts =
      [s + Z.max 2 (T / 5); s + Z.max 6 n2; s + Z.max 10 n3; e] /\
    s + Z.max 10 n3 <= Date.MAXORDINAL.
Proof.
  unfold learning_tasks. intros H. bind_inv H. dates_inv.
  injection H as <-. exists v0, v2.
  repeat (split; [first [assumption|reflexivity]|]). lia.
Qed.

Lemma research_tasks_inv s e T ts :
  research_tasks s e T = Ok ts ->
  exists n3 n4,
    PyFloat.int_of_mul T 0.65 = Ok n3 /\
    PyFloat.int_of_mul T 0.85 = Ok n4 /\
    map id ts = [1; 2; 3; 4; 5] /\
    map dependencies ts = [[]; [1]; [2]; [3]; [4]] /\
    map deadline ts =
      [s + Z.max 2 (T / 4); s + Z.max 4 (T / 3); s + Z.max 8 n3;
       s + Z.max 11 n4; e] /\
    s + Z.max 11 n4 <= Date.MAXORDINAL.
Proof.
  unfold research_tasks. intros H. bind_inv H. dates_inv.
  injection H as <-. exists v1, v3.
  repeat (split; [first [assumption|reflexivity]|]). lia.
Qed.

Lemma for_each_inv {A B} (f : A -> result B) l bs :
  for_each f l = Ok bs -> Forall2 (fun a b => f a = Ok b) l bs.
Proof.
  revert bs. induction l as [|a l IH]; simpl; intros bs H.
  - injection H as <-. constructor.
  - bind_inv H. injection H as <-. constructor; auto.
Qed.

Lemma for_each_intro {A B} (f : A -> result B) l :
  (forall a, In a l -> exists b, f a = Ok b) ->
  exists bs, for_each f l = Ok bs.
Proof.
  induction l as [|a l IH]; simpl; intros H; [eauto|].
  destruct (H a (or_introl eq_refl)) as (b & ->).
  destruct IH as (bs & ->); [intros; apply H; auto|]. simpl. eauto.
Qed.

Lemma in_range n i : In i (range n) <-> 0 <= i < n.
Proof.
  unfold range. rewrite in_map_iff. split.
  - intros (k & <- & Hk). apply in_seq in Hk. lia.
  - intros Hi. exists (Z.to_nat i). split; [lia|]. apply in_seq. lia.
Qed.

Lemma length_range n : List.length (range n) = Z.to_nat n.
Proof. unfold range. now rewrite length_map, length_seq. Qed.

Lemma generic_task_inv goal s dur i t :
  generic_task goal s dur i = Ok t ->
  exists days,
    PyFloat.int_of_mul i dur = Ok days /\
    id t = i + 1 /\
    dependencies t = (if 0 <? i then [i] else []) /\
    deadline t = s + days /\
    1 <= s + days <= Date.MAXORDINAL.
Proof.
  unfold generic_task. intros H. bind_inv H. dates_inv.
  injection H as <-. exists v. cbn [id dependencies deadline]. auto.
Qed.

Lemma generic_tasks_inv goal s T ts :
  generic_tasks goal s T = Ok ts ->
  let n := Z.max 4 (Z.min 7 (T / 3)) in
  exists dur,
    PyFloat.truediv T n = Ok dur /\
    Forall2 (fun i t => generic_task goal s dur i = Ok t) (range n) ts.
Proof.
  intros H. cbv zeta. unfold generic_tasks in H. bind_inv H.
  exists v. split; [exact E|]. now apply for_each_inv.
Qed.

Lemma Forall2_in_r {A B} (R : A -> B -> Prop) l l' b :
  Forall2 R l l' -> In b l' -> exists a, In a l /\ R a b.
Proof.
  induction 1 as [|a b' l l' HR HF IH]; simpl; [tauto|].
  intros [->|Hb]; [eauto|]. destruct (IH Hb) as (a' & Ha & HRa). eauto.
Qed.

Lemma Forall2_last {A B} (R : A -> B -> Prop) l l' da db :
  Forall2 R l l' -> l <> [] -> R (last l da) (last l' db).
Proof.
  induction 1 as [|a b l l' HR HF IH]; [congruence|]. intros _.
  destruct HF as [|a2 b2 l2 l2' HR2 HF2]; [exact HR|].
  apply IH. discriminate.
Qed.

(** A task of the generic template, seen from the plan. *)
Lemma generic_tasks_in goal s T ts t :
  generic_tasks goal s T = Ok ts -> In t ts ->
  let n := Z.max 4 (Z.min 7 (T / 3)) in
  exists dur i days,
    PyFloat.truediv T n = Ok dur /\ 0 <= i < n /\
    PyFloat.int_of_mul i dur = Ok days /\
    id t = i + 1 /\
    dependencies t = (if 0 <? i then [i] else []) /\
    deadline t = s + days.
Proof.
  intros H Ht. cbv zeta.
  destruct (generic_tasks_inv _ _ _ _ H) as (dur & Hd & HF).
  destruct (Forall2_in_r _ _ _ _ HF Ht) as (i & Hi & Hti).
  apply in_range in Hi.
  destruct (generic_task_inv _ _ _ _ _ Hti) as (days & Hm & Hid & Hdep & Hdl & _).
  exists dur, i, days. repeat split; auto; lia.
Qed.

Lemma generic_tasks_length goal s T ts :
  generic_tasks goal s T = Ok ts ->
  List.length ts = Z.to_nat (Z.max 4 (Z.min 7 (T / 3))).
Proof.
  intros H. destruct (generic_tasks_inv _ _ _ _ H) as (dur & _ & HF).
  apply Forall2_length in HF. now rewrite <- HF, length_range.
Qed.

(** ** The plan: dependencies *)

Lemma in_combine_map {A B C} (f : A -> B) (g : A -> C) l a :
  In a l -> In (f a, g a) (combine (map f l) (map g l)).
Proof.
  induction l as [|x l IH]; simpl; [tauto|].
  intros [->|H]; [now left|right; auto].
Qed.

(** Closes [In (i, ds) l -> In d ds -> 1 <= d < i] for a literal [l]. *)
Ltac check_dependencies H Hd :=
  cbn [combine In] in H;
  repeat (destruct H as [H|H];
          [let Hi := fresh in
           let Hds := fresh in
           injection H as Hi Hds; rewrite <- Hi; rewrite <- Hds in Hd;
           cbn [In] in Hd; lia|]);
  contradiction.

(** C6. In the plan [fallback_plan_generation] returns, every id in a
    task's dependencies is the id of an earlier task: at least 1 and strictly
    less than the task's own id, in all five template families. *)
Theorem dependencies_precede now goal p :
  fallback_plan_generation now goal = Ok p ->
  forall t d, In t (tasks p) -> In d (dependencies t) -> 1 <= d < id t.
Proof.
  intros Hp t d Ht Hd.
  destruct (fallback_plan_inv _ _ _ Hp) as (T & _ & _ & _ & _ & Hts & _).
  pose proof (in_combine_map id dependencies _ _ Ht) as Hin.
  destruct (classify goal); cbn [family_tasks] in Hts.
  - destruct (product_tasks_inv _ _ _ _ Hts)
      as (? & ? & ? & ? & _ & _ & _ & _ & Hid & Hdep & _).
    rewrite Hid, Hdep in Hin. check_dependencies Hin Hd.
  - destruct (event_tasks_inv _ _ _ _ Hts)
      as (? & ? & _ & _ & Hid & Hdep & _).
    rewrite Hid, Hdep in Hin. check_dependencies Hin Hd.
  - destruct (learning_tasks_inv _ _ _ _ _ Hts)
      as (? & ? & _ & _ & Hid & Hdep & _).
    rewrite Hid, Hdep in Hin. check_dependencies Hin Hd.
  - destruct (research_tasks_inv _ _ _ _ Hts)
      as (? & ? & _ & _ & Hid & Hdep & _).
    rewrite Hid, Hdep in Hin. check_dependencies Hin Hd.
  - destruct (generic_tasks_in _ _ _ _ _ Hts Ht)
      as (dur & i & days & _ & Hi & _ & Hid & Hdep & _).
    rewrite Hdep in Hd. rewrite Hid.
    destruct (0 <? i) eqn:E; cbn [In] in Hd; [|contradiction].
    apply Z.ltb_lt in E. lia.
Qed.

Lemma launch_plan_returned :
  fallback_plan_generation a_day "Launch a mobile app in 3 weeks"
  = Ok launch_plan.
Proof. vm_compute. reflexivity. Qed.

Lemma novel_plan_returned :
  fallback_plan_generation a_day "Write a novel" = Ok novel_plan.
Proof. vm_compute. reflexivity. Qed.

(** The fifth task of the launch plan depends on the fourth. *)
Lemma dependencies_precede_witness :
  1 <= 4 < id (nth 4 (tasks launch_plan) no_task).
Proof.
  apply (dependencies_precede a_day "Launch a mobile app in 3 weeks"
           launch_plan launch_plan_returned
           (nth 4 (tasks launch_plan) no_task) 4).
  - vm_compute. tauto.
  - vm_compute. tauto.
Defined.

(** ** The plan: milestones *)

Lemma last_of_map {A B} (f : A -> B) l d :
  last (map f l) (f d) = f (last l d).
Proof.
  induction l as [|a l IH]; [reflexivity|].
  destruct l as [|b l]; [reflexivity|]. exact IH.
Qed.

Lemma make_milestones_inv ts s e T ms :
  make_milestones ts s e T = Ok ms ->
  let n := Z.of_nat (List.length ts) in
  map tasks_completed ms =
    (if 3 <? n
     then [ []; map id (firstn (Z.to_nat (n / 3)) ts);
            map id (firstn (Z.to_nat ((n * 2) / 3)) ts); map id ts ]
     else [ []; map id ts ])
  /\ map date ms =
    (if 3 <? n then [s; s + T / 3; s + (T * 2) / 3; e] else [s; e])
  /\ map name ms =
    (if 3 <? n
     then [ "Project Kickoff & Planning Complete"; "Initial Phase Complete";
            "Development Phase Complete"; "Project Completion & Delivery" ]
     else [ "Project Kickoff & Planning Complete";
            "Project Completion & Delivery" ]).
Proof.
  unfold make_milestones. cbv zeta.
  destruct (3 <? Z.of_nat (List.length ts)); intros H.
  - bind_inv H. dates_inv. injection H as <-. repeat split; reflexivity.
  - injection H as <-. repeat split; reflexivity.
Qed.

Lemma incl_firstn {A B} (f : A -> B) (l : list A) a b :
  (a <= b)%nat -> incl (map f (firstn a l)) (map f (firstn b l)).
Proof.
  revert a b. induction l as [|x l IH]; intros a b Hab.
  - rewrite !firstn_nil. apply incl_refl.
  - destruct a as [|a]; [intros y []|].
    destruct b as [|b]; [lia|]. simpl.
    intros y [->|Hy]; [now left|right].
    apply (IH a b); [lia|exact Hy].
Qed.

Lemma incl_firstn_all {A B} (f : A -> B) (l : list A) a :
  incl (map f (firstn a l)) (map f l).
Proof.
  destruct (Nat.le_gt_cases a (List.length l)) as [Hle|Hgt].
  - rewrite <- (firstn_all l) at 2. now apply incl_firstn.
  - rewrite firstn_all2 by lia. apply incl_refl.
Qed.

Lemma family_tasks_length family goal s e T ts :
  family_tasks family goal s e T = Ok ts ->
  List.length ts =
    match family with
    | Product => 8
    | Event => 6
    | Learning => 4
    | Research => 5
    | Generic => Z.to_nat (Z.max 4 (Z.min 7 (T / 3)))
    end%nat.
Proof.
  destruct family; cbn [family_tasks]; intros H.
  - destruct (product_tasks_inv _ _ _ _ H)
      as (? & ? & ? & ? & _ & _ & _ & _ & Hid & _).
    apply (f_equal (@List.length Z)) in Hid. now rewrite length_map in Hid.
  - destruct (event_tasks_inv _ _ _ _ H) as (? & ? & _ & _ & Hid & _).
    apply (f_equal (@List.length Z)) in Hid. now rewrite length_map in Hid.
  - destruct (learning_tasks_inv _ _ _ _ _ H) as (? & ? & _ & _ & Hid & _).
    apply (f_equal (@List.length Z)) in Hid. now rewrite length_map in Hid.
  - destruct (research_tasks_inv _ _ _ _ H) as (? & ? & _ & _ & Hid & _).
    apply (f_equal (@List.length Z)) in Hid. now rewrite length_map in Hid.
  - now apply generic_tasks_length in H.
Qed.

(** C10. The plan [fallback_plan_generation] returns has exactly 4
    milestones: every family produces at least 4 tasks (8 for Product, 6 for
    Event, 4 for Learning, 5 for Research, and
    [max(4, min(7, total_days // 3))] for Generic), so the branch
    [len(tasks) > 3] that adds the two intermediate milestones is taken. *)
Theorem four_milestones now goal p :
  fallback_plan_generation now goal = Ok p ->
  List.length (milestones (timeline p)) = 4%nat
  /\ (3 < Z.of_nat (List.length (tasks p)))
  /\ exists total_days,
       extract_timeframe goal = Ok total_days /\
       List.length (tasks p) =
         match classify goal with
         | Product => 8
         | Event => 6
         | Learning => 4
         | Research => 5
         | Generic => Z.to_nat (Z.max 4 (Z.min 7 (total_days / 3)))
         end%nat.
Proof.
  intros Hp.
  destruct (fallback_plan_inv _ _ _ Hp)
    as (T & HT & _ & _ & _ & Hts & Hms & _).
  pose proof (family_tasks_length _ _ _ _ _ _ Hts) as Hlen.
  assert (Hn : 3 < Z.of_nat (List.length (tasks p))).
  { rewrite Hlen. destruct (classify goal); lia. }
  destruct (make_milestones_inv _ _ _ _ _ Hms) as (Hdone & _).
  cbv zeta in Hdone. apply Z.ltb_lt in Hn. rewrite Hn in Hdone.
  apply Z.ltb_lt in Hn.
  apply (f_equal (@List.length (list Z))) in Hdone.
  rewrite length_map in Hdone.
  split; [exact Hdone|]. split; [exact Hn|]. eauto.
Qed.

Lemma four_milestones_witness :
  List.length (milestones (timeline launch_plan)) = 4%nat
  /\ (3 < Z.of_nat (List.length (tasks launch_plan)))
  /\ exists total_days,
       extract_timeframe "Launch a mobile app in 3 weeks" = Ok total_days /\
       List.length (tasks launch_plan) =
         match classify "Launch a mobile app in 3 weeks" with
         | Product => 8
         | Event => 6
         | Learning => 4
         | Research => 5
         | Generic => Z.to_nat (Z.max 4 (Z.min 7 (total_days / 3)))
         end%nat.
Proof.
  exact (four_milestones a_day "Launch a mobile app in 3 weeks" launch_plan
           launch_plan_returned).
Defined.

(** C7. The sets of completed tasks grow along the milestones of the plan
    [fallback_plan_generation] returns: each is included in the next, the
    first (Kickoff) is empty, the last (Completion) holds every task id,
    and the two intermediate milestones, present when the plan has more than
    3 tasks, hold the ids of the first [len(tasks) // 3] and of the first
    [(len(tasks) * 2) // 3] tasks, by position. *)
Theorem milestones_grow now goal p :
  fallback_plan_generation now goal = Ok p ->
  let ts := tasks p in
  let n := Z.of_nat (List.length ts) in
  let done := map tasks_completed (milestones (timeline p)) in
  done =
    (if 3 <? n
     then [ []; map id (firstn (Z.to_nat (n / 3)) ts);
            map id (firstn (Z.to_nat ((n * 2) / 3)) ts); map id ts ]
     else [ []; map id ts ])
  /\ increasing done
  /\ hd [] done = []
  /\ last done [] = map id ts
  /\ map name (firstn 1 (milestones (timeline p)))
     = ["Project Kickoff & Planning Complete"]
  /\ name (last (milestones (timeline p)) no_milestone)
     = "Project Completion & Delivery".
Proof.
  intros Hp ts n done.
  destruct (fallback_plan_inv _ _ _ Hp) as (T & _ & _ & _ & _ & _ & Hms & _).
  destruct (make_milestones_inv _ _ _ _ _ Hms) as (Hdone & _ & Hname).
  cbv zeta in Hdone, Hname. fold ts n done in Hdone. fold ts n in Hname.
  split; [exact Hdone|]. rewrite Hdone.
  assert (Hnames :
            map name (firstn 1 (milestones (timeline p)))
            = ["Project Kickoff & Planning Complete"]
            /\ name (last (milestones (timeline p)) no_milestone)
               = "Project Completion & Delivery").
  { rewrite <- (last_of_map name (milestones (timeline p)) no_milestone).
    rewrite <- firstn_map, Hname. destruct (3 <? n); split; reflexivity. }
  destruct (3 <? n).
  - repeat split; try apply Hnames.
    + intros y [].
    + apply incl_firstn. unfold n.
      apply Z2Nat.inj_le; [apply Z.div_pos; lia|apply Z.div_pos; lia|].
      apply Z.div_le_mono; lia.
    + apply incl_firstn_all.
  - repeat split; try apply Hnames. intros y [].
Qed.

Lemma milestones_grow_witness :
  let ts := tasks launch_plan in
  let n := Z.of_nat (List.length ts) in
  let done := map tasks_completed (milestones (timeline launch_plan)) in
  done =
    (if 3 <? n
     then [ []; map id (firstn (Z.to_nat (n / 3)) ts);
            map id (firstn (Z.to_nat ((n * 2) / 3)) ts); map id ts ]
     else [ []; map id ts ])
  /\ increasing done
  /\ hd [] done = []
  /\ last done [] = map id ts
  /\ map name (firstn 1 (milestones (timeline launch_plan)))
     = ["Project Kickoff & Planning Complete"]
  /\ name (last (milestones (timeline launch_plan)) no_milestone)
     = "Project Completion & Delivery".
Proof.
  exact (milestones_grow a_day "Launch a mobile app in 3 weeks" launch_plan
           launch_plan_returned).
Defined.

(** ** The plan: deadlines *)

(** Bounds every [int(total_days * c)] the context mentions. *)
Ltac bound_products HT :=
  repeat match goal with
         | E : PyFloat.int_of_mul ?T ?c = Ok ?n |- _ =>
             lazymatch goal with
             | _ : 0 <= n <= T |- _ => fail
             | _ =>
                 let v := fresh "v" in
                 let Ev := fresh "Ev" in
                 let Bv := fresh "Bv" in
                 destruct (int_of_mul_bounds T c HT ltac:(cbn; auto 10))
                   as (v & Ev & Bv);
                 assert (0 <= n <= T) by congruence;
                 clear v Ev Bv
             end
         end.

(** Closes a bound on [d] from [In d l] for a literal [l]. *)
Ltac check_deadlines H :=
  cbn [In] in H;
  repeat (destruct H as [H|H]; [Z.div_mod_to_equations; lia|]);
  contradiction.

Lemma family_deadlines family goal s T ts t :
  1 <= s -> 0 <= T -> s + T <= Date.MAXORDINAL ->
  family_tasks family goal s (s + T) T = Ok ts -> In t ts ->
  s <= deadline t <= s + Z.max T (floor_days family).
Proof.
  intros Hs HT0 Hmax Hts Ht.
  assert (HT : 0 <= T <= 3652058) by (unfold Date.MAXORDINAL in Hmax; lia).
  pose proof (in_map deadline _ _ Ht) as Hin.
  destruct family; cbn [family_tasks floor_days] in *.
  - destruct (product_tasks_inv _ _ _ _ Hts)
      as (n4 & n5 & n6 & n7 & ? & ? & ? & ? & _ & _ & Hdl & _).
    bound_products HT. rewrite Hdl in Hin. check_deadlines Hin.
  - destruct (event_tasks_inv _ _ _ _ Hts)
      as (n4 & n5 & ? & ? & _ & _ & Hdl & _).
    bound_products HT. rewrite Hdl in Hin. check_deadlines Hin.
  - destruct (learning_tasks_inv _ _ _ _ _ Hts)
      as (n2 & n3 & ? & ? & _ & _ & Hdl & _).
    bound_products HT. rewrite Hdl in Hin. check_deadlines Hin.
  - destruct (research_tasks_inv _ _ _ _ Hts)
      as (n3 & n4 & ? & ? & _ & _ & Hdl & _).
    bound_products HT. rewrite Hdl in Hin. check_deadlines Hin.
  - destruct (generic_tasks_in _ _ _ _ _ Hts Ht)
      as (dur & i & days & Hdur & Hi & Hdays & _ & _ & Hdl).
    destruct (int_of_mul_truediv_bounds T HT) as (dur' & Hdur' & Hb).
    assert (dur' = dur) as -> by congruence.
    destruct (Hb i Hi) as (v & Hv & Bv).
    assert (v = days) as -> by congruence. lia.
Qed.

(** C1, as the code has it. In the plan [fallback_plan_generation] returns,
    every deadline lies between [start_date] and the later of [end_date]
    and [start_date] plus the largest minimum of days of the goal's template
    (15 for Product, 6 for Event, 10 for Learning, 11 for Research, none for
    Generic). So it lies within [[start_date, end_date]] when [total_days]
    reaches that minimum, and always in the Generic family. *)
Theorem deadlines_within now goal p :
  1 <= now ->
  fallback_plan_generation now goal = Ok p ->
  forall t, In t (tasks p) ->
    let s := start_date (timeline p) in
    let e := end_date (timeline p) in
    let least := floor_days (classify goal) in
    s <= deadline t <= Z.max e (s + least)
    /\ (least <= e - s -> s <= deadline t <= e)
    /\ (classify goal = Generic -> s <= deadline t <= e).
Proof.
  intros Hnow Hp t Ht.
  destruct (fallback_plan_inv _ _ _ Hp)
    as (T & _ & HT & _ & Hmax & Hts & _ & -> & ->).
  pose proof (family_deadlines _ _ _ _ _ _ Hnow HT Hmax Hts Ht) as H.
  cbv zeta. split; [lia|]. split; [lia|].
  intros Hg. rewrite Hg in H. cbn [floor_days] in H. lia.
Qed.

Lemma rush_plan_returned :
  fallback_plan_generation a_day "Launch an app in 1 day" = Ok rush_plan.
Proof. vm_compute. reflexivity. Qed.

(** With one day to launch an app, the seventh task is due 15 days after
    the start, 14 days after the end of the plan. *)
Lemma deadline_after_end_date :
  exists p t,
    fallback_plan_generation a_day "Launch an app in 1 day" = Ok p /\
    In t (tasks p) /\
    end_date (timeline p) = start_date (timeline p) + 1 /\
    deadline t = start_date (timeline p) + 15 /\
    end_date (timeline p) < deadline t.
Proof.
  exists rush_plan, (nth 6 (tasks rush_plan) no_task).
  split; [exact rush_plan_returned|].
  split; [vm_compute; tauto|]. vm_compute. auto.
Qed.

Lemma deadlines_within_witness :
  let t := nth 3 (tasks launch_plan) no_task in
  let s := start_date (timeline launch_plan) in
  let e := end_date (timeline launch_plan) in
  let least := floor_days (classify "Launch a mobile app in 3 weeks") in
  s <= deadline t <= Z.max e (s + least)
  /\ (least <= e - s -> s <= deadline t <= e)
  /\ (classify "Launch a mobile app in 3 weeks" = Generic ->
      s <= deadline t <= e).
Proof.
  apply (deadlines_within a_day "Launch a mobile app in 3 weeks" launch_plan).
  - unfold a_day. lia.
  - exact launch_plan_returned.
  - vm_compute. tauto.
Defined.

(** ** The plan: when it is returned *)

Lemma only_overflow_bind {A B} (c : result A) (f : A -> result B) :
  only_overflow c -> (forall a, c = Ok a -> only_overflow (f a)) ->
  only_overflow (bind c f).
Proof. destruct c as [a|e]; simpl; auto. Qed.

Lemma only_overflow_after d n : only_overflow (Date.after d n).
Proof.
  unfold Date.after, Date.timedelta, Date.add, bind.
  destruct (Z.abs n <=? 999999999); [|reflexivity].
  destruct (_ && _)%bool; simpl; auto.
Qed.

Lemma only_overflow_factor T c :
  0 <= T <= 3652058 -> In c factors ->
  only_overflow (PyFloat.int_of_mul T c).
Proof.
  intros HT Hc. destruct (int_of_mul_bounds T c HT Hc) as (v & -> & _).
  exact I.
Qed.

Lemma only_overflow_for_each {A B} (f : A -> result B) l :
  (forall a, In a l -> only_overflow (f a)) -> only_overflow (for_each f l).
Proof.
  induction l as [|a l IH]; intros H; simpl; [exact I|].
  apply only_overflow_bind; [apply H; now left|]. intros b _.
  apply only_overflow_bind; [apply IH; intros; apply H; now right|].
  intros; exact I.
Qed.

(** Walks through the binds of a template. *)
Ltac walk_binds HT :=
  repeat (apply only_overflow_bind;
          [first [apply only_overflow_after
                 |apply (only_overflow_factor _ _ HT); cbn; auto 10]
          |intros ? _]);
  exact I.

Lemma only_overflow_family family goal s e T :
  0 <= T <= 3652058 -> only_overflow (family_tasks family goal s e T).
Proof.
  intros HT. destruct family; cbn [family_tasks].
  - unfold product_tasks. walk_binds HT.
  - unfold event_tasks. walk_binds HT.
  - unfold learning_tasks. cbv zeta. walk_binds HT.
  - unfold research_tasks. walk_binds HT.
  - unfold generic_tasks. cbv zeta.
    destruct (int_of_mul_truediv_bounds T HT) as (dur & -> & Hb).
    cbn [bind]. apply only_overflow_for_each. intros i Hi.
    apply in_range in Hi. destruct (Hb i Hi) as (v & Hv & _).
    unfold generic_task. cbv zeta. rewrite Hv. cbn [bind].
    apply only_overflow_bind; [apply only_overflow_after|]. intros; exact I.
Qed.

Lemma only_overflow_milestones ts s e T :
  only_overflow (make_milestones ts s e T).
Proof.
  unfold make_milestones. cbv zeta.
  destruct (3 <? _); [|exact I].
  apply only_overflow_bind; [apply only_overflow_after|]. intros ? _.
  apply only_overflow_bind; [apply only_overflow_after|]. intros; exact I.
Qed.

(** From a valid start date and a timeframe that was read, the generator
    raises nothing but [OverflowError]. *)
Lemma only_overflow_fallback now goal T :
  1 <= now -> extract_timeframe goal = Ok T ->
  only_overflow (fallback_plan_generation now goal).
Proof.
  intros Hnow HT0. unfold fallback_plan_generation.
  pose proof (extract_timeframe_nonneg _ _ HT0) as HT. rewrite HT0.
  cbn [bind].
  apply only_overflow_bind; [apply only_overflow_after|]. intros e He.
  apply after_ok in He as (-> & He & _). unfold Date.MAXORDINAL in He.
  rewrite template_tasks_classify.
  apply only_overflow_bind; [apply only_overflow_family; lia|]. intros ts _.
  apply only_overflow_bind; [apply only_overflow_milestones|].
  intros; exact I.
Qed.

Lemma succeeds_bind {A B} (c : result A) (f : A -> result B) :
  succeeds c -> (forall a, c = Ok a -> succeeds (f a)) -> succeeds (bind c f).
Proof. intros (a & ->) H. simpl. now apply H. Qed.

Lemma succeeds_after d n :
  0 <= n -> 1 <= d -> d + n <= Date.MAXORDINAL -> succeeds (Date.after d n).
Proof. intros. eexists. now apply after_intro. Qed.

Lemma succeeds_factor T c :
  0 <= T <= 3652058 -> In c factors -> succeeds (PyFloat.int_of_mul T c).
Proof.
  intros HT Hc. destruct (int_of_mul_bounds T c HT Hc) as (v & -> & _).
  now exists v.
Qed.

Lemma succeeds_for_each {A B} (f : A -> result B) l :
  (forall a, In a l -> succeeds (f a)) -> succeeds (for_each f l).
Proof. apply for_each_intro. Qed.

Ltac walk_success HT :=
  repeat (apply succeeds_bind;
          [first [apply (succeeds_factor _ _ HT); cbn; auto 10
                 |bound_products HT; apply succeeds_after;
                  Z.div_mod_to_equations; lia]
          |intros ? ?]);
  eexists; reflexivity.

Lemma succeeds_family family goal s e T :
  1 <= s -> 0 <= T ->
  s + Z.max T (floor_days family) <= Date.MAXORDINAL ->
  succeeds (family_tasks family goal s e T).
Proof.
  intros Hs HT0 Hmax.
  assert (HT : 0 <= T <= 3652058) by (unfold Date.MAXORDINAL in Hmax; lia).
  destruct family; cbn [family_tasks floor_days] in *.
  - unfold product_tasks. walk_success HT.
  - unfold event_tasks. walk_success HT.
  - unfold learning_tasks. cbv zeta. walk_success HT.
  - unfold research_tasks. walk_success HT.
  - unfold generic_tasks. cbv zeta.
    destruct (int_of_mul_truediv_bounds T HT) as (dur & -> & Hb).
    cbn [bind]. apply succeeds_for_each. intros i Hi.
    apply in_range in Hi. destruct (Hb i Hi) as (v & Hv & Bv).
    unfold generic_task. cbv zeta. rewrite Hv. cbn [bind].
    apply succeeds_bind; [apply succeeds_after; lia|].
    intros; eexists; reflexivity.
Qed.

Lemma succeeds_milestones ts s e T :
  1 <= s -> 0 <= T -> s + T <= Date.MAXORDINAL ->
  succeeds (make_milestones ts s e T).
Proof.
  intros Hs HT Hmax. unfold make_milestones. cbv zeta.
  destruct (3 <? _); [|eexists; reflexivity].
  apply succeeds_bind;
    [apply succeeds_after; Z.div_mod_to_equations; lia|]. intros ? _.
  apply succeeds_bind;
    [apply succeeds_after; Z.div_mod_to_equations; lia|].
  intros; eexists; reflexivity.
Qed.

(** The days a goal needs after the start: its timeframe, and no less than
    the largest minimum of its template. *)
Lemma family_floor_reached family goal s e T ts :
  family_tasks family goal s e T = Ok ts ->
  s <= Date.MAXORDINAL ->
  s + floor_days family <= Date.MAXORDINAL.
Proof.
  destruct family; cbn [family_tasks floor_days]; intros H Hs.
  - destruct (product_tasks_inv _ _ _ _ H)
      as (? & ? & ? & ? & _ & _ & _ & _ & _ & _ & _ & Hm). lia.
  - destruct (event_tasks_inv _ _ _ _ H) as (? & ? & _ & _ & _ & _ & _ & Hm).
    lia.
  - destruct (learning_tasks_inv _ _ _ _ _ H)
      as (? & ? & _ & _ & _ & _ & _ & Hm). lia.
  - destruct (research_tasks_inv _ _ _ _ H)
      as (? & ? & _ & _ & _ & _ & _ & Hm). lia.
  - lia.
Qed.

(** The generator returns a plan exactly when the last day it needs is a
    date, and raises [OverflowError] otherwise. *)
Lemma fallback_returns_iff now goal T :
  1 <= now -> extract_timeframe goal = Ok T ->
  let last_day := now + Z.max T (floor_days (classify goal)) in
  (last_day <= Date.MAXORDINAL ->
   exists p, fallback_plan_generation now goal = Ok p)
  /\ (Date.MAXORDINAL < last_day ->
      fallback_plan_generation now goal = Raise OverflowError).
Proof.
  intros Hnow HT. cbv zeta.
  pose proof (extract_timeframe_nonneg _ _ HT) as Hpos. split.
  - intros Hmax. unfold fallback_plan_generation. rewrite HT. cbn [bind].
    rewrite after_intro by lia. cbn [bind].
    rewrite template_tasks_classify.
    destruct (succeeds_family (classify goal) goal now (now + T) T)
      as (ts & ->); try lia. cbn [bind].
    destruct (succeeds_milestones ts now (now + T) T) as (ms & ->); try lia.
    cbn [bind]. eauto.
  - intros Hmax. pose proof (only_overflow_fallback now goal T Hnow HT) as Ho.
    destruct (fallback_plan_generation now goal) as [p|e] eqn:Hp;
      [|simpl in Ho; now subst].
    exfalso.
    destruct (fallback_plan_inv _ _ _ Hp)
      as (T' & HT'' & _ & _ & Hm & Hts & _).
    assert (T' = T) as -> by congruence.
    apply family_floor_reached in Hts; lia.
Qed.

Lemma generate_task_plan_rules loads now goal w :
  llm_method w <> "ollama" ->
  fst (generate_task_plan loads now goal w)
  = from_rules (fallback_plan_generation now goal).
Proof.
  intros Hm. unfold generate_task_plan. cbv zeta. cbn [print llm_method].
  apply String.eqb_neq in Hm. now rewrite Hm.
Qed.

(** Lower-casing leaves a numeral as it is. *)
Lemma lower_digits ds :
  Text.all_chars Text.is_digit ds = true -> Text.lower ds = ds.
Proof.
  induction ds as [|c ds IH]; cbn [Text.all_chars Text.lower];
    [reflexivity|].
  intros H. apply andb_prop in H as [Hc Hd]. rewrite (IH Hd). f_equal.
  revert Hc. destruct c as [[] [] [] [] [] [] [] []];
    (reflexivity || discriminate).
Qed.

(** A number of weeks of more than 4300 digits: [int()] raises
    [ValueError], and so does the generator. *)
Lemma long_numeral_raises now ds :
  ds <> "" -> Text.all_chars Text.is_digit ds = true ->
  (4300 < String.length ds)%nat ->
  extract_timeframe (ds ++ " weeks") = Raise ValueError
  /\ fallback_plan_generation now (ds ++ " weeks") = Raise ValueError.
Proof.
  intros Hne Hd Hlen.
  assert (H : extract_timeframe (ds ++ " weeks") = Raise ValueError).
  { rewrite extract_timeframe_cascade, lower_app, (lower_digits ds Hd).
    change (Text.lower " weeks") with " weeks".
    pose proof (search_number_of "week" "" ds " " "s" eq_refl eq_refl
                  Hne Hd eq_refl) as Hs.
    cbn [append] in Hs. rewrite Hs. unfold days_of. destruct (Nat.leb_spec (String.length ds) 4300);
      [lia|reflexivity]. }
  split; [exact H|]. unfold fallback_plan_generation. now rewrite H.
Qed.

(** C3, as the code has it. [extract_timeframe] raises [ValueError] when
    the number it reads in the goal has more than 4300 digits, the limit of
    [int()], and the generator raises it too. Otherwise [extract_timeframe]
    returns a timeframe that is not negative, and [generate_task_plan] on
    the fallback path returns the plan of [fallback_plan_generation]
    whenever the last day the plan needs,
    [start_date + max(total_days, least)], is no later than 9999-12-31
    ([least] is the largest minimum of days of the goal's template); for a
    larger number it raises [OverflowError]. Every goal is in one of the
    two cases. *)
Theorem fallback_returns_within_calendar now goal :
  1 <= now ->
  (forall ds k,
      timeframe_number goal ds k -> (4300 < String.length ds)%nat ->
      extract_timeframe goal = Raise ValueError
      /\ fallback_plan_generation now goal = Raise ValueError
      /\ forall loads w, llm_method w <> "ollama" ->
           fst (generate_task_plan loads now goal w) = Raise ValueError)
  /\ (no_timeframe goal
      \/ (exists ds k, timeframe_number goal ds k
                       /\ (String.length ds <= 4300)%nat) ->
      exists total_days,
        extract_timeframe goal = Ok total_days /\ 0 <= total_days /\
        let last_day :=
          now + Z.max total_days (floor_days (classify goal)) in
        (last_day <= Date.MAXORDINAL ->
         exists p,
           fallback_plan_generation now goal = Ok p /\
           forall loads w, llm_method w <> "ollama" ->
             fst (generate_task_plan loads now goal w) = Ok (FromRules p))
        /\ (Date.MAXORDINAL < last_day ->
            fallback_plan_generation now goal = Raise OverflowError /\
            forall loads w, llm_method w <> "ollama" ->
              fst (generate_task_plan loads now goal w)
              = Raise OverflowError))
  /\ (no_timeframe goal \/ exists ds k, timeframe_number goal ds k).
Proof.
  intros Hnow.
  destruct (extract_timeframe_cases goal) as (Hnum & Hnone & Hall).
  split; [|split; [|exact Hall]].
  - intros ds k Hn Hlen. destruct (Hnum ds k Hn) as (HT & _).
    unfold days_of in HT.
    destruct (Nat.leb_spec (String.length ds) 4300); [lia|].
    assert (Hf : fallback_plan_generation now goal = Raise ValueError)
      by (unfold fallback_plan_generation; now rewrite HT).
    repeat split; try assumption. intros loads w Hw.
    now rewrite generate_task_plan_rules, Hf.
  - intros Hcase.
    assert (HT : exists T, extract_timeframe goal = Ok T).
    { destruct Hcase as [Hno|(ds & k & Hn & Hlen)].
      - rewrite (Hnone Hno). eauto.
      - destruct (Hnum ds k Hn) as (-> & _). unfold days_of.
        destruct (Nat.leb_spec (String.length ds) 4300); [eauto|lia]. }
    destruct HT as (T & HT). exists T. split; [exact HT|].
    split; [exact (extract_timeframe_nonneg _ _ HT)|].
    destruct (fallback_returns_iff now goal T Hnow HT) as [Hok Hraise].
    cbv zeta in *. split.
    + intros Hmax. destruct (Hok Hmax) as (p & Hp). exists p.
      split; [exact Hp|]. intros loads w Hw.
      now rewrite generate_task_plan_rules, Hp.
    + intros Hmax. pose proof (Hraise Hmax) as Hr. split; [exact Hr|].
      intros loads w Hw. now rewrite generate_task_plan_rules, Hr.
Qed.

Lemma fallback_returns_within_calendar_witness :
  let goal := "Launch a mobile app in 3 weeks" in
  (forall ds k,
      timeframe_number goal ds k -> (4300 < String.length ds)%nat ->
      extract_timeframe goal = Raise ValueError
      /\ fallback_plan_generation a_day goal = Raise ValueError
      /\ forall loads w, llm_method w <> "ollama" ->
           fst (generate_task_plan loads a_day goal w) = Raise ValueError)
  /\ (no_timeframe goal
      \/ (exists ds k, timeframe_number goal ds k
                       /\ (String.length ds <= 4300)%nat) ->
      exists total_days,
        extract_timeframe goal = Ok total_days /\ 0 <= total_days /\
        let last_day :=
          a_day + Z.max total_days (floor_days (classify goal)) in
        (last_day <= Date.MAXORDINAL ->
         exists p,
           fallback_plan_generation a_day goal = Ok p /\
           forall loads w, llm_method w <> "ollama" ->
             fst (generate_task_plan loads a_day goal w)
             = Ok (FromRules p))
        /\ (Date.MAXORDINAL < last_day ->
            fallback_plan_generation a_day goal = Raise OverflowError /\
            forall loads w, llm_method w <> "ollama" ->
              fst (generate_task_plan loads a_day goal w)
              = Raise OverflowError))
  /\ (no_timeframe goal \/ exists ds k, timeframe_number goal ds k).
Proof.
  apply (fallback_returns_within_calendar a_day
           "Launch a mobile app in 3 weeks").
  unfold a_day. lia.
Defined.

(** A goal of 400000 months: the end date would fall after 9999-12-31, and
    the planner raises on the fallback path. *)
Lemma far_timeframe_raises :
  far_goal <> "" /\
  extract_timeframe far_goal = Ok 12000000 /\
  fallback_plan_generation a_day far_goal = Raise OverflowError /\
  fst (generate_task_plan no_json a_day far_goal rule_based)
  = Raise OverflowError.
Proof.
  split; [discriminate|]. repeat split; vm_compute; reflexivity.
Qed.

(** ** The plan: where it starts and ends *)

(** In the four keyword families the last task is due on [end_date]. *)
Lemma last_deadline_keyword_family now goal p :
  fallback_plan_generation now goal = Ok p ->
  classify goal <> Generic ->
  deadline (last (tasks p) no_task) = end_date (timeline p).
Proof.
  intros Hp Hg.
  destruct (fallback_plan_inv _ _ _ Hp) as (T & _ & _ & _ & _ & Hts & _ & _ & ->).
  rewrite <- (last_of_map deadline (tasks p) no_task).
  destruct (classify goal); cbn [family_tasks] in Hts; [| | | |congruence].
  - destruct (product_tasks_inv _ _ _ _ Hts)
      as (? & ? & ? & ? & _ & _ & _ & _ & _ & _ & -> & _). reflexivity.
  - destruct (event_tasks_inv _ _ _ _ Hts)
      as (? & ? & _ & _ & _ & _ & -> & _). reflexivity.
  - destruct (learning_tasks_inv _ _ _ _ _ Hts)
      as (? & ? & _ & _ & _ & _ & -> & _). reflexivity.
  - destruct (research_tasks_inv _ _ _ _ Hts)
      as (? & ? & _ & _ & _ & _ & -> & _). reflexivity.
Qed.

(** Every template has more than three tasks. *)
Lemma more_than_three_tasks now goal p :
  fallback_plan_generation now goal = Ok p ->
  3 < Z.of_nat (List.length (tasks p)).
Proof.
  intros Hp.
  destruct (fallback_plan_inv _ _ _ Hp) as (T & _ & _ & _ & _ & Hts & _).
  rewrite (family_tasks_length _ _ _ _ _ _ Hts).
  destruct (classify goal); lia.
Qed.

(** The first milestone is dated [start_date], the last [end_date]. *)
Lemma milestones_span now goal p :
  fallback_plan_generation now goal = Ok p ->
  map date (milestones (timeline p)) =
    [ start_date (timeline p);
      start_date (timeline p)
      + (end_date (timeline p) - start_date (timeline p)) / 3;
      start_date (timeline p)
      + ((end_date (timeline p) - start_date (timeline p)) * 2) / 3;
      end_date (timeline p) ].
Proof.
  intros Hp. pose proof (more_than_three_tasks _ _ _ Hp) as Hn.
  destruct (fallback_plan_inv _ _ _ Hp)
    as (T & _ & _ & _ & _ & _ & Hms & -> & ->).
  destruct (make_milestones_inv _ _ _ _ _ Hms) as (_ & Hd & _).
  cbv zeta in Hd. apply Z.ltb_lt in Hn. rewrite Hn in Hd. rewrite Hd.
  now replace (now + T - now) with T by lia.
Qed.

Lemma last_range n d : 0 < n -> last (range n) d = n - 1.
Proof.
  intros Hn. unfold range.
  replace (Z.to_nat n) with (S (Z.to_nat (n - 1))) by lia.
  rewrite seq_S, map_app. cbn [map]. rewrite last_last. lia.
Qed.

(** In the Generic family the last of the [n] tasks is due
    [int((n - 1) * (total_days / n))] days after the start. *)
Lemma last_deadline_generic now goal p :
  fallback_plan_generation now goal = Ok p ->
  classify goal = Generic ->
  exists total_days dur days,
    extract_timeframe goal = Ok total_days /\
    let n := Z.max 4 (Z.min 7 (total_days / 3)) in
    PyFloat.truediv total_days n = Ok dur /\
    PyFloat.int_of_mul (n - 1) dur = Ok days /\
    deadline (last (tasks p) no_task) = start_date (timeline p) + days.
Proof.
  intros Hp Hg.
  destruct (fallback_plan_inv _ _ _ Hp)
    as (T & HT & _ & _ & _ & Hts & _ & -> & _).
  rewrite Hg in Hts. cbn [family_tasks] in Hts.
  destruct (generic_tasks_inv _ _ _ _ Hts) as (dur & Hdur & HF).
  pose proof (Forall2_last _ _ _ 0 no_task HF) as Hl.
  rewrite last_range in Hl by lia.
  assert (Hne : range (Z.max 4 (Z.min 7 (T / 3))) <> []).
  { intros E. apply (f_equal (@List.length Z)) in E.
    rewrite length_range in E. simpl in E. lia. }
  destruct (generic_task_inv _ _ _ _ _ (Hl Hne))
    as (days & Hdays & _ & _ & Hdl & _).
  exists T, dur, days. cbv zeta. auto.
Qed.

(** C2, at a goal of the Generic family. "Write a novel" gets 14 days and
    four tasks; the last one is due [int(3 * (14 / 4))] = 10 days after the
    start, four days before [end_date]. The first milestone is dated
    [start_date]. *)
Theorem generic_last_deadline :
  fallback_plan_generation a_day "Write a novel" = Ok novel_plan
  /\ classify "Write a novel" = Generic
  /\ end_date (timeline novel_plan) = start_date (timeline novel_plan) + 14
  /\ deadline (last (tasks novel_plan) no_task)
     = start_date (timeline novel_plan) + 10
  /\ deadline (last (tasks novel_plan) no_task)
     < end_date (timeline novel_plan)
  /\ map date (firstn 1 (milestones (timeline novel_plan)))
     = [start_date (timeline novel_plan)].
Proof.
  split; [exact novel_plan_returned|]. repeat split; vm_compute; reflexivity.
Qed.

(** ** Template selection *)

(** With 30 days the five templates have 8, 6, 4, 5 and 7 tasks. *)
Lemma family_task_count family goal :
  task_count (family_tasks family goal 1 31 30) =
  match family with
  | Product => 8
  | Event => 6
  | Learning => 4
  | Research => 5
  | Generic => 7
  end%nat.
Proof. destruct family; vm_compute; reflexivity. Qed.

Lemma any_in_word word words s :
  In word words -> Text.contains word s = true -> any_in words s = true.
Proof.
  intros Hin Hc. unfold any_in. apply existsb_exists. eauto.
Qed.

(** C5, as the code has it. Every goal selects exactly one template
    family, the first in the order Product/App, Event, Learning, Research
    whose keywords the lower-cased goal contains, and Generic when none
    does. A goal that contains "study" and "research" is Learning/Education
    when it contains no Product/App and no Event keyword; "study" never
    selects Research. *)
Theorem classify_priority (goal : string) :
  let s := Text.lower goal in
  (forall family,
      (forall start_date end_date total_days,
          template_tasks goal start_date end_date total_days
          = family_tasks family goal start_date end_date total_days)
      <-> family = classify goal)
  /\ classify goal =
     (if any_in product_words s then Product
      else if any_in event_words s then Event
      else if any_in learning_words s then Learning
      else if any_in research_words s then Research
      else Generic)
  /\ (Text.contains "study" s = true -> Text.contains "research" s = true ->
      any_in product_words s = false -> any_in event_words s = false ->
      classify goal = Learning)
  /\ (Text.contains "study" s = true ->
      classify goal = Product \/ classify goal = Event
      \/ classify goal = Learning).
Proof.
  intros s. split; [|split; [reflexivity|split]].
  - intros family. split.
    + intros H. specialize (H 1 31 30).
      rewrite template_tasks_classify in H.
      apply (f_equal task_count) in H. rewrite !family_task_count in H.
      destruct family, (classify goal); (reflexivity || discriminate).
    + intros ->. intros. apply template_tasks_classify.
  - intros Hs _ Hp He. unfold classify. fold s. rewrite Hp, He.
    now rewrite (any_in_word "study" learning_words s) by (simpl; auto 10).
  - intros Hs. unfold classify. fold s.
    destruct (any_in product_words s); [auto|].
    destruct (any_in event_words s); [auto|].
    rewrite (any_in_word "study" learning_words s) by (simpl; auto 10).
    auto.
Qed.

(** A study of research for an app is a Product/App goal. *)
Lemma study_research_selects_product :
  Text.contains "study" (Text.lower "Research study for a mobile app") = true
  /\ Text.contains "research" (Text.lower "Research study for a mobile app")
     = true
  /\ classify "Research study for a mobile app" = Product
  /\ exists p,
       fallback_plan_generation a_day "Research study for a mobile app"
       = Ok p /\
       map title (firstn 1 (tasks p)) = ["Market Research & User Analysis"].
Proof.
  repeat split; try (vm_compute; reflexivity).
  eexists. split; vm_compute; reflexivity.
Qed.

(** ** The Ollama adapter *)

(** [s.find(c)] is where [c] first stands. *)
Lemma find_inv c s :
  0 <= Text.find c s ->
  exists pre rest,
    s = pre ++ String c rest
    /\ Z.of_nat (String.length pre) = Text.find c s
    /\ Text.any_char (Ascii.eqb c) pre = false.
Proof.
  induction s as [|c' s IH]; cbn [Text.find]; [lia|].
  destruct (Ascii.eqb c c') eqn:Ec.
  - intros _. apply Ascii.eqb_eq in Ec as <-. now exists "", s.
  - cbv zeta. destruct (Text.find c s <? 0) eqn:E; [lia|].
    apply Z.ltb_ge in E. intros _.
    destruct (IH E) as (pre & rest & -> & Hl & Hp).
    exists (String c' pre), rest. cbn [append String.length Text.any_char].
    rewrite Ec, Hp. repeat split. lia.
Qed.

(** [s.rfind(c)] is where [c] last stands. *)
Lemma rfind_inv c s :
  0 <= Text.rfind c s ->
  exists pre rest,
    s = pre ++ String c rest
    /\ Z.of_nat (String.length pre) = Text.rfind c s
    /\ Text.any_char (Ascii.eqb c) rest = false.
Proof.
  assert (Hnone : forall s, Text.rfind c s < 0 ->
                            Text.any_char (Ascii.eqb c) s = false).
  { clear s. induction s as [|c' s IH]; cbn [Text.rfind Text.any_char];
      [reflexivity|]. cbv zeta.
    destruct (0 <=? Text.rfind c s) eqn:E.
    - apply Z.leb_le in E. lia.
    - apply Z.leb_gt in E. destruct (Ascii.eqb c c'); [lia|].
      intros _. now apply IH. }
  induction s as [|c' s IH]; cbn [Text.rfind]; [lia|]. cbv zeta.
  destruct (0 <=? Text.rfind c s) eqn:E.
  - apply Z.leb_le in E. intros _.
    destruct (IH E) as (pre & rest & -> & Hl & Hp).
    exists (String c' pre), rest. cbn [append String.length].
    repeat split; [lia|exact Hp].
  - apply Z.leb_gt in E. destruct (Ascii.eqb c c') eqn:Ec; [|lia].
    intros _. apply Ascii.eqb_eq in Ec as <-. exists "", s.
    repeat split. now apply Hnone.
Qed.

(** Two ways to cut a text: the shorter first part starts the longer. *)
Lemma append_cut (a b x y : string) :
  a ++ x = b ++ y -> (String.length a <= String.length b)%nat ->
  exists m, b = a ++ m /\ x = m ++ y.
Proof.
  revert b. induction a as [|c a IH]; intros b H Hl.
  - now exists b.
  - destruct b as [|c' b]; [cbn in Hl; lia|].
    cbn [append] in H. injection H as <- H. cbn in Hl.
    destruct (IH b H) as (m & -> & ->); [lia|]. now exists m.
Qed.

Lemma substring_middle (a b c : string) :
  substring (String.length a) (String.length b) (a ++ b ++ c) = b.
Proof.
  induction a as [|x a IH]; cbn [String.length append substring].
  - apply substring_prefix.
  - exact IH.
Qed.

Lemma find_exact c a b :
  Text.any_char (Ascii.eqb c) a = false ->
  Text.find c (a ++ String c b) = Z.of_nat (String.length a).
Proof.
  induction a as [|x a IH]; cbn [append Text.find Text.any_char String.length].
  - intros _. now rewrite Ascii.eqb_refl.
  - intros H. apply orb_false_iff in H as [Hx Ha]. rewrite Hx, (IH Ha).
    cbv zeta. destruct (Z.ltb_spec (Z.of_nat (String.length a)) 0); lia.
Qed.

Lemma rfind_none c s :
  Text.any_char (Ascii.eqb c) s = false -> Text.rfind c s = -1.
Proof.
  induction s as [|x s IH]; cbn [Text.any_char Text.rfind]; [reflexivity|].
  intros H. apply orb_false_iff in H as [Hx Hs]. now rewrite (IH Hs), Hx.
Qed.

Lemma rfind_exact c a b :
  Text.any_char (Ascii.eqb c) b = false ->
  Text.rfind c (a ++ String c b) = Z.of_nat (String.length a).
Proof.
  intros Hb. induction a as [|x a IH]; cbn [append Text.rfind String.length].
  - rewrite (rfind_none c b Hb). cbn. now rewrite Ascii.eqb_refl.
  - rewrite IH. cbv zeta.
    destruct (Z.leb_spec 0 (Z.of_nat (String.length a))); lia.
Qed.

(** The first [c] stands no later than any [c]. *)
Lemma find_first c a b :
  0 <= Text.find c (a ++ String c b) <= Z.of_nat (String.length a).
Proof.
  induction a as [|x a IH]; cbn [append Text.find String.length].
  - rewrite Ascii.eqb_refl. lia.
  - destruct (Ascii.eqb c x); [lia|]. cbv zeta.
    destruct (Z.ltb_spec (Text.find c (a ++ String c b)) 0); lia.
Qed.

(** The last [c] stands no earlier than any [c]. *)
Lemma rfind_last c a b :
  Z.of_nat (String.length a) <= Text.rfind c (a ++ String c b).
Proof.
  induction a as [|x a IH]; cbn [append Text.rfind String.length]; cbv zeta.
  - destruct (Z.leb_spec 0 (Text.rfind c b)); [lia|].
    rewrite Ascii.eqb_refl. lia.
  - destruct (Z.leb_spec 0 (Text.rfind c (a ++ String c b))); lia.
Qed.

(** The text from the first opening to the last closing brace. *)
Lemma located_json_inv text json_str :
  located_json text = Some json_str -> braced_part text json_str.
Proof.
  unfold located_json, braced_part. cbv zeta.
  destruct (_ && _)%bool eqn:E; [|discriminate]. intros [= <-].
  apply andb_prop in E as [E1 E2]. apply Z.leb_le in E1, E2.
  destruct (find_inv _ _ E1) as (pre & rest & Ht & Hl & Hp).
  destruct (rfind_inv "}" text) as (pre' & post & Ht' & Hl' & Hp'); [lia|].
  destruct (append_cut pre pre' (String "{" rest) (String "}" post))
    as (m & Hm & Hr); [congruence|lia|].
  destruct m as [|c mid]; [discriminate|].
  cbn [append] in Hr. injection Hr as <- Hr.
  exists pre, mid, post. subst pre' rest.
  split; [|split; [|split]]; try assumption.
  unfold Text.slice. rewrite <- Hl, Nat2Z.id.
  assert (Hlen : Z.to_nat (Text.rfind "}" text + 1
                           - Z.of_nat (String.length pre))
                 = String.length ("{" ++ mid ++ "}")).
  { rewrite <- Hl'. repeat (rewrite ?length_append; cbn [String.length append]).
    lia. }
  rewrite Hlen. rewrite Ht at 1.
  replace (pre ++ String "{" (mid ++ String "}" post))
    with (pre ++ ("{" ++ mid ++ "}") ++ post).
  - apply substring_middle.
  - cbn [append]. now rewrite append_assoc.
Qed.

Lemma located_json_intro text json_str :
  braced_part text json_str -> located_json text = Some json_str.
Proof.
  intros (before & mid & after & -> & -> & Hb & Ha).
  unfold located_json. cbv zeta.
  change (before ++ "{" ++ mid ++ "}" ++ after)
    with (before ++ String "{" (mid ++ String "}" after)).
  rewrite (find_exact "{" before _ Hb).
  replace (before ++ String "{" (mid ++ String "}" after))
    with ((before ++ String "{" mid) ++ String "}" after)
    by (rewrite append_assoc; reflexivity).
  rewrite (rfind_exact "}" (before ++ String "{" mid) after Ha).
  rewrite length_append. cbn [String.length].
  destruct (_ && _)%bool eqn:E;
    [|apply andb_false_iff in E as [E|E];
      [apply Z.leb_gt in E|apply Z.leb_gt in E]; lia].
  f_equal. unfold Text.slice. rewrite Nat2Z.id.
  replace (Z.to_nat (Z.of_nat (String.length before + S (String.length mid))
                     + 1 - Z.of_nat (String.length before)))
    with (String.length ("{" ++ mid ++ "}"))
    by (repeat (rewrite ?length_append; cbn [String.length append]); lia).
  replace ((before ++ String "{" mid) ++ String "}" after)
    with (before ++ ("{" ++ mid ++ "}") ++ after).
  - apply substring_middle.
  - cbn [append]. now rewrite !append_assoc.
Qed.

Lemma located_json_none text :
  located_json text = None <-> no_braced_part text.
Proof.
  unfold no_braced_part. split.
  - intros H before mid after Ht.
    assert (Hb : braced_part text (Text.slice (Text.find "{" text)
                                     (Text.rfind "}" text + 1) text)).
    { apply located_json_inv. unfold located_json. cbv zeta.
      pose proof (find_first "{" before (mid ++ String "}" after)) as Hf.
      pose proof (rfind_last "}" (before ++ String "{" mid) after) as Hr.
      replace ((before ++ String "{" mid) ++ String "}" after)
        with text in Hr by (rewrite Ht, append_assoc; reflexivity).
      change (before ++ String "{" (mid ++ String "}" after))
        with (before ++ "{" ++ mid ++ "}" ++ after) in Hf.
      rewrite <- Ht in Hf. rewrite length_append in Hr.
      destruct (_ && _)%bool eqn:E; [reflexivity|].
      apply andb_false_iff in E as [E|E]; apply Z.leb_gt in E; lia. }
    apply located_json_intro in Hb. congruence.
  - intros H. destruct (located_json text) as [json_str|] eqn:E;
      [|reflexivity].
    apply located_json_inv in E as (before & mid & after & Ht & _).
    now apply H in Ht.
Qed.

(** The text of a reply's body, as [response_text] reads it. *)
Lemma response_text_some loads body text :
  response_text loads body = Some text <-> response_of loads body text.
Proof.
  unfold response_text, response_of. split.
  - destruct (loads body) as [[| | | | |fields]|]; try discriminate.
    destruct (lookup "response" fields) as [[| | |s| |]|] eqn:El;
      try discriminate; intros [= <-]; exists fields; auto.
  - intros (fields & -> & [-> | [-> ->]]); reflexivity.
Qed.

Lemma response_text_none loads body :
  response_text loads body = None <-> forall text, ~ response_of loads body text.
Proof.
  split.
  - intros H text Hr. apply response_text_some in Hr. congruence.
  - intros H. destruct (response_text loads body) as [text|] eqn:E;
      [|reflexivity].
    apply response_text_some in E. now apply H in E.
Qed.

Lemma from_rules_in_try now goal w :
  fst (fallback_in_try now goal w)
  = from_rules (fallback_plan_generation now goal).
Proof.
  unfold fallback_in_try, on_exception.
  destruct (fallback_plan_generation now goal); reflexivity.
Qed.

Lemma same_server_refl w : same_server w w.
Proof. unfold same_server. now repeat split. Qed.

Lemma same_server_print e w w' :
  same_server (print e w) w' -> same_server w w'.
Proof. unfold same_server. cbn [print llm_method ollama posts task_plans
  sqlite_sequence inserts]. auto. Qed.

Lemma same_server_exception now goal w :
  same_server w (snd (on_exception now goal w)).
Proof.
  unfold on_exception. cbn [snd].
  apply same_server_print with (e := WarnConnection). apply same_server_refl.
Qed.

Lemma same_server_in_try now goal w :
  same_server w (snd (fallback_in_try now goal w)).
Proof.
  unfold fallback_in_try.
  destruct (fallback_plan_generation now goal);
    [apply same_server_refl|apply same_server_exception].
Qed.

(** The adapter sends one request, whatever comes back. *)
Lemma one_request loads now goal w :
  same_server (snd (post w)) (snd (generate_with_ollama loads now goal w)).
Proof.
  unfold generate_with_ollama. destruct (post w) as [reply w1].
  cbn [snd].
  destruct reply as [| |status_code body];
    try apply same_server_exception.
  destruct (status_code =? 200);
    [|apply same_server_print with (e := WarnApi status_code);
      apply same_server_in_try].
  destruct (response_text loads body) as [text|];
    [|apply same_server_exception].
  cbv zeta. destruct (_ && _)%bool;
    [|apply same_server_print with (e := WarnNoJson);
      apply same_server_in_try].
  destruct (loads _) as [plan|e]; [apply same_server_refl|].
  destruct e; try apply same_server_exception.
  apply same_server_print with (e := WarnJsonParse).
  apply same_server_in_try.
Qed.

(** The adapter does what the specification words: the parsed object when
    there is one, the rule-based plan otherwise. *)
Lemma adapter_refines loads now goal w :
  fst (generate_with_ollama loads now goal w)
  = answer_or_fallback loads now goal (fst (post w)).
Proof.
  unfold generate_with_ollama, answer_or_fallback, parsed_answer.
  destruct (post w) as [reply w1]. cbn [fst].
  destruct reply as [| |status_code body]; try reflexivity.
  destruct (status_code =? 200); [|apply from_rules_in_try].
  destruct (response_text loads body) as [text|]; [|reflexivity].
  unfold located_json. cbv zeta.
  replace (Text.find "{" text <? Text.rfind "}" text + 1)
    with (Text.find "{" text <=? Text.rfind "}" text)
    by (destruct (Z.leb_spec (Text.find "{" text) (Text.rfind "}" text));
        destruct (Z.ltb_spec (Text.find "{" text) (Text.rfind "}" text + 1));
        (reflexivity || lia)).
  destruct (_ && _)%bool; [|apply from_rules_in_try].
  destruct (loads _) as [plan|e]; [reflexivity|].
  destruct e; first [apply from_rules_in_try|reflexivity].
Qed.

(** What the adapter returns, by what [json.loads] makes of the answer. *)
Lemma adapter_cases loads now goal w :
  fst (generate_with_ollama loads now goal w)
  = match fst (post w) with
    | Response status_code body =>
        if status_code =? 200 then
          match response_text loads body with
          | Some text =>
              match located_json text with
              | Some json_str =>
                  match loads json_str with
                  | Ok plan => Ok (FromLLM plan)
                  | Raise _ => from_rules (fallback_plan_generation now goal)
                  end
              | None => from_rules (fallback_plan_generation now goal)
              end
          | None => from_rules (fallback_plan_generation now goal)
          end
        else from_rules (fallback_plan_generation now goal)
    | _ => from_rules (fallback_plan_generation now goal)
    end.
Proof.
  rewrite adapter_refines. unfold answer_or_fallback, parsed_answer.
  destruct (fst (post w)) as [| |status_code body]; try reflexivity.
  destruct (status_code =? 200); [|reflexivity].
  destruct (response_text loads body) as [text|]; [|reflexivity].
  destruct (located_json text) as [json_str|]; [|reflexivity].
  now destruct (loads json_str).
Qed.

(** C8, as the code has it. [generate_with_ollama] returns what
    [fallback_plan_generation] returns for the same goal when the
    connection fails or times out, when the status is not 200, when the
    body of a 200 reply is not read as an object whose "response" is a text
    (or is missing), when that text has no opening brace with a closing
    brace after it, and when [json.loads] raises on the part from its first
    opening to its last closing brace; when that part parses, the parsed
    object is returned as it is, and in no other case. One request is sent,
    whatever comes back: a failure is not retried. *)
Theorem ollama_or_fallback loads now goal w :
  let reply := fst (post w) in
  let result := fst (generate_with_ollama loads now goal w) in
  let world := snd (generate_with_ollama loads now goal w) in
  let rules := from_rules (fallback_plan_generation now goal) in
  (reply = ConnectionRefused \/ reply = ReadTimeout -> result = rules)
  /\ (forall status_code body,
         reply = Response status_code body -> status_code <> 200 ->
         result = rules)
  /\ (forall body,
         reply = Response 200 body ->
         ((forall text, ~ response_of loads body text) -> result = rules)
         /\ forall text,
              response_of loads body text ->
              (no_braced_part text -> result = rules)
              /\ forall json_str,
                   braced_part text json_str ->
                   match loads json_str with
                   | Ok plan => result = Ok (FromLLM plan)
                   | Raise _ => result = rules
                   end)
  /\ (forall plan,
         result = Ok (FromLLM plan)
         <-> exists body text json_str,
               reply = Response 200 body /\ response_of loads body text
               /\ braced_part text json_str /\ loads json_str = Ok plan)
  /\ posts world = S (posts w)
  /\ ollama world = tl (ollama w)
  /\ task_plans world = task_plans w.
Proof.
  intros reply result world rules.
  pose proof (adapter_cases loads now goal w) as Hr.
  fold reply result rules in Hr.
  split; [|split; [|split; [|split]]].
  - intros [E|E]; rewrite Hr, E; reflexivity.
  - intros status_code body E Hs. rewrite Hr, E.
    apply Z.eqb_neq in Hs. now rewrite Hs.
  - intros body E. rewrite E in Hr.
    change (200 =? 200) with true in Hr. cbv iota in Hr. split.
    + intros Hno. apply response_text_none in Hno. now rewrite Hno in Hr.
    + intros text Ht. apply response_text_some in Ht. rewrite Ht in Hr.
      split.
      * intros Hno. apply located_json_none in Hno. now rewrite Hno in Hr.
      * intros json_str Hb. apply located_json_intro in Hb.
        rewrite Hb in Hr. destruct (loads json_str); exact Hr.
  - intros plan. rewrite Hr. split.
    + destruct reply as [| |status_code body];
        try (unfold rules; destruct (fallback_plan_generation now goal);
             discriminate).
      destruct (Z.eqb_spec status_code 200) as [->|];
        [|unfold rules; destruct (fallback_plan_generation now goal);
          discriminate].
      destruct (response_text loads body) as [text|] eqn:Et;
        [|unfold rules; destruct (fallback_plan_generation now goal);
          discriminate].
      destruct (located_json text) as [json_str|] eqn:Ej;
        [|unfold rules; destruct (fallback_plan_generation now goal);
          discriminate].
      destruct (loads json_str) as [plan'|e] eqn:El;
        [|unfold rules; destruct (fallback_plan_generation now goal);
          discriminate].
      intros [= ->]. exists body, text, json_str.
      apply response_text_some in Et. apply located_json_inv in Ej. auto.
    + intros (body & text & json_str & -> & Ht & Hb & Hl).
      change (200 =? 200) with true. cbv iota.
      apply response_text_some in Ht. apply located_json_intro in Hb.
      now rewrite Ht, Hb, Hl.
  - destruct (one_request loads now goal w) as (_ & Ho & Hp & Ht & _).
    fold world in Ho, Hp, Ht. rewrite Ho, Hp, Ht.
    unfold post. destruct (ollama w); simpl; auto.
Qed.

(** A 200 reply whose "response" is a number: the status is 200, the
    connection held, there is no text to look for braces in, and the
    adapter returns the rule-based plan. *)
Lemma untexted_answer_falls_back :
  fst (post chatty) = Response 200 "body"
  /\ numeric_loads "body" = Ok (JObject [("response", JNumber 5)])
  /\ (forall text, ~ response_of numeric_loads "body" text)
  /\ fst (generate_with_ollama numeric_loads a_day "Write a novel" chatty)
     = Ok (FromRules novel_plan).
Proof.
  split; [reflexivity|]. split; [reflexivity|]. split.
  - intros text (fields & Hl & Hr). injection Hl as <-.
    cbn in Hr. destruct Hr as [Hr|[Hr _]]; discriminate.
  - vm_compute. reflexivity.
Qed.

(** ** The plan endpoint *)

Lemma lstrip_blank s :
  Text.all_chars Text.is_space s = true -> Text.lstrip s = "".
Proof.
  induction s as [|c s IH]; simpl; [reflexivity|].
  intros H. apply andb_prop in H as [Hc Hs]. rewrite Hc. auto.
Qed.

(** A goal is blank exactly when nothing is left of it after [strip()]. *)
Lemma strip_blank s :
  Text.strip s = "" <-> Text.all_chars Text.is_space s = true.
Proof.
  unfold Text.strip. split.
  - induction s as [|c s IH]; simpl; [reflexivity|].
    destruct (Text.is_space c) eqn:Hc; [exact IH|].
    cbn [Text.rstrip]. destruct (Text.rstrip s); [now rewrite Hc|discriminate].
  - intros H. now rewrite lstrip_blank.
Qed.

Lemma in_try_appends now goal w :
  exists rest, stdout (snd (fallback_in_try now goal w)) = (stdout w ++ rest)%list.
Proof.
  unfold fallback_in_try, on_exception.
  destruct (fallback_plan_generation now goal); cbn [snd print stdout].
  - exists []. now rewrite app_nil_r.
  - eauto.
Qed.

Lemma printed_then_appends e w w' :
  (exists rest, stdout w' = (stdout (print e w) ++ rest)%list) ->
  exists rest, stdout w' = (stdout w ++ rest)%list.
Proof.
  intros (rest & ->). cbn [print stdout]. rewrite <- app_assoc. eauto.
Qed.

(** The adapter only adds lines to what was printed. *)
Lemma ollama_appends loads now goal w :
  exists rest,
    stdout (snd (generate_with_ollama loads now goal w)) = (stdout w ++ rest)%list.
Proof.
  unfold generate_with_ollama.
  assert (Hpost : stdout (snd (post w)) = stdout w)
    by (unfold post; destruct (ollama w); reflexivity).
  destruct (post w) as [reply w1]. cbn [snd] in *. rewrite <- Hpost.
  destruct reply as [| |status_code body];
    try (unfold on_exception; cbn [snd print stdout]; now eauto).
  destruct (status_code =? 200);
    [|apply printed_then_appends with (e := WarnApi status_code);
      apply in_try_appends].
  destruct (response_text loads body) as [text|];
    [|unfold on_exception; cbn [snd print stdout]; now eauto].
  cbv zeta. destruct (_ && _)%bool;
    [|apply printed_then_appends with (e := WarnNoJson);
      apply in_try_appends].
  destruct (loads _) as [plan|e];
    [cbn [snd]; exists []; now rewrite app_nil_r|].
  destruct e;
    try (unfold on_exception; cbn [snd print stdout]; now eauto).
  apply printed_then_appends with (e := WarnJsonParse).
  apply in_try_appends.
Qed.

(** Generating a plan is announced: the line
    "[INFO] Generating plan using: ..." is printed first. *)
Lemma generation_prints loads now goal w :
  exists rest,
    stdout (snd (generate_task_plan loads now goal w))
    = (stdout w ++ InfoGenerating (llm_method w) :: rest)%list.
Proof.
  unfold generate_task_plan. cbv zeta.
  destruct (String.eqb _ _).
  - destruct (ollama_appends loads now goal
                (print (InfoGenerating (llm_method w)) w)) as (rest & ->).
    cbn [print stdout]. rewrite <- app_assoc. now exists rest.
  - cbn [snd print stdout]. now exists [].
Qed.

(** C9. A request whose goal is missing, empty or blank gets the answer 400
    "Goal is required", and nothing else happens: no line is printed, no
    request is sent to the model, no plan is generated and the table of
    plans is left as it was. *)
Theorem blank_goal_rejected loads now fields s w :
  (lookup "goal" fields = Some (JString s)
   \/ (lookup "goal" fields = None /\ s = "")) ->
  Text.all_chars Text.is_space s = true ->
  create_plan loads now (Some (JObject fields)) w
  = (Status400 "Goal is required", w).
Proof.
  intros Hgoal Hblank. apply strip_blank in Hblank.
  unfold create_plan. cbv zeta.
  destruct Hgoal as [->|[-> ->]]; now rewrite Hblank.
Qed.

Lemma blank_goal_rejected_witness :
  create_plan no_json a_day (Some (JObject blank_request)) rule_based
  = (Status400 "Goal is required", rule_based).
Proof.
  apply (blank_goal_rejected no_json a_day blank_request "   " rule_based).
  - left. reflexivity.
  - reflexivity.
Defined.

(** * Further properties of the code *)

(** ** The task ids *)

Lemma range_succ n : 0 <= n -> range (n + 1) = (range n ++ [n])%list.
Proof.
  intros Hn. unfold range.
  replace (Z.to_nat (n + 1)) with (S (Z.to_nat n)) by lia.
  rewrite seq_S, map_app. cbn [map Nat.add]. now rewrite Z2Nat.id.
Qed.

Lemma in_succ_range n k : In k (map Z.succ (range n)) <-> 1 <= k <= n.
Proof.
  rewrite in_map_iff. split.
  - intros (i & <- & Hi). apply in_range in Hi. lia.
  - intros Hk. exists (k - 1). split; [lia|]. apply in_range. lia.
Qed.

Lemma generic_ids goal s dur l ts :
  Forall2 (fun i t => generic_task goal s dur i = Ok t) l ts ->
  map id ts = map Z.succ l.
Proof.
  induction 1 as [|i t l ts Ht HF IH]; [reflexivity|].
  destruct (generic_task_inv _ _ _ _ _ Ht) as (_ & _ & Hid & _).
  cbn [map]. rewrite Hid, IH. reflexivity.
Qed.

Lemma NoDup_map_injective {A B} (f : A -> B) l :
  (forall a b, f a = f b -> a = b) -> NoDup l -> NoDup (map f l).
Proof.
  intros Hf. induction 1 as [|a l Ha Hl IH]; cbn [map]; constructor; auto.
  rewrite in_map_iff. intros (b & Hb & Hin). apply Hf in Hb. now subst.
Qed.

(** The ids of a template's tasks count up from 1. *)
Lemma family_ids family goal s e T ts :
  family_tasks family goal s e T = Ok ts ->
  map id ts = map Z.succ (range (Z.of_nat (List.length ts))).
Proof.
  intros H. pose proof (family_tasks_length _ _ _ _ _ _ H) as Hlen.
  rewrite Hlen. destruct family; cbn [family_tasks] in H.
  - destruct (product_tasks_inv _ _ _ _ H)
      as (? & ? & ? & ? & _ & _ & _ & _ & -> & _). reflexivity.
  - destruct (event_tasks_inv _ _ _ _ H) as (? & ? & _ & _ & -> & _).
    reflexivity.
  - destruct (learning_tasks_inv _ _ _ _ _ H) as (? & ? & _ & _ & -> & _).
    reflexivity.
  - destruct (research_tasks_inv _ _ _ _ H) as (? & ? & _ & _ & -> & _).
    reflexivity.
  - destruct (generic_tasks_inv _ _ _ _ H) as (dur & _ & HF).
    rewrite (generic_ids _ _ _ _ _ HF). now rewrite Z2Nat.id by lia.
Qed.

(** X1. In the plan [fallback_plan_generation] returns the tasks are
    numbered 1, 2, ..., [len(tasks)] in the order of the list, in every
    template: an id is the task's position, and no two tasks share one. *)
Theorem task_ids_count_up now goal p :
  fallback_plan_generation now goal = Ok p ->
  map id (tasks p) = map Z.succ (range (Z.of_nat (List.length (tasks p))))
  /\ NoDup (map id (tasks p)).
Proof.
  intros Hp.
  destruct (fallback_plan_inv _ _ _ Hp) as (T & _ & _ & _ & _ & Hts & _).
  pose proof (family_ids _ _ _ _ _ _ Hts) as Hid. split; [exact Hid|].
  rewrite Hid. unfold range. rewrite map_map.
  apply NoDup_map_injective; [intros a b; lia|apply seq_NoDup].
Qed.

Lemma task_ids_count_up_witness :
  map id (tasks launch_plan)
  = map Z.succ (range (Z.of_nat (List.length (tasks launch_plan))))
  /\ NoDup (map id (tasks launch_plan)).
Proof.
  exact (task_ids_count_up a_day "Launch a mobile app in 3 weeks" launch_plan
           launch_plan_returned).
Defined.

(** ** The dependencies between tasks *)

(** A dependency is an id from 1 to below the task's own. *)
Lemma family_dependencies family goal s e T ts t d :
  family_tasks family goal s e T = Ok ts ->
  In t ts -> In d (dependencies t) -> 1 <= d < id t.
Proof.
  intros Hts Ht Hd.
  pose proof (in_combine_map id dependencies _ _ Ht) as Hin.
  destruct family; cbn [family_tasks] in Hts.
  - destruct (product_tasks_inv _ _ _ _ Hts)
      as (? & ? & ? & ? & _ & _ & _ & _ & Hid & Hdep & _).
    rewrite Hid, Hdep in Hin. check_dependencies Hin Hd.
  - destruct (event_tasks_inv _ _ _ _ Hts)
      as (? & ? & _ & _ & Hid & Hdep & _).
    rewrite Hid, Hdep in Hin. check_dependencies Hin Hd.
  - destruct (learning_tasks_inv _ _ _ _ _ Hts)
      as (? & ? & _ & _ & Hid & Hdep & _).
    rewrite Hid, Hdep in Hin. check_dependencies Hin Hd.
  - destruct (research_tasks_inv _ _ _ _ Hts)
      as (? & ? & _ & _ & Hid & Hdep & _).
    rewrite Hid, Hdep in Hin. check_dependencies Hin Hd.
  - destruct (generic_tasks_in _ _ _ _ _ Hts Ht)
      as (dur & i & days & _ & Hi & _ & Hid & Hdep & _).
    rewrite Hdep in Hd. rewrite Hid.
    destruct (0 <? i) eqn:E; cbn [In] in Hd; [|contradiction].
    apply Z.ltb_lt in E. lia.
Qed.

(** X2. Every id in a task's dependencies is the id of a task of the same
    plan, one that comes earlier in it: the plan never refers to a task it
    does not hold. *)
Theorem dependencies_are_tasks now goal p t d :
  fallback_plan_generation now goal = Ok p ->
  In t (tasks p) -> In d (dependencies t) ->
  exists t', In t' (tasks p) /\ id t' = d /\ id t' < id t.
Proof.
  intros Hp Ht Hd.
  destruct (fallback_plan_inv _ _ _ Hp) as (T & _ & _ & _ & _ & Hts & _).
  pose proof (family_dependencies _ _ _ _ _ _ _ _ Hts Ht Hd) as Hb.
  pose proof (family_ids _ _ _ _ _ _ Hts) as Hid.
  assert (Hin : In (id t) (map id (tasks p))) by now apply in_map.
  rewrite Hid in Hin. apply in_succ_range in Hin.
  assert (Hd' : In d (map id (tasks p)))
    by (rewrite Hid; apply in_succ_range; lia).
  apply in_map_iff in Hd' as (t' & Ht' & Hin').
  exists t'. repeat split; auto; lia.
Qed.

Lemma dependencies_are_tasks_witness :
  exists t', In t' (tasks launch_plan) /\ id t' = 4
             /\ id t' < id (nth 4 (tasks launch_plan) no_task).
Proof.
  apply (dependencies_are_tasks a_day "Launch a mobile app in 3 weeks"
           launch_plan (nth 4 (tasks launch_plan) no_task) 4
           launch_plan_returned).
  - vm_compute. tauto.
  - vm_compute. tauto.
Defined.

(** Closes [In (i, ds) l -> (ds = [] <-> i = 1)] for a literal [l]. *)
Ltac check_roots H :=
  cbn [combine In] in H;
  repeat (destruct H as [H|H];
          [injection H as <- <-; split; intros; (reflexivity || easy)|]);
  contradiction.

(** X3. The first task is the only one that can start at once: a task of
    the returned plan has no dependency exactly when its id is 1. *)
Theorem first_task_is_the_only_root now goal p t :
  fallback_plan_generation now goal = Ok p -> In t (tasks p) ->
  (dependencies t = [] <-> id t = 1).
Proof.
  intros Hp Ht.
  destruct (fallback_plan_inv _ _ _ Hp) as (T & _ & _ & _ & _ & Hts & _).
  pose proof (in_combine_map id dependencies _ _ Ht) as Hin.
  destruct (classify goal); cbn [family_tasks] in Hts.
  - destruct (product_tasks_inv _ _ _ _ Hts)
      as (? & ? & ? & ? & _ & _ & _ & _ & Hid & Hdep & _).
    rewrite Hid, Hdep in Hin. check_roots Hin.
  - destruct (event_tasks_inv _ _ _ _ Hts)
      as (? & ? & _ & _ & Hid & Hdep & _).
    rewrite Hid, Hdep in Hin. check_roots Hin.
  - destruct (learning_tasks_inv _ _ _ _ _ Hts)
      as (? & ? & _ & _ & Hid & Hdep & _).
    rewrite Hid, Hdep in Hin. check_roots Hin.
  - destruct (research_tasks_inv _ _ _ _ Hts)
      as (? & ? & _ & _ & Hid & Hdep & _).
    rewrite Hid, Hdep in Hin. check_roots Hin.
  - destruct (generic_tasks_in _ _ _ _ _ Hts Ht)
      as (dur & i & days & _ & Hi & _ & Hid & Hdep & _).
    rewrite Hdep, Hid.
    destruct (0 <? i) eqn:E; [apply Z.ltb_lt in E|apply Z.ltb_ge in E];
      split; intros H; (discriminate || lia || reflexivity).
Qed.

Lemma first_task_is_the_only_root_witness :
  dependencies (nth 0 (tasks novel_plan) no_task) = []
  <-> id (nth 0 (tasks novel_plan) no_task) = 1.
Proof.
  apply (first_task_is_the_only_root a_day "Write a novel" novel_plan
           (nth 0 (tasks novel_plan) no_task) novel_plan_returned).
  vm_compute. tauto.
Defined.

(** ** The milestones in time *)

(** X4. The milestones of a returned plan are dated in order: their dates
    never go back from one milestone to the next, the first is the start
    date, the last the end date, and every milestone lies between the
    two. *)
Theorem milestone_dates_in_order now goal p :
  fallback_plan_generation now goal = Ok p ->
  nondecreasing (map date (milestones (timeline p)))
  /\ start_date (timeline p) <= end_date (timeline p)
  /\ forall m, In m (milestones (timeline p)) ->
       start_date (timeline p) <= date m <= end_date (timeline p).
Proof.
  intros Hp. pose proof (milestones_span _ _ _ Hp) as Hd.
  destruct (fallback_plan_inv _ _ _ Hp)
    as (T & _ & HT & _ & _ & _ & _ & Hs & He).
  rewrite Hs, He in *.
  replace (now + T - now) with T in Hd by lia.
  assert (H1 : 0 <= T / 3 <= T) by (Z.div_mod_to_equations; lia).
  assert (H2 : T / 3 <= (T * 2) / 3 <= T) by (Z.div_mod_to_equations; lia).
  split; [|split].
  - rewrite Hd. cbn [nondecreasing]. lia.
  - lia.
  - intros m Hm. apply (in_map date) in Hm. rewrite Hd in Hm.
    cbn [In] in Hm. lia.
Qed.

Lemma milestone_dates_in_order_witness :
  nondecreasing (map date (milestones (timeline launch_plan)))
  /\ start_date (timeline launch_plan) <= end_date (timeline launch_plan)
  /\ forall m, In m (milestones (timeline launch_plan)) ->
       start_date (timeline launch_plan) <= date m
       <= end_date (timeline launch_plan).
Proof.
  exact (milestone_dates_in_order a_day "Launch a mobile app in 3 weeks"
           launch_plan launch_plan_returned).
Defined.

(** ** Goals without a number *)

Lemma append_empty (s : string) : s ++ "" = s.
Proof. induction s as [|c s IH]; simpl; [reflexivity|now rewrite IH]. Qed.

(** No pattern matches a text without a digit. *)
Lemma search_no_digit unit s :
  Text.any_char Text.is_digit s = false ->
  Re.search (Re.number_of unit) s = None.
Proof.
  intros H. rewrite <- (append_empty s). rewrite search_skip by exact H.
  reflexivity.
Qed.

(** X5. A goal that holds no digit gets the default of two weeks: no
    number is read from words ("two weeks", "a month"), and the plan ends
    14 days after it starts. *)
Theorem goal_without_digits_gets_two_weeks goal :
  Text.any_char Text.is_digit goal = false ->
  extract_timeframe goal = Ok 14
  /\ forall now p, fallback_plan_generation now goal = Ok p ->
       end_date (timeline p) = start_date (timeline p) + 14
       /\ estimated_duration p = "14 days".
Proof.
  intros H. rewrite <- any_digit_lower in H.
  assert (HT : extract_timeframe goal = Ok 14).
  { rewrite extract_timeframe_cascade. now rewrite !search_no_digit. }
  split; [exact HT|]. intros now p Hp.
  destruct (fallback_plan_inv _ _ _ Hp)
    as (T & HT' & _ & _ & _ & _ & _ & -> & ->).
  assert (T = 14) as -> by congruence. split; [reflexivity|].
  unfold fallback_plan_generation in Hp. rewrite HT in Hp. cbn [bind] in Hp.
  bind_inv Hp. now injection Hp as <-.
Qed.

Lemma goal_without_digits_gets_two_weeks_witness :
  extract_timeframe "Plan a party in two weeks" = Ok 14
  /\ forall now p,
       fallback_plan_generation now "Plan a party in two weeks" = Ok p ->
       end_date (timeline p) = start_date (timeline p) + 14
       /\ estimated_duration p = "14 days".
Proof.
  apply (goal_without_digits_gets_two_weeks "Plan a party in two weeks").
  reflexivity.
Defined.

(** ** Keywords inside words *)

Lemma prefix_app (w rest : string) : prefix w (w ++ rest) = true.
Proof.
  induction w as [|c w IH]; [now destruct rest|].
  cbn [append prefix]. destruct (ascii_dec c c); [exact IH|congruence].
Qed.

Lemma prefix_inv (w s : string) :
  prefix w s = true -> exists rest, s = w ++ rest.
Proof.
  revert s. induction w as [|c w IH]; intros s H; [now exists s|].
  destruct s as [|c' s]; [discriminate|]. cbn [prefix] in H.
  destruct (ascii_dec c c') as [<-|]; [|discriminate].
  destruct (IH s H) as (rest & ->). now exists rest.
Qed.

(** [word in s]: [word] is a part of [s]. *)
Lemma contains_iff (w s : string) :
  Text.contains w s = true <-> exists pre post, s = pre ++ w ++ post.
Proof.
  split.
  - induction s as [|c s IH]; cbn [Text.contains].
    + destruct (prefix w "") eqn:E; [|discriminate]. intros _.
      destruct (prefix_inv _ _ E) as (rest & Hr). now exists "", rest.
    + destruct (prefix w (String c s)) eqn:E.
      * intros _. destruct (prefix_inv _ _ E) as (rest & Hr).
        now exists "", rest.
      * intros H. destruct (IH H) as (pre & post & ->).
        now exists (String c pre), post.
  - intros (pre & post & ->). induction pre as [|c pre IH].
    + cbn [append]. destruct (w ++ post) eqn:E; cbn [Text.contains];
        rewrite <- E, prefix_app; reflexivity.
    + cbn [append Text.contains]. rewrite IH. now destruct (prefix _ _).
Qed.

Lemma any_in_occurs words s : any_in words s = true <-> occurs words s.
Proof.
  unfold any_in, occurs. rewrite existsb_exists. split.
  - intros (w & Hw & Hc). apply contains_iff in Hc as (pre & post & ->).
    now exists w, pre, post.
  - intros (w & pre & post & Hw & ->). exists w. split; [exact Hw|].
    apply contains_iff. now exists pre, post.
Qed.

(** X6. A keyword counts wherever it occurs in the lower-cased goal, also
    inside a longer word: the goal is a Product/App goal exactly when a
    Product/App keyword is a part of it (whatever other keywords it holds),
    an Event goal exactly when an Event keyword is and no Product/App one,
    and a Generic goal exactly when no keyword of the four lists is. *)
Theorem keyword_anywhere_selects goal :
  let s := Text.lower goal in
  (classify goal = Product <-> occurs product_words s)
  /\ (classify goal = Event
      <-> occurs event_words s /\ ~ occurs product_words s)
  /\ (classify goal = Generic
      <-> ~ occurs (product_words ++ event_words
                    ++ learning_words ++ research_words) s).
Proof.
  intros s. unfold classify. fold s.
  assert (Happ : forall l1 l2, occurs (l1 ++ l2) s <-> occurs l1 s \/ occurs l2 s).
  { intros l1 l2. unfold occurs. split.
    - intros (w & pre & post & Hw & E). apply in_app_or in Hw as [Hw|Hw];
        [left|right]; now exists w, pre, post.
    - intros [(w & pre & post & Hw & E)|(w & pre & post & Hw & E)];
        exists w, pre, post; (split; [apply in_or_app; auto|exact E]). }
  rewrite !Happ.
  rewrite <- !any_in_occurs.
  destruct (any_in product_words s), (any_in event_words s),
    (any_in learning_words s), (any_in research_words s);
    repeat split; intros; try discriminate; try reflexivity; try tauto;
    intuition discriminate.
Qed.

(** ** The subject of a learning plan *)

Lemma upper_of_lower_char c :
  Text.is_lower (Text.lower_char c) = true ->
  Text.upper_char (Text.lower_char c) = Text.upper_char c.
Proof.
  destruct c as [[] [] [] [] [] [] [] []]; intros H;
    (reflexivity || discriminate H).
Qed.

Lemma lower_char_twice c :
  Text.lower_char (Text.lower_char c) = Text.lower_char c.
Proof. destruct c as [[] [] [] [] [] [] [] []]; reflexivity. Qed.

Lemma lower_twice s : Text.lower (Text.lower s) = Text.lower s.
Proof.
  induction s as [|c s IH]; simpl; [reflexivity|].
  now rewrite lower_char_twice, IH.
Qed.

(** A word whose lower-case form starts with a letter a..z is capitalized
    as that form is. *)
Lemma capitalize_lower w :
  match Text.lower w with
  | String c _ => Text.is_lower c = true
  | EmptyString => True
  end ->
  Text.capitalize (Text.lower w) = Text.capitalize w.
Proof.
  destruct w as [|c w]; [reflexivity|]. cbn [Text.lower Text.capitalize].
  intros H. now rewrite upper_of_lower_char, lower_twice.
Qed.

(** X7. The subject a Learning/Education plan names is one of ten fixed
    texts: "the subject", or a word of the vocabulary with a capital first
    letter ("Python", "Java", ...), whatever the words of the goal are. No
    other text of the goal reaches the titles and descriptions of the
    learning template. *)
Theorem subject_is_one_of_ten words :
  In (first_subject words)
     ["the subject"; "Python"; "Java"; "Javascript"; "Programming";
      "Coding"; "Data"; "Science"; "Machine"; "Learning"].
Proof.
  change (In (first_subject words)
            ("the subject" :: map Text.capitalize subject_words)).
  induction words as [|word rest IH]; cbn [first_subject]; [now left|].
  destruct (existsb _ subject_words) eqn:E; [|exact IH]. right.
  apply existsb_exists in E as (v & Hv & Hw). apply String.eqb_eq in Hw.
  rewrite <- capitalize_lower.
  - rewrite Hw. now apply in_map.
  - rewrite Hw. clear - Hv. cbn [subject_words In] in Hv.
    repeat (destruct Hv as [<-|Hv]; [reflexivity|]). contradiction.
Qed.

(** ** Hours and priorities *)

(** Closes [Forall P l] for a literal list of tasks. *)
Ltac check_load :=
  repeat (apply Forall_cons;
          [cbv beta iota delta [estimated_hours priority];
           split; [lia|auto]|]);
  apply Forall_nil.

Lemma keyword_tasks_load family goal s e T ts :
  family_tasks family goal s e T = Ok ts -> family <> Generic ->
  Forall (fun t => 8 <= estimated_hours t <= 48
                   /\ (priority t = "High" \/ priority t = "Medium")) ts.
Proof.
  intros H Hf. destruct family; cbn [family_tasks] in H; [| | | |congruence].
  - unfold product_tasks in H. bind_inv H. injection H as <-.
    check_load.
  - unfold event_tasks in H. bind_inv H. injection H as <-.
    check_load.
  - unfold learning_tasks in H. cbv zeta in H. bind_inv H. injection H as <-.
    check_load.
  - unfold research_tasks in H. bind_inv H. injection H as <-.
    check_load.
Qed.

Lemma generic_task_load goal s dur i t :
  generic_task goal s dur i = Ok t -> 0 <= i ->
  (estimated_hours t = 10 \/ estimated_hours t = 16 \/ estimated_hours t = 22)
  /\ (priority t = "High" \/ priority t = "Medium").
Proof.
  unfold generic_task. intros H Hi. bind_inv H.
  pose proof (f_equal (fun r => match r with
                                | Ok x => estimated_hours x
                                | Raise _ => 0
                                end) H) as Hh.
  pose proof (f_equal (fun r => match r with
                                | Ok x => priority x
                                | Raise _ => ""
                                end) H) as Hpr.
  cbn [estimated_hours] in Hh. cbn [priority] in Hpr.
  rewrite <- Hh, <- Hpr. split.
  - assert (Hm : 0 <= i mod 3 < 3) by (apply Z.mod_pos_bound; lia). lia.
  - assert (Hk : (Z.to_nat (Z.min i 6) <= 6)%nat) by lia.
    destruct (Z.to_nat (Z.min i 6)) as [|[|[|[|[|[|[|k]]]]]]];
      cbn; auto; lia.
Qed.

(** X8. Every task of a returned plan is estimated at 8 to 48 hours and
    has the priority "High" or "Medium": the generator gives no task the
    priority "Low", and the demo prints every task under the marker [HIGH]
    or [MED], never under [LOW] or the default [NORMAL]. *)
Theorem task_hours_and_priority now goal p t :
  fallback_plan_generation now goal = Ok p -> In t (tasks p) ->
  8 <= estimated_hours t <= 48
  /\ (priority t = "High" \/ priority t = "Medium")
  /\ (priority_marker (priority t) = "[HIGH]"
      \/ priority_marker (priority t) = "[MED]").
Proof.
  intros Hp Ht.
  destruct (fallback_plan_inv _ _ _ Hp) as (T & _ & _ & _ & _ & Hts & _).
  assert (H : 8 <= estimated_hours t <= 48
              /\ (priority t = "High" \/ priority t = "Medium")).
  { destruct (classify goal) eqn:Hc;
      try (pose proof (keyword_tasks_load _ _ _ _ _ _ Hts) as HF;
           rewrite Forall_forall in HF; apply HF; [discriminate|exact Ht]).
    cbn [family_tasks] in Hts.
    destruct (generic_tasks_inv _ _ _ _ Hts) as (dur & _ & HF).
    destruct (Forall2_in_r _ _ _ _ HF Ht) as (i & Hi & Hti).
    apply in_range in Hi.
    destruct (generic_task_load _ _ _ _ _ Hti) as (Hh & Hpr); [lia|].
    split; [lia|exact Hpr]. }
  destruct H as (Hh & Hpr). repeat split; try lia; try exact Hpr.
  destruct Hpr as [-> | ->]; [left|right]; reflexivity.
Qed.

Lemma task_hours_and_priority_witness :
  8 <= estimated_hours (nth 6 (tasks launch_plan) no_task) <= 48
  /\ (priority (nth 6 (tasks launch_plan) no_task) = "High"
      \/ priority (nth 6 (tasks launch_plan) no_task) = "Medium")
  /\ (priority_marker (priority (nth 6 (tasks launch_plan) no_task))
      = "[HIGH]"
      \/ priority_marker (priority (nth 6 (tasks launch_plan) no_task))
         = "[MED]").
Proof.
  apply (task_hours_and_priority a_day "Launch a mobile app in 3 weeks"
           launch_plan (nth 6 (tasks launch_plan) no_task)
           launch_plan_returned).
  vm_compute. tauto.
Defined.

(** ** The choice of the generator *)

(** X9. [generate_task_plan] returns what the rule-based generator returns
    or raises, unless the method is "ollama" and the model's answer parsed,
    in which case it returns the parsed object; any other method than
    "ollama" ("fallback", "huggingface", ...) goes to the rules. So a
    failure of the model never reaches the caller when the rules return a
    plan. *)
Theorem generate_task_plan_dispatch loads now goal w :
  let r := fst (generate_task_plan loads now goal w) in
  let rules := fallback_plan_generation now goal in
  (llm_method w <> "ollama" -> r = from_rules rules)
  /\ (r = from_rules rules
      \/ (llm_method w = "ollama" /\ exists plan, r = Ok (FromLLM plan)))
  /\ (forall p, rules = Ok p -> exists plan, r = Ok plan).
Proof.
  cbv zeta.
  assert (H : fst (generate_task_plan loads now goal w)
              = from_rules (fallback_plan_generation now goal)
              \/ (llm_method w = "ollama"
                  /\ exists plan,
                       fst (generate_task_plan loads now goal w)
                       = Ok (FromLLM plan))).
  { unfold generate_task_plan. cbv zeta. cbn [print llm_method].
    destruct (String.eqb_spec (llm_method w) "ollama") as [Hm|Hm];
      [|now left].
    rewrite adapter_refines. unfold answer_or_fallback.
    destruct (parsed_answer _ _) as [plan|]; [right|now left].
    split; [exact Hm|now exists plan]. }
  split; [|split].
  - apply generate_task_plan_rules.
  - exact H.
  - intros p Hp. rewrite Hp in H. cbn [from_rules] in H.
    destruct H as [-> | (_ & plan & ->)]; eauto.
Qed.

(** ** The warnings of the adapter *)

Lemma stdout_post w : stdout (snd (post w)) = stdout w.
Proof. unfold post. destruct (ollama w); reflexivity. Qed.

(** What [fallback_in_try] prints after a warning [line]. *)
Lemma in_try_prints now goal line w :
  match fst (fallback_in_try now goal (print line w)) with
  | Ok (FromLLM _) => False
  | Ok (FromRules _) =>
      stdout (snd (fallback_in_try now goal (print line w)))
      = (stdout w ++ [line])%list
  | Raise _ =>
      stdout (snd (fallback_in_try now goal (print line w)))
      = (stdout w ++ [line; WarnConnection])%list
  end.
Proof.
  unfold fallback_in_try, on_exception.
  destruct (fallback_plan_generation now goal) as [p|e] eqn:E;
    cbn [fst snd from_rules print stdout]; [reflexivity|].
  now rewrite <- app_assoc.
Qed.

(** What the handler prints. *)
Lemma on_exception_prints now goal w :
  match fst (on_exception now goal w) with
  | Ok (FromLLM _) => False
  | _ => stdout (snd (on_exception now goal w))
         = (stdout w ++ [WarnConnection])%list
  end.
Proof.
  unfold on_exception.
  destruct (fallback_plan_generation now goal); reflexivity.
Qed.

(** X10. Every plan that comes from the rules after a request to the model
    is announced by exactly one warning line, a plan from the model by
    none; and when the rules raise after the model failed, the handler
    reports a connection error last, after at most one other warning. The
    adapter prints nothing else. *)
Theorem every_fallback_is_warned loads now goal w :
  let r := fst (generate_with_ollama loads now goal w) in
  let printed := stdout (snd (generate_with_ollama loads now goal w)) in
  match r with
  | Ok (FromLLM _) => printed = stdout w
  | Ok (FromRules _) =>
      exists line,
        is_warning line = true /\ printed = (stdout w ++ [line])%list
  | Raise _ =>
      exists lines,
        forallb is_warning lines = true /\ (List.length lines <= 1)%nat
        /\ printed = (stdout w ++ lines ++ [WarnConnection])%list
  end.
Proof.
  cbv zeta. unfold generate_with_ollama.
  pose proof (stdout_post w) as Hpost.
  destruct (post w) as [reply w1]. cbn [snd] in Hpost. rewrite <- Hpost.
  assert (Htry : forall line, is_warning line = true ->
             match fst (fallback_in_try now goal (print line w1)) with
             | Ok (FromLLM _) =>
                 stdout (snd (fallback_in_try now goal (print line w1)))
                 = stdout w1
             | Ok (FromRules _) =>
                 exists line',
                   is_warning line' = true /\
                   stdout (snd (fallback_in_try now goal (print line w1)))
                   = (stdout w1 ++ [line'])%list
             | Raise _ =>
                 exists lines,
                   forallb is_warning lines = true
                   /\ (List.length lines <= 1)%nat /\
                   stdout (snd (fallback_in_try now goal (print line w1)))
                   = (stdout w1 ++ lines ++ [WarnConnection])%list
             end).
  { intros line Hl. pose proof (in_try_prints now goal line w1) as H.
    destruct (fst (fallback_in_try now goal (print line w1))) as [[j|p]|e].
    - contradiction.
    - now exists line.
    - exists [line]. cbn [forallb List.length app]. rewrite Hl. auto. }
  assert (Hexn : match fst (on_exception now goal w1) with
                 | Ok (FromLLM _) =>
                     stdout (snd (on_exception now goal w1)) = stdout w1
                 | Ok (FromRules _) =>
                     exists line',
                       is_warning line' = true /\
                       stdout (snd (on_exception now goal w1))
                       = (stdout w1 ++ [line'])%list
                 | Raise _ =>
                     exists lines,
                       forallb is_warning lines = true
                       /\ (List.length lines <= 1)%nat /\
                       stdout (snd (on_exception now goal w1))
                       = (stdout w1 ++ lines ++ [WarnConnection])%list
                 end).
  { pose proof (on_exception_prints now goal w1) as H.
    destruct (fst (on_exception now goal w1)) as [[j|p]|e].
    - contradiction.
    - now exists WarnConnection.
    - exists []. cbn [forallb List.length app]. auto. }
  destruct reply as [| |status_code body]; try exact Hexn.
  destruct (status_code =? 200); [|now apply Htry].
  destruct (response_text loads body) as [text|]; [|exact Hexn].
  cbv zeta. destruct (_ && _)%bool; [|now apply Htry].
  destruct (loads _) as [plan|e]; [reflexivity|].
  destruct e; first [now apply Htry|exact Hexn].
Qed.

(** ** The text the model's plan is read from *)

(** X11. A plan of the model is read from a part of its answer that starts
    with the first opening brace of the answer and ends with its last
    closing brace, braces included: the request came back with status 200,
    and what stands before and after that part (a greeting, a remark) is
    left out and never parsed. *)
Theorem model_plan_is_the_braced_part loads now goal w plan :
  fst (generate_with_ollama loads now goal w) = Ok (FromLLM plan) ->
  exists body text before mid after,
    fst (post w) = Response 200 body
    /\ response_text loads body = Some text
    /\ text = before ++ "{" ++ mid ++ "}" ++ after
    /\ Text.any_char (Ascii.eqb "{") before = false
    /\ Text.any_char (Ascii.eqb "}") after = false
    /\ loads ("{" ++ mid ++ "}") = Ok plan.
Proof.
  rewrite adapter_refines. unfold answer_or_fallback.
  destruct (parsed_answer loads (fst (post w))) as [plan'|] eqn:E;
    [|destruct (fallback_plan_generation now goal); discriminate].
  intros [= ->]. unfold parsed_answer in E.
  destruct (fst (post w)) as [| |status_code body]; try discriminate.
  destruct (Z.eqb_spec status_code 200) as [->|]; [|discriminate].
  destruct (response_text loads body) as [text|] eqn:Hrt; [|discriminate].
  destruct (located_json text) as [json_str|] eqn:Ej; [|discriminate].
  destruct (located_json_inv _ _ Ej)
    as (before & mid & after & Ht & -> & Hp & Hq).
  destruct (loads ("{" ++ mid ++ "}")) as [plan''|] eqn:El; [|discriminate].
  injection E as ->.
  exists body, text, before, mid, after. repeat split; assumption.
Qed.

Lemma model_plan_is_the_braced_part_witness :
  exists body text before mid after,
    fst (post chatty) = Response 200 body
    /\ response_text chatty_loads body = Some text
    /\ text = before ++ "{" ++ mid ++ "}" ++ after
    /\ Text.any_char (Ascii.eqb "{") before = false
    /\ Text.any_char (Ascii.eqb "}") after = false
    /\ chatty_loads ("{" ++ mid ++ "}") = Ok (JObject []).
Proof.
  apply (model_plan_is_the_braced_part chatty_loads a_day "Write a novel"
           chatty (JObject [])).
  vm_compute. reflexivity.
Defined.

(** ** The table of plans *)

Lemma find_app {A} (f : A -> bool) l l' :
  List.find f (l ++ l')
  = match List.find f l with
    | Some a => Some a
    | None => List.find f l'
    end.
Proof.
  induction l as [|a l IH]; cbn [app List.find]; [reflexivity|].
  now destruct (f a).
Qed.

Lemma largest_id_bound rows row :
  In row rows -> row_id row <= largest_id rows.
Proof.
  unfold largest_id. induction rows as [|r rows IH]; cbn [In map fold_right];
    [tauto|].
  intros [->|H]; [lia|]. specialize (IH H). lia.
Qed.

Lemma largest_id_nonneg rows : 0 <= largest_id rows.
Proof.
  unfold largest_id. induction rows as [|r rows IH]; cbn [map fold_right]; lia.
Qed.

Lemma largest_id_below rows m :
  0 < m -> (forall row, In row rows -> row_id row < m) ->
  largest_id rows < m.
Proof.
  unfold largest_id. intros Hm.
  induction rows as [|r rows IH]; cbn [map fold_right]; intros H; [exact Hm|].
  assert (row_id r < m) by (apply H; now left).
  assert (fold_right Z.max 0 (map row_id rows) < m)
    by (apply IH; intros; apply H; now right).
  lia.
Qed.

(** No row has an id above the largest. *)
Lemma above_the_ids_is_free rows plan_id :
  largest_id rows < plan_id ->
  List.find (fun row => row_id row =? plan_id) rows = None.
Proof.
  intros H. destruct (List.find _ rows) as [row|] eqn:E; [|reflexivity].
  apply find_some in E as [Hin Hid]. apply Z.eqb_eq in Hid.
  pose proof (largest_id_bound _ _ Hin). lia.
Qed.

Lemma bindable_spec plan_id :
  ((- MAX_ROWID - 1 <=? plan_id) && (plan_id <=? MAX_ROWID))%bool = true
  <-> bindable plan_id.
Proof.
  unfold bindable. rewrite andb_true_iff, !Z.leb_le. tauto.
Qed.

Lemma get_plan_bindable plan_id w :
  bindable plan_id ->
  get_plan plan_id w
  = Ok (List.find (fun row => row_id row =? plan_id) (task_plans w)).
Proof.
  intros H. unfold get_plan. apply bindable_spec in H. now rewrite H.
Qed.

Lemma get_plan_unbindable plan_id w :
  ~ bindable plan_id -> get_plan plan_id w = Raise OverflowError.
Proof.
  intros H. unfold get_plan.
  destruct (_ && _)%bool eqn:E; [|reflexivity].
  apply bindable_spec in E. contradiction.
Qed.

(** What [save_plan] leaves as it was. *)
Lemma save_plan_frame goal plan w :
  let w' := snd (save_plan goal plan w) in
  llm_method w' = llm_method w /\ ollama w' = ollama w
  /\ posts w' = posts w /\ stdout w' = stdout w.
Proof.
  cbv zeta. unfold save_plan. cbv zeta.
  destruct (match inserts w with [] => None | f :: _ => f end);
    [now repeat split|].
  destruct (MAX_ROWID <=? _); now repeat split.
Qed.

(** A row that was written. *)
Lemma save_plan_ok goal plan w plan_id :
  fst (save_plan goal plan w) = Ok plan_id ->
  plan_id = Z.max (sqlite_sequence w) (largest_id (task_plans w)) + 1
  /\ plan_id <= MAX_ROWID
  /\ task_plans (snd (save_plan goal plan w))
     = (task_plans w
        ++ [ {| row_id := plan_id; row_goal := goal; row_plan := plan;
                row_llm_method := llm_method w |} ])%list
  /\ sqlite_sequence (snd (save_plan goal plan w)) = plan_id.
Proof.
  unfold save_plan. cbv zeta.
  destruct (match inserts w with [] => None | f :: _ => f end);
    [discriminate|].
  destruct (Z.leb_spec MAX_ROWID
              (Z.max (sqlite_sequence w) (largest_id (task_plans w))));
    [discriminate|].
  cbn [fst snd task_plans sqlite_sequence]. intros [= <-].
  repeat split. lia.
Qed.

(** A row that was not. *)
Lemma save_plan_raise goal plan w e :
  fst (save_plan goal plan w) = Raise e ->
  task_plans (snd (save_plan goal plan w)) = task_plans w
  /\ sqlite_sequence (snd (save_plan goal plan w)) = sqlite_sequence w.
Proof.
  unfold save_plan. cbv zeta.
  destruct (match inserts w with [] => None | f :: _ => f end);
    [now split|].
  destruct (MAX_ROWID <=? _); [now split|discriminate].
Qed.

Lemma save_plan_succeeds goal plan w :
  insert_succeeds w -> exists plan_id, fst (save_plan goal plan w) = Ok plan_id.
Proof.
  intros (Hf & Hs & Hr). unfold save_plan. cbv zeta.
  assert (Hl : largest_id (task_plans w) < MAX_ROWID)
    by (apply largest_id_below; [reflexivity|exact Hr]).
  replace (match inserts w with [] => None | f :: _ => f end)
    with (@None exn) by (destruct (inserts w); [reflexivity|exact (eq_sym Hf)]).
  destruct (Z.leb_spec MAX_ROWID
              (Z.max (sqlite_sequence w) (largest_id (task_plans w))));
    [lia|]. cbn [fst]. eauto.
Qed.

Lemma unique_ids_app rows row :
  unique_ids rows -> largest_id rows < row_id row ->
  unique_ids (rows ++ [row]).
Proof.
  unfold unique_ids. intros Hu Hl. rewrite map_app. cbn [map].
  apply NoDup_app; [exact Hu|repeat constructor; intros []|].
  intros plan_id Hin [<-|[]]. apply in_map_iff in Hin as (r & Hid & Hin).
  pose proof (largest_id_bound _ _ Hin). lia.
Qed.

(** X12. [save_plan] and [get_plan] agree. When [save_plan] returns, its id
    is above every id of the table and above the largest id the table ever
    gave, so it was never used, also not by a deleted row; the table's
    [sqlite_sequence] becomes that id; [get_plan] on it found nothing
    before and now gives back the goal, the plan and the method just saved;
    the ids stay unique; and every other id reads as it did before. *)
Theorem saved_plan_is_read_back goal plan w plan_id :
  fst (save_plan goal plan w) = Ok plan_id ->
  let w' := snd (save_plan goal plan w) in
  sqlite_sequence w < plan_id
  /\ (forall row, In row (task_plans w) -> row_id row < plan_id)
  /\ sqlite_sequence w' = plan_id
  /\ get_plan plan_id w = Ok None
  /\ get_plan plan_id w'
     = Ok (Some {| row_id := plan_id; row_goal := goal; row_plan := plan;
                   row_llm_method := llm_method w |})
  /\ (unique_ids (task_plans w) -> unique_ids (task_plans w'))
  /\ forall other, other <> plan_id -> get_plan other w' = get_plan other w.
Proof.
  intros H. cbv zeta.
  destruct (save_plan_ok _ _ _ _ H) as (Hid & Hmax & Ht & Hs).
  assert (Hl : largest_id (task_plans w) < plan_id) by lia.
  pose proof (largest_id_nonneg (task_plans w)) as H0.
  assert (Hb : bindable plan_id) by (unfold bindable, MAX_ROWID in *; lia).
  pose proof (above_the_ids_is_free _ _ Hl) as Hfree.
  split; [lia|]. split.
  { intros row Hin. pose proof (largest_id_bound _ _ Hin). lia. }
  split; [exact Hs|]. split; [now rewrite get_plan_bindable, Hfree|].
  split; [|split].
  - rewrite get_plan_bindable, Ht, find_app, Hfree by exact Hb.
    cbn [List.find row_id]. now rewrite Z.eqb_refl.
  - intros Hu. rewrite Ht. now apply unique_ids_app.
  - intros other Ho. unfold get_plan. rewrite Ht.
    destruct (_ && _)%bool; [|reflexivity]. rewrite find_app.
    destruct (List.find (fun row => row_id row =? other) (task_plans w));
      [reflexivity|].
    cbn [List.find row_id]. apply Z.eqb_neq in Ho.
    rewrite Z.eqb_sym. now rewrite Ho.
Qed.

(** On a table that holds the rows 1 and 2 and once held a row 3, the new
    row gets the id 4. *)
Lemma saved_plan_is_read_back_witness :
  let w' := snd (save_plan "Write a novel" (FromRules novel_plan)
                   after_delete) in
  sqlite_sequence after_delete < 4
  /\ (forall row, In row (task_plans after_delete) -> row_id row < 4)
  /\ sqlite_sequence w' = 4
  /\ get_plan 4 after_delete = Ok None
  /\ get_plan 4 w'
     = Ok (Some {| row_id := 4; row_goal := "Write a novel";
                   row_plan := FromRules novel_plan;
                   row_llm_method := llm_method after_delete |})
  /\ (unique_ids (task_plans after_delete) -> unique_ids (task_plans w'))
  /\ forall other, other <> 4 -> get_plan other w' = get_plan other after_delete.
Proof.
  apply (saved_plan_is_read_back "Write a novel" (FromRules novel_plan)
           after_delete 4).
  reflexivity.
Defined.

(** X13. What [GET /api/plan/<id>] answers: 500 exactly when the id is not
    an integer of 64 bits, which [sqlite3] cannot bind; 404 "Plan not
    found" exactly when the id can be bound and no row of the table
    carries it; and otherwise a row of the table that carries the id, which
    on a table with unique ids is the row asked for. *)
Theorem unknown_plan_is_not_found plan_id w :
  (get_plan_endpoint plan_id w = Error500 OverflowError
   <-> ~ bindable plan_id)
  /\ (get_plan_endpoint plan_id w = NotFound404 "Plan not found"
      <-> bindable plan_id
          /\ forall row, In row (task_plans w) -> row_id row <> plan_id)
  /\ (forall row,
         get_plan_endpoint plan_id w = Found200 row ->
         In row (task_plans w) /\ row_id row = plan_id)
  /\ (forall row,
         unique_ids (task_plans w) -> In row (task_plans w) ->
         row_id row = plan_id -> bindable plan_id ->
         get_plan_endpoint plan_id w = Found200 row)
  /\ (forall e row, get_plan_endpoint plan_id w <> Error500 e
                    \/ get_plan_endpoint plan_id w <> Found200 row).
Proof.
  unfold get_plan_endpoint.
  assert (Hdec : bindable plan_id \/ ~ bindable plan_id)
    by (unfold bindable; lia).
  destruct Hdec as [Hb|Hb].
  - rewrite (get_plan_bindable _ _ Hb).
    destruct (List.find _ (task_plans w)) as [found|] eqn:E.
    + pose proof (find_some _ _ E) as [Hin Hid]. apply Z.eqb_eq in Hid.
      split; [split; [discriminate|tauto]|].
      split; [split; [discriminate|]|].
      { intros (_ & Hno). now apply Hno in Hin. }
      split; [intros row [= <-]; now split|]. split; [|now left].
      intros row Hu Hrow Hrid _. f_equal.
      unfold unique_ids in Hu. clear E.
      induction (task_plans w) as [|r rows IH]; [contradiction|].
      cbn [map] in Hu. inversion Hu as [|? ? Hnot Hrest]; subst.
      destruct Hin as [->|Hin], Hrow as [->|Hrow]; auto.
      * exfalso. apply Hnot. apply in_map_iff. exists row. split; congruence.
      * exfalso. apply Hnot. apply in_map_iff. exists found.
        split; congruence.
    + split; [split; [discriminate|tauto]|].
      split; [split; [|reflexivity]|].
      { intros _. split; [exact Hb|]. intros row Hin Hid.
        apply (find_none _ _ E) in Hin. apply Z.eqb_neq in Hin. contradiction. }
      split; [discriminate|]. split; [|now left].
      intros row _ Hin Hid _. apply (find_none _ _ E) in Hin.
      apply Z.eqb_neq in Hin. contradiction.
  - rewrite (get_plan_unbindable _ _ Hb).
    split; [tauto|]. split; [split; [discriminate|tauto]|].
    split; [discriminate|]. split; [tauto|now right].
Qed.

(** ** The service as a whole *)

Lemma announcements_app lines lines' :
  announcements (lines ++ lines')
  = (announcements lines + announcements lines')%nat.
Proof. unfold announcements. now rewrite filter_app, length_app. Qed.

Lemma announcements_warnings lines :
  forallb is_warning lines = true -> announcements lines = 0%nat.
Proof.
  unfold announcements. induction lines as [|line lines IH];
    cbn [forallb filter]; [reflexivity|].
  intros H. apply andb_prop in H as [Hl Hr]. rewrite Hl. cbn [negb]. auto.
Qed.

(** The adapter prints warnings only. *)
Lemma ollama_prints_warnings loads now goal w :
  exists lines,
    forallb is_warning lines = true
    /\ stdout (snd (generate_with_ollama loads now goal w))
       = (stdout w ++ lines)%list.
Proof.
  unfold generate_with_ollama. pose proof (stdout_post w) as Hpost.
  destruct (post w) as [reply w1]. cbn [snd] in Hpost. rewrite <- Hpost.
  assert (Htry : forall line, is_warning line = true ->
             exists lines,
               forallb is_warning lines = true
               /\ stdout (snd (fallback_in_try now goal (print line w1)))
                  = (stdout w1 ++ lines)%list).
  { intros line Hl. unfold fallback_in_try, on_exception.
    destruct (fallback_plan_generation now goal);
      cbn [snd print stdout].
    - exists [line]. cbn [forallb]. now rewrite Hl.
    - exists [line; WarnConnection]. cbn [forallb]. rewrite Hl.
      now rewrite <- app_assoc. }
  assert (Hexn : exists lines,
             forallb is_warning lines = true
             /\ stdout (snd (on_exception now goal w1))
                = (stdout w1 ++ lines)%list)
    by now exists [WarnConnection].
  destruct reply as [| |status_code body]; try exact Hexn.
  destruct (status_code =? 200); [|now apply Htry].
  destruct (response_text loads body) as [text|]; [|exact Hexn].
  cbv zeta. destruct (_ && _)%bool; [|now apply Htry].
  destruct (loads _) as [plan|e];
    [exists []; cbn [snd]; now rewrite app_nil_r|].
  destruct e; first [now apply Htry|exact Hexn].
Qed.

(** What generating a plan changes: one line announces it, and on Ollama
    one request is sent. The method and the table stay. *)
Lemma generate_task_plan_effect loads now goal w :
  let w' := snd (generate_task_plan loads now goal w) in
  llm_method w' = llm_method w
  /\ task_plans w' = task_plans w
  /\ sqlite_sequence w' = sqlite_sequence w
  /\ inserts w' = inserts w
  /\ announcements (stdout w') = S (announcements (stdout w))
  /\ posts w' = (if String.eqb (llm_method w) "ollama"
                 then S (posts w) else posts w).
Proof.
  cbv zeta. unfold generate_task_plan. cbv zeta. cbn [print llm_method].
  set (w1 := print (InfoGenerating (llm_method w)) w).
  assert (Hw1 : announcements (stdout w1) = S (announcements (stdout w))).
  { unfold w1. cbn [print stdout]. rewrite announcements_app.
    cbn. lia. }
  destruct (String.eqb (llm_method w) "ollama") eqn:Em.
  - destruct (one_request loads now goal w1) as (Hm & _ & Hp & Ht & Hq & Hi).
    destruct (ollama_prints_warnings loads now goal w1)
      as (lines & Hl & Hs).
    rewrite Hm, Ht, Hp, Hq, Hi, Hs, announcements_app.
    rewrite (announcements_warnings lines Hl), Hw1, Nat.add_0_r.
    unfold post.
    destruct (ollama w1);
      cbn [snd llm_method task_plans posts sqlite_sequence inserts];
      unfold w1;
      cbn [print llm_method task_plans posts sqlite_sequence inserts];
      now repeat split.
  - cbn [snd]. rewrite Hw1. unfold w1.
    cbn [print llm_method task_plans posts sqlite_sequence inserts].
    now repeat split.
Qed.

(** The two ways a request for a plan ends: it is refused and nothing
    happens, or a plan is generated for the stripped goal and saved when
    the generator returns. *)
Lemma create_plan_cases loads now data w :
  (snd (create_plan loads now data w) = w
   /\ (fst (create_plan loads now data w) = Status400 "Goal is required"
       \/ fst (create_plan loads now data w) = Status500 AttributeError
       \/ fst (create_plan loads now data w) = Status500 BadRequest))
  \/ exists fields s,
       data = Some (JObject fields)
       /\ lookup "goal" fields = Some (JString s)
       /\ Text.strip s <> ""
       /\ let g := generate_task_plan loads now (Text.strip s) w in
          match fst g with
          | Raise e =>
              create_plan loads now data w = (Status500 e, snd g)
          | Ok plan =>
              create_plan loads now data w
              = (match fst (save_plan (Text.strip s) plan (snd g)) with
                 | Ok plan_id => Status200 plan plan_id (llm_method w)
                 | Raise e => Status500 e
                 end,
                 snd (save_plan (Text.strip s) plan (snd g)))
          end.
Proof.
  unfold create_plan.
  destruct data as [[| | | | |fields]|]; try (left; cbn; now auto).
  cbv zeta.
  destruct (lookup "goal" fields) as [[| | |s| |]|] eqn:Eg;
    try (left; cbn; now auto).
  destruct (String.eqb_spec (Text.strip s) "") as [E|E];
    [left; cbn; now auto|].
  right. exists fields, s. repeat (split; [first [reflexivity|assumption]|]).
  pose proof (generate_task_plan_effect loads now (Text.strip s) w)
    as (Hm & _).
  destruct (generate_task_plan loads now (Text.strip s) w) as [r w1].
  cbn [fst snd] in *. destruct r as [plan|e]; [|reflexivity].
  pose proof (save_plan_frame (Text.strip s) plan w1) as (Hm' & _).
  destruct (save_plan (Text.strip s) plan w1) as [saved w2].
  cbn [fst snd] in *. destruct saved; [|reflexivity].
  now rewrite Hm', Hm.
Qed.

(** X14. No request for a new plan changes a stored one: what [get_plan]
    finds under an id before [POST /api/plan] it finds under that id
    afterwards, whatever the request holds and however it ends. The table
    is only added to. *)
Theorem stored_plans_stay loads now data w :
  let w' := snd (create_plan loads now data w) in
  (exists added, task_plans w' = (task_plans w ++ added)%list)
  /\ forall plan_id row,
       get_plan plan_id w = Ok (Some row) ->
       get_plan plan_id w' = Ok (Some row).
Proof.
  cbv zeta.
  assert (H : exists added,
             task_plans (snd (create_plan loads now data w))
             = (task_plans w ++ added)%list).
  { destruct (create_plan_cases loads now data w)
      as [(-> & _)|(fields & s & _ & _ & _ & Hg)].
    - exists []. now rewrite app_nil_r.
    - cbv zeta in Hg.
      pose proof (generate_task_plan_effect loads now (Text.strip s) w)
        as (_ & Ht & _).
      destruct (fst (generate_task_plan loads now (Text.strip s) w))
        as [plan|e]; rewrite Hg; cbn [snd].
      + destruct (fst (save_plan (Text.strip s) plan
                         (snd (generate_task_plan loads now (Text.strip s) w))))
          as [plan_id|e] eqn:Es.
        * destruct (save_plan_ok _ _ _ _ Es) as (_ & _ & -> & _).
          rewrite Ht. eauto.
        * destruct (save_plan_raise _ _ _ _ Es) as (-> & _).
          rewrite Ht. exists []. now rewrite app_nil_r.
      + rewrite Ht. exists []. now rewrite app_nil_r. }
  split; [exact H|]. destruct H as (added & Ha).
  intros plan_id row. unfold get_plan.
  destruct (_ && _)%bool; [|discriminate]. intros [= Hrow].
  now rewrite Ha, find_app, Hrow.
Qed.

(** X15. A plan is stored exactly when the request is answered 200: then
    one row is added, with an id above every id of the table and above the
    largest id the table ever gave, the stripped goal of the request, the
    plan that is sent back and the planner's method, and the answer carries
    that id and method. A request answered 400 or 500 leaves the table as
    it was, also when the generator or the [INSERT] raised after the model
    was asked. *)
Theorem plan_stored_exactly_on_200 loads now data w :
  let w' := snd (create_plan loads now data w) in
  match fst (create_plan loads now data w) with
  | Status200 plan plan_id method =>
      sqlite_sequence w < plan_id
      /\ (forall row, In row (task_plans w) -> row_id row < plan_id)
      /\ method = llm_method w
      /\ exists fields s,
           data = Some (JObject fields)
           /\ lookup "goal" fields = Some (JString s)
           /\ task_plans w'
              = (task_plans w
                 ++ [ {| row_id := plan_id; row_goal := Text.strip s;
                         row_plan := plan;
                         row_llm_method := method |} ])%list
  | Status400 _ | Status500 _ => task_plans w' = task_plans w
  end.
Proof.
  cbv zeta.
  destruct (create_plan_cases loads now data w)
    as [(-> & [-> | [-> | ->]])|(fields & s & Hd & Hl & _ & Hg)];
    try reflexivity.
  cbv zeta in Hg.
  pose proof (generate_task_plan_effect loads now (Text.strip s) w)
    as (Hm & Ht & Hq & _).
  destruct (fst (generate_task_plan loads now (Text.strip s) w))
    as [plan|e]; rewrite Hg; cbn [fst snd]; [|exact Ht].
  destruct (fst (save_plan (Text.strip s) plan
                   (snd (generate_task_plan loads now (Text.strip s) w))))
    as [plan_id|e] eqn:Es.
  - destruct (save_plan_ok _ _ _ _ Es) as (Hid & _ & Hrows & _).
    rewrite Hq, Ht in Hid. rewrite Hrows, Ht, Hm.
    split; [lia|]. split.
    { intros row Hin. pose proof (largest_id_bound _ _ Hin). lia. }
    split; [reflexivity|]. now exists fields, s.
  - destruct (save_plan_raise _ _ _ _ Es) as (-> & _). exact Ht.
Qed.

(** X16. A plan that was created can be read: when the request holds a
    goal that is not blank, the generator returns and the [INSERT] runs
    into nothing, the answer is 200 with an id under which no plan was
    stored before, and [GET /api/plan/<id>] for it then answers with the
    stripped goal, the same plan and the planner's method. *)
Theorem created_plan_is_served loads now fields s plan w :
  lookup "goal" fields = Some (JString s) ->
  Text.strip s <> "" ->
  fst (generate_task_plan loads now (Text.strip s) w) = Ok plan ->
  insert_succeeds w ->
  let w' := snd (create_plan loads now (Some (JObject fields)) w) in
  exists plan_id,
    fst (create_plan loads now (Some (JObject fields)) w)
    = Status200 plan plan_id (llm_method w)
    /\ get_plan_endpoint plan_id w = NotFound404 "Plan not found"
    /\ get_plan_endpoint plan_id w'
       = Found200 {| row_id := plan_id; row_goal := Text.strip s;
                     row_plan := plan; row_llm_method := llm_method w |}.
Proof.
  intros Hl Hs Hg Hi. cbv zeta.
  pose proof (generate_task_plan_effect loads now (Text.strip s) w)
    as (Hm & Ht & Hq & Hins & _).
  unfold create_plan. rewrite Hl. cbv zeta.
  apply String.eqb_neq in Hs. rewrite Hs.
  destruct (generate_task_plan loads now (Text.strip s) w) as [r w1].
  cbn [fst snd] in *. subst r.
  assert (Hi1 : insert_succeeds w1)
    by (unfold insert_succeeds; rewrite Hins, Hq, Ht; exact Hi).
  destruct (save_plan_succeeds (Text.strip s) plan w1 Hi1)
    as (plan_id & Hsave).
  destruct (save_plan_ok _ _ _ _ Hsave) as (Hid & Hmax & Hrows & _).
  pose proof (save_plan_frame (Text.strip s) plan w1) as (Hm' & _).
  destruct (save_plan (Text.strip s) plan w1) as [saved w2].
  cbn [fst snd] in *. subst saved. exists plan_id. cbn [fst snd].
  rewrite Hm', Hm. split; [reflexivity|].
  assert (Hl0 : largest_id (task_plans w) < plan_id)
    by (rewrite Ht in Hid; lia).
  pose proof (largest_id_nonneg (task_plans w)) as H0.
  assert (Hb : bindable plan_id) by (unfold bindable, MAX_ROWID in *; lia).
  pose proof (above_the_ids_is_free _ _ Hl0) as Hfree.
  unfold get_plan_endpoint. rewrite !get_plan_bindable by exact Hb.
  rewrite Hfree. split; [reflexivity|].
  rewrite Hrows, Hm, Ht, find_app, Hfree. cbn [List.find row_id].
  now rewrite Z.eqb_refl.
Qed.

Lemma created_plan_is_served_witness :
  let w' :=
    snd (create_plan no_json a_day (Some (JObject novel_request))
           after_delete) in
  exists plan_id,
    fst (create_plan no_json a_day (Some (JObject novel_request))
           after_delete)
    = Status200 (FromRules novel_plan) plan_id (llm_method after_delete)
    /\ get_plan_endpoint plan_id after_delete
       = NotFound404 "Plan not found"
    /\ get_plan_endpoint plan_id w'
       = Found200 {| row_id := plan_id;
                     row_goal := Text.strip "  Write a novel ";
                     row_plan := FromRules novel_plan;
                     row_llm_method := llm_method after_delete |}.
Proof.
  apply (created_plan_is_served no_json a_day novel_request
           "  Write a novel " (FromRules novel_plan) after_delete).
  - reflexivity.
  - discriminate.
  - vm_compute. reflexivity.
  - unfold insert_succeeds. split; [reflexivity|]. split; [reflexivity|].
    intros row [<-|[<-|[]]]; reflexivity.
Defined.

(** X17. A request whose body is not read as an object, or whose goal is
    not a text, is answered 500 and nothing else happens: the model is not
    asked, no line is printed and the table is left as it was. The answer
    400 is kept for a goal that is missing or blank. *)
Theorem malformed_request_is_500 loads now data w :
  (data = None
   \/ (exists v, data = Some v /\ forall fields, v <> JObject fields)
   \/ (exists fields v,
         data = Some (JObject fields) /\ lookup "goal" fields = Some v
         /\ forall s, v <> JString s)) ->
  snd (create_plan loads now data w) = w
  /\ exists e, fst (create_plan loads now data w) = Status500 e
               /\ (e = BadRequest <-> data = None).
Proof.
  unfold create_plan.
  intros [-> | [(v & -> & Hv)|(fields & v & -> & Hl & Hv)]].
  - split; [reflexivity|]. exists BadRequest. now split.
  - destruct v as [| | | | |fields]; try (exfalso; now apply (Hv fields));
      (split; [reflexivity|]; exists AttributeError;
       split; [reflexivity|]; split; discriminate).
  - rewrite Hl. cbv zeta.
    destruct v as [| | |s| |]; try (exfalso; now apply (Hv s));
      (split; [reflexivity|]; exists AttributeError;
       split; [reflexivity|]; split; discriminate).
Qed.

Lemma malformed_request_is_500_witness :
  snd (create_plan no_json a_day (Some (JObject number_request)) rule_based)
  = rule_based
  /\ exists e,
       fst (create_plan no_json a_day (Some (JObject number_request))
              rule_based) = Status500 e
       /\ (e = BadRequest <-> Some (JObject number_request) = None).
Proof.
  apply (malformed_request_is_500 no_json a_day
           (Some (JObject number_request)) rule_based).
  right. right. exists number_request, (JNumber 5).
  split; [reflexivity|]. split; [reflexivity|]. discriminate.
Defined.

(** The largest id the table ever gave, as SQLite reads it. *)
Lemma top_after_create loads now data w :
  let top w := Z.max (sqlite_sequence w) (largest_id (task_plans w)) in
  let w' := snd (create_plan loads now data w) in
  (task_plans w' = task_plans w /\ sqlite_sequence w' = sqlite_sequence w
   /\ announcements (stdout w) <= announcements (stdout w'))%nat
  \/ (exists row,
        task_plans w' = (task_plans w ++ [row])%list
        /\ row_id row = top w + 1
        /\ sqlite_sequence w' = row_id row
        /\ announcements (stdout w') = S (announcements (stdout w))).
Proof.
  cbv zeta.
  destruct (create_plan_cases loads now data w)
    as [(-> & _)|(fields & s & _ & _ & _ & Hg)]; [left; now auto|].
  cbv zeta in Hg.
  pose proof (generate_task_plan_effect loads now (Text.strip s) w)
    as (_ & Ht & Hq & _ & Ha & _).
  destruct (fst (generate_task_plan loads now (Text.strip s) w))
    as [plan|e]; rewrite Hg; cbn [snd];
    [|left; rewrite Ht, Hq, Ha; repeat split; lia].
  pose proof (save_plan_frame (Text.strip s) plan
                (snd (generate_task_plan loads now (Text.strip s) w)))
    as (_ & _ & _ & Hout).
  rewrite Hout, Ha.
  destruct (fst (save_plan (Text.strip s) plan
                   (snd (generate_task_plan loads now (Text.strip s) w))))
    as [plan_id|e] eqn:Es.
  - right. destruct (save_plan_ok _ _ _ _ Es) as (Hid & _ & -> & ->).
    rewrite Ht, Hq in *. eexists. split; [reflexivity|]. cbn [row_id].
    now repeat split.
  - left. destruct (save_plan_raise _ _ _ _ Es) as (-> & ->).
    rewrite Ht, Hq. repeat split. lia.
Qed.

(** X18. What holds of the service in every state it reaches, from the
    start of the planner through any number of requests for a plan, when
    the ids of the table it starts on are unique: they stay unique; the
    rows found at the start are all kept, in their place, and every row
    added has an id above theirs and above the largest id the table had
    ever given at the start, so no id is given twice, also not the id of a
    deleted row; the method is the one chosen at the start, "ollama" or
    "fallback"; on "fallback" no request was ever sent to the model, and on
    "ollama" exactly one for each plan announced, never a second try; and
    no more plans were stored than were announced. *)
Theorem service_invariant loads db w :
  unique_ids (fst (init_database db)) ->
  reachable loads db w ->
  unique_ids (task_plans w)
  /\ (exists added,
        task_plans w = (fst (init_database db) ++ added)%list
        /\ (List.length added <= announcements (stdout w))%nat
        /\ forall row, In row added ->
             snd (init_database db) < row_id row
             /\ forall old, In old (fst (init_database db)) ->
                  row_id old < row_id row)
  /\ (llm_method w = "ollama" \/ llm_method w = "fallback")
  /\ posts w = (if String.eqb (llm_method w) "ollama"
                then announcements (stdout w) else 0%nat).
Proof.
  intros Hdb Hr.
  set (base := Z.max (snd (init_database db))
                 (largest_id (fst (init_database db)))).
  assert (H : (unique_ids (task_plans w)
               /\ base <= Z.max (sqlite_sequence w)
                            (largest_id (task_plans w)))
              /\ (exists added,
                    task_plans w = (fst (init_database db) ++ added)%list
                    /\ (List.length added <= announcements (stdout w))%nat
                    /\ forall row, In row added -> base < row_id row)
              /\ (llm_method w = "ollama" \/ llm_method w = "fallback")
              /\ posts w = (if String.eqb (llm_method w) "ollama"
                            then announcements (stdout w) else 0%nat)).
  { induction Hr as [probe server disk|now data w Hr IH].
    - unfold LLMTaskPlanner, initialize_llm.
      destruct (check_ollama_server probe);
        cbn [snd task_plans sqlite_sequence llm_method posts stdout];
        (split; [split; [exact Hdb|unfold base; lia]|]);
        (split; [exists []; rewrite app_nil_r; repeat split;
                 [cbn; lia|intros ? []]|]); auto.
    - destruct IH as ((Hu & Hbase) & (added & Ha & Hn & Hnew) & Hm & Hp).
      assert (Hmethod : llm_method (snd (create_plan loads now data w))
                        = llm_method w
                        /\ posts (snd (create_plan loads now data w))
                           = (if String.eqb (llm_method w) "ollama"
                              then (posts w
                                    + (announcements
                                         (stdout (snd (create_plan loads now
                                                         data w)))
                                       - announcements (stdout w)))%nat
                              else posts w)).
      { destruct (create_plan_cases loads now data w)
          as [(-> & _)|(fields & s & _ & _ & _ & Hg)].
        - split; [reflexivity|]. destruct (String.eqb _ _); lia.
        - cbv zeta in Hg.
          pose proof (generate_task_plan_effect loads now (Text.strip s) w)
            as (Em & _ & _ & _ & Ea & Ep).
          pose proof
            (fun plan =>
               save_plan_frame (Text.strip s) plan
                 (snd (generate_task_plan loads now (Text.strip s) w)))
            as Hf. cbv zeta in Hf.
          destruct (fst (generate_task_plan loads now (Text.strip s) w))
            as [plan|e]; rewrite Hg; cbn [snd].
          + destruct (Hf plan) as (-> & _ & -> & ->). rewrite Em, Ep, Ea.
            split; [reflexivity|]. destruct (String.eqb _ _); lia.
          + rewrite Em, Ep, Ea. split; [reflexivity|].
            destruct (String.eqb _ _); lia. }
      destruct Hmethod as (Hm' & Hp').
      pose proof (top_after_create loads now data w) as Htop.
      cbv zeta in Htop. rewrite Hm', Hp'.
      destruct Htop as [(Ht & Hq & Hann)|(row & Ht & Hid & Hq & Hann)].
      + rewrite Ht, Hq. split; [now split|]. split.
        { exists added. repeat split; [exact Ha|lia|exact Hnew]. }
        split; [exact Hm|]. rewrite Hp. destruct (String.eqb _ _); lia.
      + rewrite Ht, Hq, Hann. split; [split|].
        * apply unique_ids_app; [exact Hu|lia].
        * lia.
        * split.
          { exists (added ++ [row])%list. rewrite Ha at 1.
            rewrite <- app_assoc. split; [reflexivity|].
            rewrite length_app. cbn [List.length]. split; [lia|].
            intros r Hin. apply in_app_or in Hin as [Hin|[<-|[]]];
              [now apply Hnew|lia]. }
          split; [exact Hm|]. rewrite Hp. destruct (String.eqb _ _); lia. }
  destruct H as ((Hu & _) & (added & Ha & Hn & Hnew) & Hm & Hp).
  split; [exact Hu|]. split; [|now split].
  exists added. split; [exact Ha|]. split; [exact Hn|].
  intros row Hin. specialize (Hnew row Hin). unfold base in Hnew.
  split; [lia|]. intros old Hold.
  pose proof (largest_id_bound _ _ Hold). lia.
Qed.

Lemma service_invariant_witness :
  unique_ids (task_plans served_novel)
  /\ (exists added,
        task_plans served_novel = (fst (init_database None) ++ added)%list
        /\ (List.length added <= announcements (stdout served_novel))%nat
        /\ forall row, In row added ->
             snd (init_database None) < row_id row
             /\ forall old, In old (fst (init_database None)) ->
                  row_id old < row_id row)
  /\ (llm_method served_novel = "ollama"
      \/ llm_method served_novel = "fallback")
  /\ posts served_novel
     = (if String.eqb (llm_method served_novel) "ollama"
        then announcements (stdout served_novel) else 0%nat).
Proof.
  apply (service_invariant no_json None served_novel).
  - constructor.
  - apply reachable_create. apply reachable_start.
Defined.
